(** * Landscaping estimator: extraction, dialogue state and pricing

    A shallow embedding of the conversational intake and pricing core:

    - [qouter.ts], the UK 2026 pricing engine;
    - [conversationManager.ts], the dialogue state manager;
    - [localExtraction.ts], the lexical field extractor;
    - [quickReplies.ts], the canned answers offered to the user;
    - [App.tsx], the part of the chat handler that settles the state and
      asks for the estimate;

    followed by the properties stated for them.  The repository keeps
    earlier copies of some of these files next to the current ones; where a
    property is also about an earlier copy, the part of the copy it
    concerns is embedded as well and named as such.

    Conventions of the embedding.

    - A JavaScript string is the list of its UTF-16 code units ([N]).
    - A JavaScript [number] is an exact rational ([Q]).  This is the
      double of the source without its rounding: no NaN (every
      [parseFloat] argument is a capture of [\d+(?:[.,]\d+)?]), no
      infinity (in the source a capture of 309 digits or more parses to
      [Infinity]) and no underflow (in the source a value or a product
      below 2^-1075 is [0]).  A property that needs the numbers to stay
      clear of these limits says so in a hypothesis.  [Math.round] is
      [floor (x + 1/2)], [Math.ceil] is the rational ceiling.  The
      comparison [x == y] of two numbers is [Qeq].
    - [String.prototype.toLowerCase] is defined on the code units below
      256 and is the identity above them.
    - [T | null] and an optional property [f?: T] are both [option T].
      A result of the local extractor holds no [null]; an answer of the
      conversation API can, and the merge stores such a [null] where it
      tests [!== undefined].  A property of the merge that this would
      break is stated for the results of the local extractor.
    - A regular expression literal is a value of [regex] together with
      its [i] flag, run by a backtracking matcher that follows the
      ECMAScript matching order (leftmost start, ordered alternation,
      greedy quantifiers). *)

From Stdlib Require Import ZArith NArith QArith Qabs Qround List String Ascii Bool Lia.
Import ListNotations.

Set Implicit Arguments.

(* ====================================================================== *)
(** ** JavaScript strings *)
(* ====================================================================== *)

Module JS.

Local Open Scope N_scope.

Definition char := N.
Definition jsstring := list char.

(** An ASCII literal of the source as a list of code units. *)
Definition str (s : string) : jsstring :=
  map N_of_ascii (list_ascii_of_string s).

(** Code units outside ASCII that occur in the source. *)
Definition POUND : char := 163%N.        (* U+00A3, the pound sign *)
Definition TIMES : char := 215%N.        (* U+00D7, the multiplication sign *)
Definition SUPER2 : char := 178%N.       (* U+00B2, superscript two *)

Definition between (lo hi c : char) : bool := (N.leb lo c && N.leb c hi)%bool.

Definition isDigit (c : char) : bool := between 48 57 c.
Definition isUpper (c : char) : bool := between 65 90 c.
Definition isLower (c : char) : bool := between 97 122 c.
Definition isAlnum (c : char) : bool := (isDigit c || isUpper c || isLower c)%bool.
(** [\w] *)
Definition isWord (c : char) : bool := (isAlnum c || N.eqb c 95)%bool.

(** ECMAScript WhiteSpace and LineTerminator: the set of [\s] and of
    [String.prototype.trim]. *)
Definition isSpace (c : char) : bool :=
  (between 9 13 c || N.eqb c 32 || N.eqb c 160 || N.eqb c 5760
   || between 8192 8202 c || N.eqb c 8232 || N.eqb c 8233
   || N.eqb c 8239 || N.eqb c 8287 || N.eqb c 12288 || N.eqb c 65279)%bool.

(** [toLowerCase] on the Basic Latin and Latin-1 Supplement blocks (code
    units below 256), where it maps one code unit to one code unit; the
    code units above them are left as they are. *)
Definition lowerChar (c : char) : char :=
  if isUpper c then (c + 32)%N
  else if (between 192 222 c && negb (N.eqb c 215))%bool then (c + 32)%N
  else c.

Definition upperAscii (c : char) : char :=
  if isLower c then (c - 32)%N else c.

Definition toLowerCase (s : jsstring) : jsstring := map lowerChar s.

(** [toUpperCase] on a string of ASCII letters, digits and white space. *)
Definition toUpperCaseAscii (s : jsstring) : jsstring := map upperAscii s.

Fixpoint eqb (s t : jsstring) : bool :=
  match s, t with
  | [], [] => true
  | c :: s', d :: t' => (N.eqb c d && eqb s' t')%bool
  | _, _ => false
  end.

Fixpoint startsWith (p s : jsstring) : bool :=
  match p, s with
  | [], _ => true
  | c :: p', d :: s' => (N.eqb c d && startsWith p' s')%bool
  | _ :: _, [] => false
  end.

(** [s.includes(p)] *)
Fixpoint includes (s p : jsstring) : bool :=
  (startsWith p s ||
   match s with
   | [] => false
   | _ :: s' => includes s' p
   end)%bool.

(** A chain [s.includes(k1) || s.includes(k2) || ...]. *)
Definition includesAny (s : jsstring) (ks : list string) : bool :=
  existsb (fun k => includes s (str k)) ks.

(** A chain [s === k1 || s === k2 || ...]. *)
Definition equalsAny (s : jsstring) (ks : list string) : bool :=
  existsb (fun k => eqb s (str k)) ks.

Fixpoint trimStart (s : jsstring) : jsstring :=
  match s with
  | c :: s' => if isSpace c then trimStart s' else s
  | [] => []
  end.

Definition trim (s : jsstring) : jsstring :=
  rev (trimStart (rev (trimStart s))).

(** [s.slice(n)] for [0 <= n]. *)
Definition slice (n : nat) (s : jsstring) : jsstring := skipn n s.

(** [s.split(' ').length]: one more than the number of spaces. *)
Definition splitSpaceLength (s : jsstring) : nat :=
  S (List.length (filter (N.eqb 32) s)).

(** [s.replace(',', '.')]: the first comma only. *)
Fixpoint replaceFirstComma (s : jsstring) : jsstring :=
  match s with
  | [] => []
  | c :: s' => if N.eqb c 44 then 46%N :: s' else c :: replaceFirstComma s'
  end.

(** [s.replace(/,/g, '')] *)
Definition removeCommas (s : jsstring) : jsstring :=
  filter (fun c => negb (N.eqb c 44)) s.

(** [s.replace(/\D/g, '')] *)
Definition digitsOnly (s : jsstring) : jsstring := filter isDigit s.

(** [(s.match(/\d/g) || []).length] *)
Definition digitCount (s : jsstring) : nat := List.length (digitsOnly s).

(** *** Numbers *)

Definition number := Q.

Definition digitVal (c : char) : Z := Z.of_N (c - 48).

Fixpoint takeDigits (s : jsstring) : jsstring * jsstring :=
  match s with
  | c :: s' =>
      if isDigit c then let (d, r) := takeDigits s' in (c :: d, r) else ([], s)
  | [] => ([], [])
  end.

Definition digitsToZ (ds : jsstring) : Z :=
  fold_left (fun acc c => (10 * acc + digitVal c)%Z) ds 0%Z.

(** [parseInt(s)] on a string that starts with a decimal digit. *)
Definition parseInt (s : jsstring) : Z := digitsToZ (fst (takeDigits s)).

(** [parseFloat(s)] on a string of the shape [digits] or [digits.digits]
    (the longest such prefix is read, as [parseFloat] does): the exact
    value of the decimal, which the source rounds to the nearest double. *)
Definition parseFloat (s : jsstring) : number :=
  let (ip, r) := takeDigits s in
  match r with
  | c :: r' =>
      if N.eqb c 46 then
        let fp := fst (takeDigits r') in
        Qred (inject_Z (digitsToZ (ip ++ fp))
              / inject_Z (10 ^ Z.of_nat (List.length fp)))
      else inject_Z (digitsToZ ip)
  | [] => inject_Z (digitsToZ ip)
  end.

(** Truthiness of a number, of a string, of an optional value. *)
Definition truthyNum (x : number) : bool := negb (Qeq_bool x 0%Q).
Definition truthyStr (s : jsstring) : bool :=
  match s with [] => false | _ => true end.

Definition optTruthyNum (o : option number) : bool :=
  match o with Some x => truthyNum x | None => false end.
Definition optTruthyStr (o : option jsstring) : bool :=
  match o with Some s => truthyStr s | None => false end.
Definition isSome {A} (o : option A) : bool :=
  match o with Some _ => true | None => false end.

Definition ltb (x y : number) : bool := negb (Qle_bool y x).
Definition gtb (x y : number) : bool := ltb y x.
Definition geb (x y : number) : bool := Qle_bool y x.

(** [Math.round] rounds to the nearest integer, a tie going up;
    [Math.ceil] is the ceiling.  Both return a [number]. *)
Definition round (x : number) : number := inject_Z (Qfloor (x + (1 # 2))%Q).
Definition ceil (x : number) : number := inject_Z (Qceiling x).

(** The decimal text of a whole number, as a template literal prints it
    (below 10^21, where JavaScript turns to the exponent notation). *)
Definition digitChar (d : Z) : char := (48 + Z.to_N d)%N.

Fixpoint showPos (fuel : nat) (n : Z) (acc : jsstring) : jsstring :=
  match fuel with
  | O => acc
  | S fuel' =>
      let acc' := digitChar (n mod 10)%Z :: acc in
      if (n <? 10)%Z then acc' else showPos fuel' (n / 10)%Z acc'
  end.

Definition showZ (n : Z) : jsstring :=
  if (n <? 0)%Z then 45%N :: showPos (Z.to_nat (- n)) (- n)%Z []
  else showPos (S (Z.to_nat n)) n [].

(* ---------------------------------------------------------------------- *)
(** *** Regular expressions *)
(* ---------------------------------------------------------------------- *)

Inductive regex : Type :=
| Eps                                   (* the empty pattern *)
| Lit (c : char)                        (* one literal character *)
| Class (p : char -> bool)              (* a character class *)
| Seq (r1 r2 : regex)                   (* r1 r2 *)
| Alt (r1 r2 : regex)                   (* r1 | r2, left first *)
| Star (r : regex)                      (* r*, greedy *)
| Group (n : nat) (r : regex)           (* the n-th capturing group *)
| NotAhead (r : regex)                  (* (?!r) *)
| Bol                                   (* ^ *)
| Eol                                   (* $ *)
| WordB.                                (* \b *)

Definition Opt (r : regex) : regex := Alt r Eps.             (* r? *)
Definition Plus (r : regex) : regex := Seq r (Star r).       (* r+ *)

Fixpoint Times (n : nat) (r : regex) : regex :=              (* r{n} *)
  match n with
  | O => Eps
  | S n' => Seq r (Times n' r)
  end.

Fixpoint Upto (n : nat) (r : regex) : regex :=               (* r{0,n} *)
  match n with
  | O => Eps
  | S n' => Opt (Seq r (Upto n' r))
  end.

(** r{m,n} *)
Definition Range (m n : nat) (r : regex) : regex :=
  Seq (Times m r) (Upto (n - m)%nat r).

(** r{m,} *)
Definition AtLeast (m : nat) (r : regex) : regex :=
  Seq (Times m r) (Star r).

Fixpoint Lits (s : jsstring) : regex :=
  match s with
  | [] => Eps
  | [c] => Lit c
  | c :: s' => Seq (Lit c) (Lits s')
  end.

(** A literal word of the pattern. *)
Definition Word (s : string) : regex := Lits (str s).

Fixpoint Cat (rs : list regex) : regex :=
  match rs with
  | [] => Eps
  | [r] => r
  | r :: rs' => Seq r (Cat rs')
  end.

Fixpoint Any (rs : list regex) : regex :=
  match rs with
  | [] => NotAhead Eps
  | [r] => r
  | r :: rs' => Alt r (Any rs')
  end.

(** A class given by its members, [[abc]]. *)
Definition OneOf (s : string) : regex :=
  Class (fun c => existsb (N.eqb c) (str s)).

Definition Digit : regex := Class isDigit.                   (* \d *)
Definition Space : regex := Class isSpace.                   (* \s *)

Record cursor : Type := {
  pos : nat;                       (* index of the next code unit *)
  before : option char;            (* the code unit just before it *)
  rest : jsstring;                 (* the input from [pos] on *)
  caps : list (nat * jsstring)     (* captures, most recent first *)
}.

Definition advance (c : cursor) : option (char * cursor) :=
  match rest c with
  | x :: xs =>
      Some (x, {| pos := S (pos c); before := Some x; rest := xs; caps := caps c |})
  | [] => None
  end.

(** Case-insensitive comparison of the [i] flag: a pattern character
    and an input character match when they have the same canonical
    (upper-case) form; a code unit outside ASCII is its own canonical form
    for the characters of these patterns. *)
Definition sameChar (ic : bool) (a x : char) : bool :=
  if ic then N.eqb (upperAscii a) (upperAscii x) else N.eqb a x.

Definition inClass (ic : bool) (p : char -> bool) (x : char) : bool :=
  if ic then (p x || p (upperAscii x) || p (lowerChar (upperAscii x)))%bool
  else p x.

Definition optIsWord (o : option char) : bool :=
  match o with Some c => isWord c | None => false end.

(** The backtracking matcher, in continuation-passing style: [run ic r k c]
    matches [r] at cursor [c] and hands every way of doing so, in priority
    order, to the continuation [k] until one succeeds.  An iteration of
    [r*] that consumes nothing is given up, as ECMAScript does, so one more
    round than there are code units left is all the fuel [r*] can use.  The
    patterns of this program have no group under a quantifier and no
    backreference, so captures need no resetting. *)
Fixpoint run (ic : bool) (r : regex) (k : cursor -> option cursor)
         (c : cursor) {struct r} : option cursor :=
  match r with
  | Eps => k c
  | Lit a =>
      match advance c with
      | Some (x, c') => if sameChar ic a x then k c' else None
      | None => None
      end
  | Class p =>
      match advance c with
      | Some (x, c') => if inClass ic p x then k c' else None
      | None => None
      end
  | Seq r1 r2 => run ic r1 (run ic r2 k) c
  | Alt r1 r2 =>
      match run ic r1 k c with
      | Some c' => Some c'
      | None => run ic r2 k c
      end
  | Star r1 =>
      (fix loop (fuel : nat) (c0 : cursor) {struct fuel} : option cursor :=
         match fuel with
         | O => k c0
         | S fuel' =>
             match run ic r1
                     (fun c' => if Nat.ltb (pos c0) (pos c') then loop fuel' c'
                                else None) c0 with
             | Some c' => Some c'
             | None => k c0
             end
         end) (S (List.length (rest c))) c
  | Group n r1 =>
      run ic r1
          (fun c' =>
             k {| pos := pos c'; before := before c'; rest := rest c';
                  caps := (n, firstn (pos c' - pos c)%nat (rest c)) :: caps c' |}) c
  | NotAhead r1 =>
      match run ic r1 Some c with
      | Some _ => None
      | None => k c
      end
  | Bol => if Nat.eqb (pos c) 0%nat then k c else None
  | Eol => match rest c with [] => k c | _ :: _ => None end
  | WordB =>
      if xorb (optIsWord (before c)) (optIsWord (hd_error (rest c)))
      then k c else None
  end.

(** A regular expression literal: its text as the program writes it (a
    code unit outside ASCII as a [\u] escape), the pattern it denotes, and
    its [i] flag. *)
Record RegExp : Type := {
  source : string;
  pattern : regex;
  ignoreCase : bool
}.

(** The result of [s.match(re)]: the matched text, its index, its groups. *)
Record MatchResult : Type := {
  matched : jsstring;
  index : nat;
  groups : list (nat * jsstring)
}.

Fixpoint searchFrom (re : RegExp) (i : nat) (prev : option char)
         (s : jsstring) {struct s} : option MatchResult :=
  match run (ignoreCase re) (pattern re) Some
            {| pos := i; before := prev; rest := s; caps := [] |} with
  | Some c' =>
      Some {| matched := firstn (pos c' - i)%nat s; index := i; groups := caps c' |}
  | None =>
      match s with
      | [] => None
      | x :: s' => searchFrom re (S i) (Some x) s'
      end
  end.

(** [s.match(re)] for a pattern without the [g] flag. *)
Definition matchRe (s : jsstring) (re : RegExp) : option MatchResult :=
  searchFrom re 0%nat None s.

(** [re.test(s)] *)
Definition test (re : RegExp) (s : jsstring) : bool :=
  isSome (matchRe s re).

(** [m[n]] for a group that took part in the match. *)
Definition group (n : nat) (m : MatchResult) : jsstring :=
  match find (fun p => Nat.eqb (fst p) n) (groups m) with
  | Some p => snd p
  | None => []
  end.

End JS.

Import JS.

(* ====================================================================== *)
(** ** The pricing engine ([qouter.ts]) *)
(* ====================================================================== *)

Inductive ServiceType : Type :=
| hardscaping | decking | softscaping | mowing | planting | fencing | framing.

Inductive MaterialTier : Type := standard | premium | luxury.
Inductive SlopeLevel : Type := flat | moderate | steep.
Inductive SubBaseType : Type := dirt | hardscape.

Definition ServiceType_eqb (a b : ServiceType) : bool :=
  match a, b with
  | hardscaping, hardscaping | decking, decking | softscaping, softscaping
  | mowing, mowing | planting, planting | fencing, fencing
  | framing, framing => true
  | _, _ => false
  end.

Definition SlopeLevel_eqb (a b : SlopeLevel) : bool :=
  match a, b with
  | flat, flat | moderate, moderate | steep, steep => true
  | _, _ => false
  end.

(** [o === v] for a nullable or optional service. *)
Definition serviceIs (o : option ServiceType) (v : ServiceType) : bool :=
  match o with Some a => ServiceType_eqb a v | None => false end.

Module Pricing.

Local Open Scope Q_scope.

Record ProjectInputs : Type := {
  service : ServiceType;
  (* Phase 1: logistics *)
  hasExcavatorAccess : bool;
  hasDrivewayForSkip : bool;
  (* Phase 2: ground conditions *)
  slopeLevel : SlopeLevel;
  subBaseType : SubBaseType;
  existingDemolition : bool;
  (* Phase 3: dimensions *)
  length_m : number;
  width_m : number;
  area_m2 : number;
  (* Phase 4: material tier *)
  materialTier : MaterialTier;
  (* Optional: deck-specific *)
  deckHeight_m : option number
}.

(** [{ ...inputs, hasExcavatorAccess: v }] *)
Definition set_hasExcavatorAccess (v : bool) (i : ProjectInputs)
  : ProjectInputs :=
  {| service := service i;
     hasExcavatorAccess := v;
     hasDrivewayForSkip := hasDrivewayForSkip i;
     slopeLevel := slopeLevel i;
     subBaseType := subBaseType i;
     existingDemolition := existingDemolition i;
     length_m := length_m i;
     width_m := width_m i;
     area_m2 := area_m2 i;
     materialTier := materialTier i;
     deckHeight_m := deckHeight_m i |}.

Inductive LineItemKind : Type := material | labor | surcharge | fee.

Definition LineItemKind_eqb (a b : LineItemKind) : bool :=
  match a, b with
  | material, material | labor, labor | surcharge, surcharge | fee, fee => true
  | _, _ => false
  end.

(** A line item.  The free-text [note] of the source is formatted with
    [toFixed] and carries no amount of its own; it is not part of the
    embedding. *)
Record LineItem : Type := {
  label : jsstring;
  amount : number;
  kind : LineItemKind
}.

Inductive ProjectStatus : Type := VIP_PRIORITY | Standard.

(** The estimate.  The [reasoning] text of the source is built with
    [toLocaleString] and [toFixed] from the same inputs; it is not part of
    the embedding. *)
Record EstimateResult : Type := {
  lowerBound : number;
  estimate : number;
  upperBound : number;
  lineItems : list LineItem;
  projectStatus : ProjectStatus
}.

(** *** UK 2026 price book *)

Record RateEntry : Type := { materialName : string; rate : number }.

Definition UK_2026_RATES (s : ServiceType) (t : MaterialTier) : RateEntry :=
  match s, t with
  | hardscaping, standard => {| materialName := "Concrete Pavers"; rate := 95 |}
  | hardscaping, premium => {| materialName := "Indian Sandstone"; rate := 125 |}
  | hardscaping, luxury => {| materialName := "Porcelain Paving"; rate := 155 |}
  | decking, standard => {| materialName := "Treated Softwood"; rate := 105 |}
  | decking, premium => {| materialName := "Premium Composite"; rate := 180 |}
  | decking, luxury => {| materialName := "Ipe Hardwood"; rate := 240 |}
  | softscaping, standard => {| materialName := "Basic Landscaping"; rate := 45 |}
  | softscaping, premium => {| materialName := "Premium Planting"; rate := 75 |}
  | softscaping, luxury => {| materialName := "Architectural Softscape"; rate := 110 |}
  | mowing, standard => {| materialName := "Basic Cut & Collect"; rate := 45 |}
  | mowing, premium => {| materialName := "Precision Cut & Edge"; rate := 65 |}
  | mowing, luxury => {| materialName := "Full Grounds Maintenance"; rate := 95 |}
  | planting, standard => {| materialName := "Container Plants"; rate := 45 |}
  | planting, premium => {| materialName := "Specimen Plants"; rate := 95 |}
  | planting, luxury => {| materialName := "Architectural Planting"; rate := 150 |}
  | fencing, standard => {| materialName := "Softwood Panel Fence"; rate := 75 |}
  | fencing, premium => {| materialName := "Treated Slat Fence"; rate := 125 |}
  | fencing, luxury => {| materialName := "Cedar Privacy Screen"; rate := 185 |}
  | framing, standard => {| materialName := "Basic Pergola Frame"; rate := 350 |}
  | framing, premium => {| materialName := "Engineered Timber Frame"; rate := 550 |}
  | framing, luxury => {| materialName := "Custom Hardwood Structure"; rate := 850 |}
  end.

Definition LABOR_RATE_PER_HOUR_GBP : number := 85.

Module SURCHARGES.
Definition councilPermit : number := 60.             (* no driveway for skip *)
Definition steepSlopeGrading : number := 8000.       (* >15 degree slope *)
Definition highAltitudeScaffolding : number := 1800. (* deck >1.5m *)
Definition skipLoad : number := 350.                 (* per 6-yard skip *)
End SURCHARGES.

Module BUSINESS_FEES.
Definition projectManagement : number := 10 # 100.   (* 0.10 *)
Definition contingency : number := 5 # 100.          (* 0.05 *)
Definition netProfit : number := 15 # 100.           (* 0.15 *)
End BUSINESS_FEES.

(** *** Helper functions *)

(** Hours per square metre (per linear metre for fencing). *)
Definition baseRates (s : ServiceType) : number :=
  match s with
  | hardscaping => 5 # 10
  | decking => 6 # 10
  | softscaping => 3 # 10
  | mowing => 8 # 100
  | planting => 4 # 10
  | fencing => 25 # 100
  | framing => 8 # 10
  end.

Definition estimateLaborHours (area_m2 : number) (s : ServiceType) : number :=
  area_m2 * baseRates s.

(** The skip loads of a demolition.  The comment of the source derives
    the count with two tons per skip and then settles on one ton per skip;
    the constant below is the one of the code. *)
Definition calculateSkipLoads (area_m2 : number) : number :=
  let WOOD_DENSITY_TONS_PER_M3 : number := 6 # 10 in
  let AVERAGE_THICKNESS_M : number := 15 # 100 in
  let TONS_PER_SKIP : number := 1 in
  let volume_m3 := area_m2 * AVERAGE_THICKNESS_M in
  let weight_tons := volume_m3 * WOOD_DENSITY_TONS_PER_M3 in
  ceil (weight_tons / TONS_PER_SKIP).

Definition getMaterialName (s : ServiceType) (t : MaterialTier) : jsstring :=
  str (materialName (UK_2026_RATES s t)).

(** Round to the nearest pound. *)
Definition roundGBP (value : number) : number := round value.

(** Projects over 5,000 pounds are flagged as VIP PRIORITY. *)
Definition determineProjectStatus (estimate : number) : ProjectStatus :=
  if gtb estimate 5000 then VIP_PRIORITY else Standard.

(** [lineItems.reduce((sum, item) => sum + item.amount, 0)] *)
Definition sumAmounts (items : list LineItem) : number :=
  fold_left (fun sum item => sum + amount item) items 0.

(** *** Cumulative calculation model *)

Definition calculateUKEstimate (inputs : ProjectInputs) : EstimateResult :=
  (* STEP 1: base material cost *)
  let materialRate := rate (UK_2026_RATES (service inputs) (materialTier inputs)) in
  let baseMaterialCost := area_m2 inputs * materialRate in
  let lineItems :=
    [ {| label := getMaterialName (service inputs) (materialTier inputs);
         amount := roundGBP baseMaterialCost;
         kind := material |} ] in
  (* STEP 2: base labor *)
  let laborHours := estimateLaborHours (area_m2 inputs) (service inputs) in
  let laborCost := laborHours * LABOR_RATE_PER_HOUR_GBP in
  (* STEP 3: access multiplier (labor only) *)
  let laborMultiplierApplied := negb (hasExcavatorAccess inputs) in
  let laborCost :=
    if negb (hasExcavatorAccess inputs) then laborCost * (145 # 100)
    else laborCost in
  let lineItems :=
    lineItems ++
    [ {| label := if laborMultiplierApplied
                  then str "Labor (restricted access - 1.45x multiplier)"
                  else str "Labor (crew + equipment)";
         amount := roundGBP laborCost;
         kind := labor |} ] in
  (* STEP 4: additive surcharges *)
  let lineItems :=
    if negb (hasDrivewayForSkip inputs) then
      lineItems ++
      [ {| label := str "Council permit surcharge";
           amount := SURCHARGES.councilPermit;
           kind := surcharge |} ]
    else lineItems in
  let lineItems :=
    if SlopeLevel_eqb (slopeLevel inputs) steep then
      lineItems ++
      [ {| label := str "Slope grading (>15" ++ [176%N] ++ str ")";
           amount := SURCHARGES.steepSlopeGrading;
           kind := surcharge |} ]
    else lineItems in
  let lineItems :=
    if existingDemolition inputs then
      let skipLoads := calculateSkipLoads (area_m2 inputs) in
      let skipCost := skipLoads * SURCHARGES.skipLoad in
      lineItems ++
      [ {| label := str "Demolition waste (" ++ showZ (Qfloor skipLoads)
                    ++ str " skip" ++ (if gtb skipLoads 1 then str "s" else [])
                    ++ str ")";
           amount := skipCost;
           kind := surcharge |} ]
    else lineItems in
  let lineItems :=
    if match deckHeight_m inputs with
       | Some h => truthyNum h && gtb h (15 # 10)
       | None => false
       end
    then
      lineItems ++
      [ {| label := str "High-altitude scaffolding";
           amount := SURCHARGES.highAltitudeScaffolding;
           kind := surcharge |} ]
    else lineItems in
  (* STEP 5: gross cost *)
  let subtotal := sumAmounts lineItems in
  (* STEP 6: business health wrapper *)
  let projectManagement := roundGBP (subtotal * BUSINESS_FEES.projectManagement) in
  let contingency := roundGBP (subtotal * BUSINESS_FEES.contingency) in
  let netProfit := roundGBP (subtotal * BUSINESS_FEES.netProfit) in
  let lineItems :=
    lineItems ++
    [ {| label := str "Project management (10%)"; amount := projectManagement;
         kind := fee |};
      {| label := str "Contingency reserve (5%)"; amount := contingency;
         kind := fee |};
      {| label := str "Net profit (15%)"; amount := netProfit; kind := fee |} ] in
  let finalCost := subtotal + projectManagement + contingency + netProfit in
  (* STEP 7: ballpark range *)
  let lowerBound := roundGBP (finalCost * (90 # 100)) in
  let estimate := roundGBP finalCost in
  let upperBound := roundGBP (finalCost * (110 # 100)) in
  let projectStatus := determineProjectStatus estimate in
  {| lowerBound := lowerBound;
     estimate := estimate;
     upperBound := upperBound;
     lineItems := lineItems;
     projectStatus := projectStatus |}.

End Pricing.

(* ====================================================================== *)
(** ** The dialogue state ([conversationManager.ts]) *)
(* ====================================================================== *)

(** The name of a field of the conversation, as the manager passes it
    around (['service'], ['dimensions'], ['fullName'], ...). *)
Definition FieldName := string.

Inductive Role : Type := agent | user | estimateRole.

Record ChatMessage : Type := {
  id : jsstring;
  role : Role;
  content : jsstring;
  timestamp : Z
}.

(** [ExtractedInfo]: what one utterance yields.  Every property is
    optional; [None] is [undefined]. *)
Module ExtractedInfo.

Record t : Type := {
  service : option ServiceType;
  area_m2 : option number;
  length_m : option number;
  width_m : option number;
  materialTier : option MaterialTier;
  hasExcavatorAccess : option bool;
  hasDrivewayForSkip : option bool;
  slopeLevel : option SlopeLevel;
  subBaseType : option SubBaseType;
  existingDemolition : option bool;
  deckHeight_m : option number;
  overgrown : option bool;
  gateCount : option number;
  wantsDrainage : option bool;
  wantsLedLighting : option bool;
  budgetAligns : option bool;
  fullName : option jsstring;
  userBudget : option number;
  postalCode : option jsstring;
  contactEmail : option jsstring;
  contactPhone : option jsstring;
  projectStartTiming : option jsstring;
  groundSoilType : option jsstring;
  explicitBudget : option bool
}.

(** The object literal [{}]. *)
Definition empty : t :=
  {| service := None;
     area_m2 := None;
     length_m := None;
     width_m := None;
     materialTier := None;
     hasExcavatorAccess := None;
     hasDrivewayForSkip := None;
     slopeLevel := None;
     subBaseType := None;
     existingDemolition := None;
     deckHeight_m := None;
     overgrown := None;
     gateCount := None;
     wantsDrainage := None;
     wantsLedLighting := None;
     budgetAligns := None;
     fullName := None;
     userBudget := None;
     postalCode := None;
     contactEmail := None;
     contactPhone := None;
     projectStartTiming := None;
     groundSoilType := None;
     explicitBudget := None |}.

(** [extracted.f = v] *)
Definition set_service (v : ServiceType) (r : t) : t :=
  {| service := Some v; area_m2 := area_m2 r; length_m := length_m r;
     width_m := width_m r; materialTier := materialTier r;
     hasExcavatorAccess := hasExcavatorAccess r;
     hasDrivewayForSkip := hasDrivewayForSkip r; slopeLevel := slopeLevel r;
     subBaseType := subBaseType r;
     existingDemolition := existingDemolition r;
     deckHeight_m := deckHeight_m r; overgrown := overgrown r;
     gateCount := gateCount r; wantsDrainage := wantsDrainage r;
     wantsLedLighting := wantsLedLighting r; budgetAligns := budgetAligns r;
     fullName := fullName r; userBudget := userBudget r;
     postalCode := postalCode r; contactEmail := contactEmail r;
     contactPhone := contactPhone r;
     projectStartTiming := projectStartTiming r;
     groundSoilType := groundSoilType r; explicitBudget := explicitBudget r |}.

Definition set_area_m2 (v : number) (r : t) : t :=
  {| service := service r; area_m2 := Some v; length_m := length_m r;
     width_m := width_m r; materialTier := materialTier r;
     hasExcavatorAccess := hasExcavatorAccess r;
     hasDrivewayForSkip := hasDrivewayForSkip r; slopeLevel := slopeLevel r;
     subBaseType := subBaseType r;
     existingDemolition := existingDemolition r;
     deckHeight_m := deckHeight_m r; overgrown := overgrown r;
     gateCount := gateCount r; wantsDrainage := wantsDrainage r;
     wantsLedLighting := wantsLedLighting r; budgetAligns := budgetAligns r;
     fullName := fullName r; userBudget := userBudget r;
     postalCode := postalCode r; contactEmail := contactEmail r;
     contactPhone := contactPhone r;
     projectStartTiming := projectStartTiming r;
     groundSoilType := groundSoilType r; explicitBudget := explicitBudget r |}.

Definition set_length_m (v : number) (r : t) : t :=
  {| service := service r; area_m2 := area_m2 r; length_m := Some v;
     width_m := width_m r; materialTier := materialTier r;
     hasExcavatorAccess := hasExcavatorAccess r;
     hasDrivewayForSkip := hasDrivewayForSkip r; slopeLevel := slopeLevel r;
     subBaseType := subBaseType r;
     existingDemolition := existingDemolition r;
     deckHeight_m := deckHeight_m r; overgrown := overgrown r;
     gateCount := gateCount r; wantsDrainage := wantsDrainage r;
     wantsLedLighting := wantsLedLighting r; budgetAligns := budgetAligns r;
     fullName := fullName r; userBudget := userBudget r;
     postalCode := postalCode r; contactEmail := contactEmail r;
     contactPhone := contactPhone r;
     projectStartTiming := projectStartTiming r;
     groundSoilType := groundSoilType r; explicitBudget := explicitBudget r |}.

Definition set_width_m (v : number) (r : t) : t :=
  {| service := service r; area_m2 := area_m2 r; length_m := length_m r;
     width_m := Some v; materialTier := materialTier r;
     hasExcavatorAccess := hasExcavatorAccess r;
     hasDrivewayForSkip := hasDrivewayForSkip r; slopeLevel := slopeLevel r;
     subBaseType := subBaseType r;
     existingDemolition := existingDemolition r;
     deckHeight_m := deckHeight_m r; overgrown := overgrown r;
     gateCount := gateCount r; wantsDrainage := wantsDrainage r;
     wantsLedLighting := wantsLedLighting r; budgetAligns := budgetAligns r;
     fullName := fullName r; userBudget := userBudget r;
     postalCode := postalCode r; contactEmail := contactEmail r;
     contactPhone := contactPhone r;
     projectStartTiming := projectStartTiming r;
     groundSoilType := groundSoilType r; explicitBudget := explicitBudget r |}.

Definition set_materialTier (v : MaterialTier) (r : t) : t :=
  {| service := service r; area_m2 := area_m2 r; length_m := length_m r;
     width_m := width_m r; materialTier := Some v;
     hasExcavatorAccess := hasExcavatorAccess r;
     hasDrivewayForSkip := hasDrivewayForSkip r; slopeLevel := slopeLevel r;
     subBaseType := subBaseType r;
     existingDemolition := existingDemolition r;
     deckHeight_m := deckHeight_m r; overgrown := overgrown r;
     gateCount := gateCount r; wantsDrainage := wantsDrainage r;
     wantsLedLighting := wantsLedLighting r; budgetAligns := budgetAligns r;
     fullName := fullName r; userBudget := userBudget r;
     postalCode := postalCode r; contactEmail := contactEmail r;
     contactPhone := contactPhone r;
     projectStartTiming := projectStartTiming r;
     groundSoilType := groundSoilType r; explicitBudget := explicitBudget r |}.

Definition set_hasExcavatorAccess (v : bool) (r : t) : t :=
  {| service := service r; area_m2 := area_m2 r; length_m := length_m r;
     width_m := width_m r; materialTier := materialTier r;
     hasExcavatorAccess := Some v; hasDrivewayForSkip := hasDrivewayForSkip r;
     slopeLevel := slopeLevel r; subBaseType := subBaseType r;
     existingDemolition := existingDemolition r;
     deckHeight_m := deckHeight_m r; overgrown := overgrown r;
     gateCount := gateCount r; wantsDrainage := wantsDrainage r;
     wantsLedLighting := wantsLedLighting r; budgetAligns := budgetAligns r;
     fullName := fullName r; userBudget := userBudget r;
     postalCode := postalCode r; contactEmail := contactEmail r;
     contactPhone := contactPhone r;
     projectStartTiming := projectStartTiming r;
     groundSoilType := groundSoilType r; explicitBudget := explicitBudget r |}.

Definition set_hasDrivewayForSkip (v : bool) (r : t) : t :=
  {| service := service r; area_m2 := area_m2 r; length_m := length_m r;
     width_m := width_m r; materialTier := materialTier r;
     hasExcavatorAccess := hasExcavatorAccess r; hasDrivewayForSkip := Some v;
     slopeLevel := slopeLevel r; subBaseType := subBaseType r;
     existingDemolition := existingDemolition r;
     deckHeight_m := deckHeight_m r; overgrown := overgrown r;
     gateCount := gateCount r; wantsDrainage := wantsDrainage r;
     wantsLedLighting := wantsLedLighting r; budgetAligns := budgetAligns r;
     fullName := fullName r; userBudget := userBudget r;
     postalCode := postalCode r; contactEmail := contactEmail r;
     contactPhone := contactPhone r;
     projectStartTiming := projectStartTiming r;
     groundSoilType := groundSoilType r; explicitBudget := explicitBudget r |}.

Definition set_slopeLevel (v : SlopeLevel) (r : t) : t :=
  {| service := service r; area_m2 := area_m2 r; length_m := length_m r;
     width_m := width_m r; materialTier := materialTier r;
     hasExcavatorAccess := hasExcavatorAccess r;
     hasDrivewayForSkip := hasDrivewayForSkip r; slopeLevel := Some v;
     subBaseType := subBaseType r;
     existingDemolition := existingDemolition r;
     deckHeight_m := deckHeight_m r; overgrown := overgrown r;
     gateCount := gateCount r; wantsDrainage := wantsDrainage r;
     wantsLedLighting := wantsLedLighting r; budgetAligns := budgetAligns r;
     fullName := fullName r; userBudget := userBudget r;
     postalCode := postalCode r; contactEmail := contactEmail r;
     contactPhone := contactPhone r;
     projectStartTiming := projectStartTiming r;
     groundSoilType := groundSoilType r; explicitBudget := explicitBudget r |}.

Definition set_subBaseType (v : SubBaseType) (r : t) : t :=
  {| service := service r; area_m2 := area_m2 r; length_m := length_m r;
     width_m := width_m r; materialTier := materialTier r;
     hasExcavatorAccess := hasExcavatorAccess r;
     hasDrivewayForSkip := hasDrivewayForSkip r; slopeLevel := slopeLevel r;
     subBaseType := Some v; existingDemolition := existingDemolition r;
     deckHeight_m := deckHeight_m r; overgrown := overgrown r;
     gateCount := gateCount r; wantsDrainage := wantsDrainage r;
     wantsLedLighting := wantsLedLighting r; budgetAligns := budgetAligns r;
     fullName := fullName r; userBudget := userBudget r;
     postalCode := postalCode r; contactEmail := contactEmail r;
     contactPhone := contactPhone r;
     projectStartTiming := projectStartTiming r;
     groundSoilType := groundSoilType r; explicitBudget := explicitBudget r |}.

Definition set_existingDemolition (v : bool) (r : t) : t :=
  {| service := service r; area_m2 := area_m2 r; length_m := length_m r;
     width_m := width_m r; materialTier := materialTier r;
     hasExcavatorAccess := hasExcavatorAccess r;
     hasDrivewayForSkip := hasDrivewayForSkip r; slopeLevel := slopeLevel r;
     subBaseType := subBaseType r; existingDemolition := Some v;
     deckHeight_m := deckHeight_m r; overgrown := overgrown r;
     gateCount := gateCount r; wantsDrainage := wantsDrainage r;
     wantsLedLighting := wantsLedLighting r; budgetAligns := budgetAligns r;
     fullName := fullName r; userBudget := userBudget r;
     postalCode := postalCode r; contactEmail := contactEmail r;
     contactPhone := contactPhone r;
     projectStartTiming := projectStartTiming r;
     groundSoilType := groundSoilType r; explicitBudget := explicitBudget r |}.

Definition set_deckHeight_m (v : number) (r : t) : t :=
  {| service := service r; area_m2 := area_m2 r; length_m := length_m r;
     width_m := width_m r; materialTier := materialTier r;
     hasExcavatorAccess := hasExcavatorAccess r;
     hasDrivewayForSkip := hasDrivewayForSkip r; slopeLevel := slopeLevel r;
     subBaseType := subBaseType r;
     existingDemolition := existingDemolition r; deckHeight_m := Some v;
     overgrown := overgrown r; gateCount := gateCount r;
     wantsDrainage := wantsDrainage r;
     wantsLedLighting := wantsLedLighting r; budgetAligns := budgetAligns r;
     fullName := fullName r; userBudget := userBudget r;
     postalCode := postalCode r; contactEmail := contactEmail r;
     contactPhone := contactPhone r;
     projectStartTiming := projectStartTiming r;
     groundSoilType := groundSoilType r; explicitBudget := explicitBudget r |}.

Definition set_overgrown (v : bool) (r : t) : t :=
  {| service := service r; area_m2 := area_m2 r; length_m := length_m r;
     width_m := width_m r; materialTier := materialTier r;
     hasExcavatorAccess := hasExcavatorAccess r;
     hasDrivewayForSkip := hasDrivewayForSkip r; slopeLevel := slopeLevel r;
     subBaseType := subBaseType r;
     existingDemolition := existingDemolition r;
     deckHeight_m := deckHeight_m r; overgrown := Some v;
     gateCount := gateCount r; wantsDrainage := wantsDrainage r;
     wantsLedLighting := wantsLedLighting r; budgetAligns := budgetAligns r;
     fullName := fullName r; userBudget := userBudget r;
     postalCode := postalCode r; contactEmail := contactEmail r;
     contactPhone := contactPhone r;
     projectStartTiming := projectStartTiming r;
     groundSoilType := groundSoilType r; explicitBudget := explicitBudget r |}.

Definition set_gateCount (v : number) (r : t) : t :=
  {| service := service r; area_m2 := area_m2 r; length_m := length_m r;
     width_m := width_m r; materialTier := materialTier r;
     hasExcavatorAccess := hasExcavatorAccess r;
     hasDrivewayForSkip := hasDrivewayForSkip r; slopeLevel := slopeLevel r;
     subBaseType := subBaseType r;
     existingDemolition := existingDemolition r;
     deckHeight_m := deckHeight_m r; overgrown := overgrown r;
     gateCount := Some v; wantsDrainage := wantsDrainage r;
     wantsLedLighting := wantsLedLighting r; budgetAligns := budgetAligns r;
     fullName := fullName r; userBudget := userBudget r;
     postalCode := postalCode r; contactEmail := contactEmail r;
     contactPhone := contactPhone r;
     projectStartTiming := projectStartTiming r;
     groundSoilType := groundSoilType r; explicitBudget := explicitBudget r |}.

Definition set_wantsDrainage (v : bool) (r : t) : t :=
  {| service := service r; area_m2 := area_m2 r; length_m := length_m r;
     width_m := width_m r; materialTier := materialTier r;
     hasExcavatorAccess := hasExcavatorAccess r;
     hasDrivewayForSkip := hasDrivewayForSkip r; slopeLevel := slopeLevel r;
     subBaseType := subBaseType r;
     existingDemolition := existingDemolition r;
     deckHeight_m := deckHeight_m r; overgrown := overgrown r;
     gateCount := gateCount r; wantsDrainage := Some v;
     wantsLedLighting := wantsLedLighting r; budgetAligns := budgetAligns r;
     fullName := fullName r; userBudget := userBudget r;
     postalCode := postalCode r; contactEmail := contactEmail r;
     contactPhone := contactPhone r;
     projectStartTiming := projectStartTiming r;
     groundSoilType := groundSoilType r; explicitBudget := explicitBudget r |}.

Definition set_wantsLedLighting (v : bool) (r : t) : t :=
  {| service := service r; area_m2 := area_m2 r; length_m := length_m r;
     width_m := width_m r; materialTier := materialTier r;
     hasExcavatorAccess := hasExcavatorAccess r;
     hasDrivewayForSkip := hasDrivewayForSkip r; slopeLevel := slopeLevel r;
     subBaseType := subBaseType r;
     existingDemolition := existingDemolition r;
     deckHeight_m := deckHeight_m r; overgrown := overgrown r;
     gateCount := gateCount r; wantsDrainage := wantsDrainage r;
     wantsLedLighting := Some v; budgetAligns := budgetAligns r;
     fullName := fullName r; userBudget := userBudget r;
     postalCode := postalCode r; contactEmail := contactEmail r;
     contactPhone := contactPhone r;
     projectStartTiming := projectStartTiming r;
     groundSoilType := groundSoilType r; explicitBudget := explicitBudget r |}.

Definition set_budgetAligns (v : bool) (r : t) : t :=
  {| service := service r; area_m2 := area_m2 r; length_m := length_m r;
     width_m := width_m r; materialTier := materialTier r;
     hasExcavatorAccess := hasExcavatorAccess r;
     hasDrivewayForSkip := hasDrivewayForSkip r; slopeLevel := slopeLevel r;
     subBaseType := subBaseType r;
     existingDemolition := existingDemolition r;
     deckHeight_m := deckHeight_m r; overgrown := overgrown r;
     gateCount := gateCount r; wantsDrainage := wantsDrainage r;
     wantsLedLighting := wantsLedLighting r; budgetAligns := Some v;
     fullName := fullName r; userBudget := userBudget r;
     postalCode := postalCode r; contactEmail := contactEmail r;
     contactPhone := contactPhone r;
     projectStartTiming := projectStartTiming r;
     groundSoilType := groundSoilType r; explicitBudget := explicitBudget r |}.

Definition set_fullName (v : jsstring) (r : t) : t :=
  {| service := service r; area_m2 := area_m2 r; length_m := length_m r;
     width_m := width_m r; materialTier := materialTier r;
     hasExcavatorAccess := hasExcavatorAccess r;
     hasDrivewayForSkip := hasDrivewayForSkip r; slopeLevel := slopeLevel r;
     subBaseType := subBaseType r;
     existingDemolition := existingDemolition r;
     deckHeight_m := deckHeight_m r; overgrown := overgrown r;
     gateCount := gateCount r; wantsDrainage := wantsDrainage r;
     wantsLedLighting := wantsLedLighting r; budgetAligns := budgetAligns r;
     fullName := Some v; userBudget := userBudget r; postalCode := postalCode r;
     contactEmail := contactEmail r; contactPhone := contactPhone r;
     projectStartTiming := projectStartTiming r;
     groundSoilType := groundSoilType r; explicitBudget := explicitBudget r |}.

Definition set_userBudget (v : number) (r : t) : t :=
  {| service := service r; area_m2 := area_m2 r; length_m := length_m r;
     width_m := width_m r; materialTier := materialTier r;
     hasExcavatorAccess := hasExcavatorAccess r;
     hasDrivewayForSkip := hasDrivewayForSkip r; slopeLevel := slopeLevel r;
     subBaseType := subBaseType r;
     existingDemolition := existingDemolition r;
     deckHeight_m := deckHeight_m r; overgrown := overgrown r;
     gateCount := gateCount r; wantsDrainage := wantsDrainage r;
     wantsLedLighting := wantsLedLighting r; budgetAligns := budgetAligns r;
     fullName := fullName r; userBudget := Some v; postalCode := postalCode r;
     contactEmail := contactEmail r; contactPhone := contactPhone r;
     projectStartTiming := projectStartTiming r;
     groundSoilType := groundSoilType r; explicitBudget := explicitBudget r |}.

Definition set_postalCode (v : jsstring) (r : t) : t :=
  {| service := service r; area_m2 := area_m2 r; length_m := length_m r;
     width_m := width_m r; materialTier := materialTier r;
     hasExcavatorAccess := hasExcavatorAccess r;
     hasDrivewayForSkip := hasDrivewayForSkip r; slopeLevel := slopeLevel r;
     subBaseType := subBaseType r;
     existingDemolition := existingDemolition r;
     deckHeight_m := deckHeight_m r; overgrown := overgrown r;
     gateCount := gateCount r; wantsDrainage := wantsDrainage r;
     wantsLedLighting := wantsLedLighting r; budgetAligns := budgetAligns r;
     fullName := fullName r; userBudget := userBudget r; postalCode := Some v;
     contactEmail := contactEmail r; contactPhone := contactPhone r;
     projectStartTiming := projectStartTiming r;
     groundSoilType := groundSoilType r; explicitBudget := explicitBudget r |}.

Definition set_contactEmail (v : jsstring) (r : t) : t :=
  {| service := service r; area_m2 := area_m2 r; length_m := length_m r;
     width_m := width_m r; materialTier := materialTier r;
     hasExcavatorAccess := hasExcavatorAccess r;
     hasDrivewayForSkip := hasDrivewayForSkip r; slopeLevel := slopeLevel r;
     subBaseType := subBaseType r;
     existingDemolition := existingDemolition r;
     deckHeight_m := deckHeight_m r; overgrown := overgrown r;
     gateCount := gateCount r; wantsDrainage := wantsDrainage r;
     wantsLedLighting := wantsLedLighting r; budgetAligns := budgetAligns r;
     fullName := fullName r; userBudget := userBudget r;
     postalCode := postalCode r; contactEmail := Some v;
     contactPhone := contactPhone r;
     projectStartTiming := projectStartTiming r;
     groundSoilType := groundSoilType r; explicitBudget := explicitBudget r |}.

Definition set_contactPhone (v : jsstring) (r : t) : t :=
  {| service := service r; area_m2 := area_m2 r; length_m := length_m r;
     width_m := width_m r; materialTier := materialTier r;
     hasExcavatorAccess := hasExcavatorAccess r;
     hasDrivewayForSkip := hasDrivewayForSkip r; slopeLevel := slopeLevel r;
     subBaseType := subBaseType r;
     existingDemolition := existingDemolition r;
     deckHeight_m := deckHeight_m r; overgrown := overgrown r;
     gateCount := gateCount r; wantsDrainage := wantsDrainage r;
     wantsLedLighting := wantsLedLighting r; budgetAligns := budgetAligns r;
     fullName := fullName r; userBudget := userBudget r;
     postalCode := postalCode r; contactEmail := contactEmail r;
     contactPhone := Some v; projectStartTiming := projectStartTiming r;
     groundSoilType := groundSoilType r; explicitBudget := explicitBudget r |}.

Definition set_projectStartTiming (v : jsstring) (r : t) : t :=
  {| service := service r; area_m2 := area_m2 r; length_m := length_m r;
     width_m := width_m r; materialTier := materialTier r;
     hasExcavatorAccess := hasExcavatorAccess r;
     hasDrivewayForSkip := hasDrivewayForSkip r; slopeLevel := slopeLevel r;
     subBaseType := subBaseType r;
     existingDemolition := existingDemolition r;
     deckHeight_m := deckHeight_m r; overgrown := overgrown r;
     gateCount := gateCount r; wantsDrainage := wantsDrainage r;
     wantsLedLighting := wantsLedLighting r; budgetAligns := budgetAligns r;
     fullName := fullName r; userBudget := userBudget r;
     postalCode := postalCode r; contactEmail := contactEmail r;
     contactPhone := contactPhone r; projectStartTiming := Some v;
     groundSoilType := groundSoilType r; explicitBudget := explicitBudget r |}.

Definition set_groundSoilType (v : jsstring) (r : t) : t :=
  {| service := service r; area_m2 := area_m2 r; length_m := length_m r;
     width_m := width_m r; materialTier := materialTier r;
     hasExcavatorAccess := hasExcavatorAccess r;
     hasDrivewayForSkip := hasDrivewayForSkip r; slopeLevel := slopeLevel r;
     subBaseType := subBaseType r;
     existingDemolition := existingDemolition r;
     deckHeight_m := deckHeight_m r; overgrown := overgrown r;
     gateCount := gateCount r; wantsDrainage := wantsDrainage r;
     wantsLedLighting := wantsLedLighting r; budgetAligns := budgetAligns r;
     fullName := fullName r; userBudget := userBudget r;
     postalCode := postalCode r; contactEmail := contactEmail r;
     contactPhone := contactPhone r;
     projectStartTiming := projectStartTiming r; groundSoilType := Some v;
     explicitBudget := explicitBudget r |}.

Definition set_explicitBudget (v : bool) (r : t) : t :=
  {| service := service r; area_m2 := area_m2 r; length_m := length_m r;
     width_m := width_m r; materialTier := materialTier r;
     hasExcavatorAccess := hasExcavatorAccess r;
     hasDrivewayForSkip := hasDrivewayForSkip r; slopeLevel := slopeLevel r;
     subBaseType := subBaseType r;
     existingDemolition := existingDemolition r;
     deckHeight_m := deckHeight_m r; overgrown := overgrown r;
     gateCount := gateCount r; wantsDrainage := wantsDrainage r;
     wantsLedLighting := wantsLedLighting r; budgetAligns := budgetAligns r;
     fullName := fullName r; userBudget := userBudget r;
     postalCode := postalCode r; contactEmail := contactEmail r;
     contactPhone := contactPhone r;
     projectStartTiming := projectStartTiming r;
     groundSoilType := groundSoilType r; explicitBudget := Some v |}.

End ExtractedInfo.

(** [ConversationState]: the cumulative fact set.  [None] is [null]. *)
Module ConversationState.

Record t : Type := {
  service : option ServiceType;
  area_m2 : option number;
  length_m : option number;
  width_m : option number;
  materialTier : option MaterialTier;
  hasExcavatorAccess : option bool;
  hasDrivewayForSkip : option bool;
  slopeLevel : option SlopeLevel;
  subBaseType : option SubBaseType;
  existingDemolition : option bool;
  deckHeight_m : option number;
  overgrown : option bool;
  gateCount : option number;
  wantsDrainage : option bool;
  wantsLedLighting : option bool;
  messageHistory : list ChatMessage;
  certaintyLevel : number;
  awaitingEstimate : bool;
  retryCount : list (FieldName * number);
  lastQuestionField : option FieldName;
  showQuickReplies : bool;
  budgetAligns : option bool;
  contactPhone : option jsstring;
  contactEmail : option jsstring;
  fullName : option jsstring;
  userBudget : option number;
  postalCode : option jsstring;
  projectStartTiming : option jsstring;
  groundSoilType : option jsstring
}.

(** [{ ...state, f: v }] *)
Definition set_service (v : option ServiceType) (r : t) : t :=
  {| service := v; area_m2 := area_m2 r; length_m := length_m r;
     width_m := width_m r; materialTier := materialTier r;
     hasExcavatorAccess := hasExcavatorAccess r;
     hasDrivewayForSkip := hasDrivewayForSkip r; slopeLevel := slopeLevel r;
     subBaseType := subBaseType r;
     existingDemolition := existingDemolition r;
     deckHeight_m := deckHeight_m r; overgrown := overgrown r;
     gateCount := gateCount r; wantsDrainage := wantsDrainage r;
     wantsLedLighting := wantsLedLighting r;
     messageHistory := messageHistory r; certaintyLevel := certaintyLevel r;
     awaitingEstimate := awaitingEstimate r; retryCount := retryCount r;
     lastQuestionField := lastQuestionField r;
     showQuickReplies := showQuickReplies r; budgetAligns := budgetAligns r;
     contactPhone := contactPhone r; contactEmail := contactEmail r;
     fullName := fullName r; userBudget := userBudget r;
     postalCode := postalCode r; projectStartTiming := projectStartTiming r;
     groundSoilType := groundSoilType r |}.

Definition set_area_m2 (v : option number) (r : t) : t :=
  {| service := service r; area_m2 := v; length_m := length_m r;
     width_m := width_m r; materialTier := materialTier r;
     hasExcavatorAccess := hasExcavatorAccess r;
     hasDrivewayForSkip := hasDrivewayForSkip r; slopeLevel := slopeLevel r;
     subBaseType := subBaseType r;
     existingDemolition := existingDemolition r;
     deckHeight_m := deckHeight_m r; overgrown := overgrown r;
     gateCount := gateCount r; wantsDrainage := wantsDrainage r;
     wantsLedLighting := wantsLedLighting r;
     messageHistory := messageHistory r; certaintyLevel := certaintyLevel r;
     awaitingEstimate := awaitingEstimate r; retryCount := retryCount r;
     lastQuestionField := lastQuestionField r;
     showQuickReplies := showQuickReplies r; budgetAligns := budgetAligns r;
     contactPhone := contactPhone r; contactEmail := contactEmail r;
     fullName := fullName r; userBudget := userBudget r;
     postalCode := postalCode r; projectStartTiming := projectStartTiming r;
     groundSoilType := groundSoilType r |}.

Definition set_length_m (v : option number) (r : t) : t :=
  {| service := service r; area_m2 := area_m2 r; length_m := v;
     width_m := width_m r; materialTier := materialTier r;
     hasExcavatorAccess := hasExcavatorAccess r;
     hasDrivewayForSkip := hasDrivewayForSkip r; slopeLevel := slopeLevel r;
     subBaseType := subBaseType r;
     existingDemolition := existingDemolition r;
     deckHeight_m := deckHeight_m r; overgrown := overgrown r;
     gateCount := gateCount r; wantsDrainage := wantsDrainage r;
     wantsLedLighting := wantsLedLighting r;
     messageHistory := messageHistory r; certaintyLevel := certaintyLevel r;
     awaitingEstimate := awaitingEstimate r; retryCount := retryCount r;
     lastQuestionField := lastQuestionField r;
     showQuickReplies := showQuickReplies r; budgetAligns := budgetAligns r;
     contactPhone := contactPhone r; contactEmail := contactEmail r;
     fullName := fullName r; userBudget := userBudget r;
     postalCode := postalCode r; projectStartTiming := projectStartTiming r;
     groundSoilType := groundSoilType r |}.

Definition set_width_m (v : option number) (r : t) : t :=
  {| service := service r; area_m2 := area_m2 r; length_m := length_m r;
     width_m := v; materialTier := materialTier r;
     hasExcavatorAccess := hasExcavatorAccess r;
     hasDrivewayForSkip := hasDrivewayForSkip r; slopeLevel := slopeLevel r;
     subBaseType := subBaseType r;
     existingDemolition := existingDemolition r;
     deckHeight_m := deckHeight_m r; overgrown := overgrown r;
     gateCount := gateCount r; wantsDrainage := wantsDrainage r;
     wantsLedLighting := wantsLedLighting r;
     messageHistory := messageHistory r; certaintyLevel := certaintyLevel r;
     awaitingEstimate := awaitingEstimate r; retryCount := retryCount r;
     lastQuestionField := lastQuestionField r;
     showQuickReplies := showQuickReplies r; budgetAligns := budgetAligns r;
     contactPhone := contactPhone r; contactEmail := contactEmail r;
     fullName := fullName r; userBudget := userBudget r;
     postalCode := postalCode r; projectStartTiming := projectStartTiming r;
     groundSoilType := groundSoilType r |}.

Definition set_materialTier (v : option MaterialTier) (r : t) : t :=
  {| service := service r; area_m2 := area_m2 r; length_m := length_m r;
     width_m := width_m r; materialTier := v;
     hasExcavatorAccess := hasExcavatorAccess r;
     hasDrivewayForSkip := hasDrivewayForSkip r; slopeLevel := slopeLevel r;
     subBaseType := subBaseType r;
     existingDemolition := existingDemolition r;
     deckHeight_m := deckHeight_m r; overgrown := overgrown r;
     gateCount := gateCount r; wantsDrainage := wantsDrainage r;
     wantsLedLighting := wantsLedLighting r;
     messageHistory := messageHistory r; certaintyLevel := certaintyLevel r;
     awaitingEstimate := awaitingEstimate r; retryCount := retryCount r;
     lastQuestionField := lastQuestionField r;
     showQuickReplies := showQuickReplies r; budgetAligns := budgetAligns r;
     contactPhone := contactPhone r; contactEmail := contactEmail r;
     fullName := fullName r; userBudget := userBudget r;
     postalCode := postalCode r; projectStartTiming := projectStartTiming r;
     groundSoilType := groundSoilType r |}.

Definition set_hasExcavatorAccess (v : option bool) (r : t) : t :=
  {| service := service r; area_m2 := area_m2 r; length_m := length_m r;
     width_m := width_m r; materialTier := materialTier r;
     hasExcavatorAccess := v; hasDrivewayForSkip := hasDrivewayForSkip r;
     slopeLevel := slopeLevel r; subBaseType := subBaseType r;
     existingDemolition := existingDemolition r;
     deckHeight_m := deckHeight_m r; overgrown := overgrown r;
     gateCount := gateCount r; wantsDrainage := wantsDrainage r;
     wantsLedLighting := wantsLedLighting r;
     messageHistory := messageHistory r; certaintyLevel := certaintyLevel r;
     awaitingEstimate := awaitingEstimate r; retryCount := retryCount r;
     lastQuestionField := lastQuestionField r;
     showQuickReplies := showQuickReplies r; budgetAligns := budgetAligns r;
     contactPhone := contactPhone r; contactEmail := contactEmail r;
     fullName := fullName r; userBudget := userBudget r;
     postalCode := postalCode r; projectStartTiming := projectStartTiming r;
     groundSoilType := groundSoilType r |}.

Definition set_hasDrivewayForSkip (v : option bool) (r : t) : t :=
  {| service := service r; area_m2 := area_m2 r; length_m := length_m r;
     width_m := width_m r; materialTier := materialTier r;
     hasExcavatorAccess := hasExcavatorAccess r; hasDrivewayForSkip := v;
     slopeLevel := slopeLevel r; subBaseType := subBaseType r;
     existingDemolition := existingDemolition r;
     deckHeight_m := deckHeight_m r; overgrown := overgrown r;
     gateCount := gateCount r; wantsDrainage := wantsDrainage r;
     wantsLedLighting := wantsLedLighting r;
     messageHistory := messageHistory r; certaintyLevel := certaintyLevel r;
     awaitingEstimate := awaitingEstimate r; retryCount := retryCount r;
     lastQuestionField := lastQuestionField r;
     showQuickReplies := showQuickReplies r; budgetAligns := budgetAligns r;
     contactPhone := contactPhone r; contactEmail := contactEmail r;
     fullName := fullName r; userBudget := userBudget r;
     postalCode := postalCode r; projectStartTiming := projectStartTiming r;
     groundSoilType := groundSoilType r |}.

Definition set_slopeLevel (v : option SlopeLevel) (r : t) : t :=
  {| service := service r; area_m2 := area_m2 r; length_m := length_m r;
     width_m := width_m r; materialTier := materialTier r;
     hasExcavatorAccess := hasExcavatorAccess r;
     hasDrivewayForSkip := hasDrivewayForSkip r; slopeLevel := v;
     subBaseType := subBaseType r;
     existingDemolition := existingDemolition r;
     deckHeight_m := deckHeight_m r; overgrown := overgrown r;
     gateCount := gateCount r; wantsDrainage := wantsDrainage r;
     wantsLedLighting := wantsLedLighting r;
     messageHistory := messageHistory r; certaintyLevel := certaintyLevel r;
     awaitingEstimate := awaitingEstimate r; retryCount := retryCount r;
     lastQuestionField := lastQuestionField r;
     showQuickReplies := showQuickReplies r; budgetAligns := budgetAligns r;
     contactPhone := contactPhone r; contactEmail := contactEmail r;
     fullName := fullName r; userBudget := userBudget r;
     postalCode := postalCode r; projectStartTiming := projectStartTiming r;
     groundSoilType := groundSoilType r |}.

Definition set_subBaseType (v : option SubBaseType) (r : t) : t :=
  {| service := service r; area_m2 := area_m2 r; length_m := length_m r;
     width_m := width_m r; materialTier := materialTier r;
     hasExcavatorAccess := hasExcavatorAccess r;
     hasDrivewayForSkip := hasDrivewayForSkip r; slopeLevel := slopeLevel r;
     subBaseType := v; existingDemolition := existingDemolition r;
     deckHeight_m := deckHeight_m r; overgrown := overgrown r;
     gateCount := gateCount r; wantsDrainage := wantsDrainage r;
     wantsLedLighting := wantsLedLighting r;
     messageHistory := messageHistory r; certaintyLevel := certaintyLevel r;
     awaitingEstimate := awaitingEstimate r; retryCount := retryCount r;
     lastQuestionField := lastQuestionField r;
     showQuickReplies := showQuickReplies r; budgetAligns := budgetAligns r;
     contactPhone := contactPhone r; contactEmail := contactEmail r;
     fullName := fullName r; userBudget := userBudget r;
     postalCode := postalCode r; projectStartTiming := projectStartTiming r;
     groundSoilType := groundSoilType r |}.

Definition set_existingDemolition (v : option bool) (r : t) : t :=
  {| service := service r; area_m2 := area_m2 r; length_m := length_m r;
     width_m := width_m r; materialTier := materialTier r;
     hasExcavatorAccess := hasExcavatorAccess r;
     hasDrivewayForSkip := hasDrivewayForSkip r; slopeLevel := slopeLevel r;
     subBaseType := subBaseType r; existingDemolition := v;
     deckHeight_m := deckHeight_m r; overgrown := overgrown r;
     gateCount := gateCount r; wantsDrainage := wantsDrainage r;
     wantsLedLighting := wantsLedLighting r;
     messageHistory := messageHistory r; certaintyLevel := certaintyLevel r;
     awaitingEstimate := awaitingEstimate r; retryCount := retryCount r;
     lastQuestionField := lastQuestionField r;
     showQuickReplies := showQuickReplies r; budgetAligns := budgetAligns r;
     contactPhone := contactPhone r; contactEmail := contactEmail r;
     fullName := fullName r; userBudget := userBudget r;
     postalCode := postalCode r; projectStartTiming := projectStartTiming r;
     groundSoilType := groundSoilType r |}.

Definition set_deckHeight_m (v : option number) (r : t) : t :=
  {| service := service r; area_m2 := area_m2 r; length_m := length_m r;
     width_m := width_m r; materialTier := materialTier r;
     hasExcavatorAccess := hasExcavatorAccess r;
     hasDrivewayForSkip := hasDrivewayForSkip r; slopeLevel := slopeLevel r;
     subBaseType := subBaseType r;
     existingDemolition := existingDemolition r; deckHeight_m := v;
     overgrown := overgrown r; gateCount := gateCount r;
     wantsDrainage := wantsDrainage r;
     wantsLedLighting := wantsLedLighting r;
     messageHistory := messageHistory r; certaintyLevel := certaintyLevel r;
     awaitingEstimate := awaitingEstimate r; retryCount := retryCount r;
     lastQuestionField := lastQuestionField r;
     showQuickReplies := showQuickReplies r; budgetAligns := budgetAligns r;
     contactPhone := contactPhone r; contactEmail := contactEmail r;
     fullName := fullName r; userBudget := userBudget r;
     postalCode := postalCode r; projectStartTiming := projectStartTiming r;
     groundSoilType := groundSoilType r |}.

Definition set_overgrown (v : option bool) (r : t) : t :=
  {| service := service r; area_m2 := area_m2 r; length_m := length_m r;
     width_m := width_m r; materialTier := materialTier r;
     hasExcavatorAccess := hasExcavatorAccess r;
     hasDrivewayForSkip := hasDrivewayForSkip r; slopeLevel := slopeLevel r;
     subBaseType := subBaseType r;
     existingDemolition := existingDemolition r;
     deckHeight_m := deckHeight_m r; overgrown := v;
     gateCount := gateCount r; wantsDrainage := wantsDrainage r;
     wantsLedLighting := wantsLedLighting r;
     messageHistory := messageHistory r; certaintyLevel := certaintyLevel r;
     awaitingEstimate := awaitingEstimate r; retryCount := retryCount r;
     lastQuestionField := lastQuestionField r;
     showQuickReplies := showQuickReplies r; budgetAligns := budgetAligns r;
     contactPhone := contactPhone r; contactEmail := contactEmail r;
     fullName := fullName r; userBudget := userBudget r;
     postalCode := postalCode r; projectStartTiming := projectStartTiming r;
     groundSoilType := groundSoilType r |}.

Definition set_gateCount (v : option number) (r : t) : t :=
  {| service := service r; area_m2 := area_m2 r; length_m := length_m r;
     width_m := width_m r; materialTier := materialTier r;
     hasExcavatorAccess := hasExcavatorAccess r;
     hasDrivewayForSkip := hasDrivewayForSkip r; slopeLevel := slopeLevel r;
     subBaseType := subBaseType r;
     existingDemolition := existingDemolition r;
     deckHeight_m := deckHeight_m r; overgrown := overgrown r;
     gateCount := v; wantsDrainage := wantsDrainage r;
     wantsLedLighting := wantsLedLighting r;
     messageHistory := messageHistory r; certaintyLevel := certaintyLevel r;
     awaitingEstimate := awaitingEstimate r; retryCount := retryCount r;
     lastQuestionField := lastQuestionField r;
     showQuickReplies := showQuickReplies r; budgetAligns := budgetAligns r;
     contactPhone := contactPhone r; contactEmail := contactEmail r;
     fullName := fullName r; userBudget := userBudget r;
     postalCode := postalCode r; projectStartTiming := projectStartTiming r;
     groundSoilType := groundSoilType r |}.

Definition set_wantsDrainage (v : option bool) (r : t) : t :=
  {| service := service r; area_m2 := area_m2 r; length_m := length_m r;
     width_m := width_m r; materialTier := materialTier r;
     hasExcavatorAccess := hasExcavatorAccess r;
     hasDrivewayForSkip := hasDrivewayForSkip r; slopeLevel := slopeLevel r;
     subBaseType := subBaseType r;
     existingDemolition := existingDemolition r;
     deckHeight_m := deckHeight_m r; overgrown := overgrown r;
     gateCount := gateCount r; wantsDrainage := v;
     wantsLedLighting := wantsLedLighting r;
     messageHistory := messageHistory r; certaintyLevel := certaintyLevel r;
     awaitingEstimate := awaitingEstimate r; retryCount := retryCount r;
     lastQuestionField := lastQuestionField r;
     showQuickReplies := showQuickReplies r; budgetAligns := budgetAligns r;
     contactPhone := contactPhone r; contactEmail := contactEmail r;
     fullName := fullName r; userBudget := userBudget r;
     postalCode := postalCode r; projectStartTiming := projectStartTiming r;
     groundSoilType := groundSoilType r |}.

Definition set_wantsLedLighting (v : option bool) (r : t) : t :=
  {| service := service r; area_m2 := area_m2 r; length_m := length_m r;
     width_m := width_m r; materialTier := materialTier r;
     hasExcavatorAccess := hasExcavatorAccess r;
     hasDrivewayForSkip := hasDrivewayForSkip r; slopeLevel := slopeLevel r;
     subBaseType := subBaseType r;
     existingDemolition := existingDemolition r;
     deckHeight_m := deckHeight_m r; overgrown := overgrown r;
     gateCount := gateCount r; wantsDrainage := wantsDrainage r;
     wantsLedLighting := v; messageHistory := messageHistory r;
     certaintyLevel := certaintyLevel r;
     awaitingEstimate := awaitingEstimate r; retryCount := retryCount r;
     lastQuestionField := lastQuestionField r;
     showQuickReplies := showQuickReplies r; budgetAligns := budgetAligns r;
     contactPhone := contactPhone r; contactEmail := contactEmail r;
     fullName := fullName r; userBudget := userBudget r;
     postalCode := postalCode r; projectStartTiming := projectStartTiming r;
     groundSoilType := groundSoilType r |}.

Definition set_certaintyLevel (v : number) (r : t) : t :=
  {| service := service r; area_m2 := area_m2 r; length_m := length_m r;
     width_m := width_m r; materialTier := materialTier r;
     hasExcavatorAccess := hasExcavatorAccess r;
     hasDrivewayForSkip := hasDrivewayForSkip r; slopeLevel := slopeLevel r;
     subBaseType := subBaseType r;
     existingDemolition := existingDemolition r;
     deckHeight_m := deckHeight_m r; overgrown := overgrown r;
     gateCount := gateCount r; wantsDrainage := wantsDrainage r;
     wantsLedLighting := wantsLedLighting r;
     messageHistory := messageHistory r; certaintyLevel := v;
     awaitingEstimate := awaitingEstimate r; retryCount := retryCount r;
     lastQuestionField := lastQuestionField r;
     showQuickReplies := showQuickReplies r; budgetAligns := budgetAligns r;
     contactPhone := contactPhone r; contactEmail := contactEmail r;
     fullName := fullName r; userBudget := userBudget r;
     postalCode := postalCode r; projectStartTiming := projectStartTiming r;
     groundSoilType := groundSoilType r |}.

Definition set_retryCount (v : list (FieldName * number)) (r : t) : t :=
  {| service := service r; area_m2 := area_m2 r; length_m := length_m r;
     width_m := width_m r; materialTier := materialTier r;
     hasExcavatorAccess := hasExcavatorAccess r;
     hasDrivewayForSkip := hasDrivewayForSkip r; slopeLevel := slopeLevel r;
     subBaseType := subBaseType r;
     existingDemolition := existingDemolition r;
     deckHeight_m := deckHeight_m r; overgrown := overgrown r;
     gateCount := gateCount r; wantsDrainage := wantsDrainage r;
     wantsLedLighting := wantsLedLighting r;
     messageHistory := messageHistory r; certaintyLevel := certaintyLevel r;
     awaitingEstimate := awaitingEstimate r; retryCount := v;
     lastQuestionField := lastQuestionField r;
     showQuickReplies := showQuickReplies r; budgetAligns := budgetAligns r;
     contactPhone := contactPhone r; contactEmail := contactEmail r;
     fullName := fullName r; userBudget := userBudget r;
     postalCode := postalCode r; projectStartTiming := projectStartTiming r;
     groundSoilType := groundSoilType r |}.

Definition set_lastQuestionField (v : option FieldName) (r : t) : t :=
  {| service := service r; area_m2 := area_m2 r; length_m := length_m r;
     width_m := width_m r; materialTier := materialTier r;
     hasExcavatorAccess := hasExcavatorAccess r;
     hasDrivewayForSkip := hasDrivewayForSkip r; slopeLevel := slopeLevel r;
     subBaseType := subBaseType r;
     existingDemolition := existingDemolition r;
     deckHeight_m := deckHeight_m r; overgrown := overgrown r;
     gateCount := gateCount r; wantsDrainage := wantsDrainage r;
     wantsLedLighting := wantsLedLighting r;
     messageHistory := messageHistory r; certaintyLevel := certaintyLevel r;
     awaitingEstimate := awaitingEstimate r; retryCount := retryCount r;
     lastQuestionField := v; showQuickReplies := showQuickReplies r;
     budgetAligns := budgetAligns r; contactPhone := contactPhone r;
     contactEmail := contactEmail r; fullName := fullName r;
     userBudget := userBudget r; postalCode := postalCode r;
     projectStartTiming := projectStartTiming r;
     groundSoilType := groundSoilType r |}.

Definition set_showQuickReplies (v : bool) (r : t) : t :=
  {| service := service r; area_m2 := area_m2 r; length_m := length_m r;
     width_m := width_m r; materialTier := materialTier r;
     hasExcavatorAccess := hasExcavatorAccess r;
     hasDrivewayForSkip := hasDrivewayForSkip r; slopeLevel := slopeLevel r;
     subBaseType := subBaseType r;
     existingDemolition := existingDemolition r;
     deckHeight_m := deckHeight_m r; overgrown := overgrown r;
     gateCount := gateCount r; wantsDrainage := wantsDrainage r;
     wantsLedLighting := wantsLedLighting r;
     messageHistory := messageHistory r; certaintyLevel := certaintyLevel r;
     awaitingEstimate := awaitingEstimate r; retryCount := retryCount r;
     lastQuestionField := lastQuestionField r; showQuickReplies := v;
     budgetAligns := budgetAligns r; contactPhone := contactPhone r;
     contactEmail := contactEmail r; fullName := fullName r;
     userBudget := userBudget r; postalCode := postalCode r;
     projectStartTiming := projectStartTiming r;
     groundSoilType := groundSoilType r |}.

Definition set_budgetAligns (v : option bool) (r : t) : t :=
  {| service := service r; area_m2 := area_m2 r; length_m := length_m r;
     width_m := width_m r; materialTier := materialTier r;
     hasExcavatorAccess := hasExcavatorAccess r;
     hasDrivewayForSkip := hasDrivewayForSkip r; slopeLevel := slopeLevel r;
     subBaseType := subBaseType r;
     existingDemolition := existingDemolition r;
     deckHeight_m := deckHeight_m r; overgrown := overgrown r;
     gateCount := gateCount r; wantsDrainage := wantsDrainage r;
     wantsLedLighting := wantsLedLighting r;
     messageHistory := messageHistory r; certaintyLevel := certaintyLevel r;
     awaitingEstimate := awaitingEstimate r; retryCount := retryCount r;
     lastQuestionField := lastQuestionField r;
     showQuickReplies := showQuickReplies r; budgetAligns := v;
     contactPhone := contactPhone r; contactEmail := contactEmail r;
     fullName := fullName r; userBudget := userBudget r;
     postalCode := postalCode r; projectStartTiming := projectStartTiming r;
     groundSoilType := groundSoilType r |}.

Definition set_contactPhone (v : option jsstring) (r : t) : t :=
  {| service := service r; area_m2 := area_m2 r; length_m := length_m r;
     width_m := width_m r; materialTier := materialTier r;
     hasExcavatorAccess := hasExcavatorAccess r;
     hasDrivewayForSkip := hasDrivewayForSkip r; slopeLevel := slopeLevel r;
     subBaseType := subBaseType r;
     existingDemolition := existingDemolition r;
     deckHeight_m := deckHeight_m r; overgrown := overgrown r;
     gateCount := gateCount r; wantsDrainage := wantsDrainage r;
     wantsLedLighting := wantsLedLighting r;
     messageHistory := messageHistory r; certaintyLevel := certaintyLevel r;
     awaitingEstimate := awaitingEstimate r; retryCount := retryCount r;
     lastQuestionField := lastQuestionField r;
     showQuickReplies := showQuickReplies r; budgetAligns := budgetAligns r;
     contactPhone := v; contactEmail := contactEmail r;
     fullName := fullName r; userBudget := userBudget r;
     postalCode := postalCode r; projectStartTiming := projectStartTiming r;
     groundSoilType := groundSoilType r |}.

Definition set_contactEmail (v : option jsstring) (r : t) : t :=
  {| service := service r; area_m2 := area_m2 r; length_m := length_m r;
     width_m := width_m r; materialTier := materialTier r;
     hasExcavatorAccess := hasExcavatorAccess r;
     hasDrivewayForSkip := hasDrivewayForSkip r; slopeLevel := slopeLevel r;
     subBaseType := subBaseType r;
     existingDemolition := existingDemolition r;
     deckHeight_m := deckHeight_m r; overgrown := overgrown r;
     gateCount := gateCount r; wantsDrainage := wantsDrainage r;
     wantsLedLighting := wantsLedLighting r;
     messageHistory := messageHistory r; certaintyLevel := certaintyLevel r;
     awaitingEstimate := awaitingEstimate r; retryCount := retryCount r;
     lastQuestionField := lastQuestionField r;
     showQuickReplies := showQuickReplies r; budgetAligns := budgetAligns r;
     contactPhone := contactPhone r; contactEmail := v;
     fullName := fullName r; userBudget := userBudget r;
     postalCode := postalCode r; projectStartTiming := projectStartTiming r;
     groundSoilType := groundSoilType r |}.

Definition set_fullName (v : option jsstring) (r : t) : t :=
  {| service := service r; area_m2 := area_m2 r; length_m := length_m r;
     width_m := width_m r; materialTier := materialTier r;
     hasExcavatorAccess := hasExcavatorAccess r;
     hasDrivewayForSkip := hasDrivewayForSkip r; slopeLevel := slopeLevel r;
     subBaseType := subBaseType r;
     existingDemolition := existingDemolition r;
     deckHeight_m := deckHeight_m r; overgrown := overgrown r;
     gateCount := gateCount r; wantsDrainage := wantsDrainage r;
     wantsLedLighting := wantsLedLighting r;
     messageHistory := messageHistory r; certaintyLevel := certaintyLevel r;
     awaitingEstimate := awaitingEstimate r; retryCount := retryCount r;
     lastQuestionField := lastQuestionField r;
     showQuickReplies := showQuickReplies r; budgetAligns := budgetAligns r;
     contactPhone := contactPhone r; contactEmail := contactEmail r;
     fullName := v; userBudget := userBudget r; postalCode := postalCode r;
     projectStartTiming := projectStartTiming r;
     groundSoilType := groundSoilType r |}.

Definition set_userBudget (v : option number) (r : t) : t :=
  {| service := service r; area_m2 := area_m2 r; length_m := length_m r;
     width_m := width_m r; materialTier := materialTier r;
     hasExcavatorAccess := hasExcavatorAccess r;
     hasDrivewayForSkip := hasDrivewayForSkip r; slopeLevel := slopeLevel r;
     subBaseType := subBaseType r;
     existingDemolition := existingDemolition r;
     deckHeight_m := deckHeight_m r; overgrown := overgrown r;
     gateCount := gateCount r; wantsDrainage := wantsDrainage r;
     wantsLedLighting := wantsLedLighting r;
     messageHistory := messageHistory r; certaintyLevel := certaintyLevel r;
     awaitingEstimate := awaitingEstimate r; retryCount := retryCount r;
     lastQuestionField := lastQuestionField r;
     showQuickReplies := showQuickReplies r; budgetAligns := budgetAligns r;
     contactPhone := contactPhone r; contactEmail := contactEmail r;
     fullName := fullName r; userBudget := v; postalCode := postalCode r;
     projectStartTiming := projectStartTiming r;
     groundSoilType := groundSoilType r |}.

Definition set_postalCode (v : option jsstring) (r : t) : t :=
  {| service := service r; area_m2 := area_m2 r; length_m := length_m r;
     width_m := width_m r; materialTier := materialTier r;
     hasExcavatorAccess := hasExcavatorAccess r;
     hasDrivewayForSkip := hasDrivewayForSkip r; slopeLevel := slopeLevel r;
     subBaseType := subBaseType r;
     existingDemolition := existingDemolition r;
     deckHeight_m := deckHeight_m r; overgrown := overgrown r;
     gateCount := gateCount r; wantsDrainage := wantsDrainage r;
     wantsLedLighting := wantsLedLighting r;
     messageHistory := messageHistory r; certaintyLevel := certaintyLevel r;
     awaitingEstimate := awaitingEstimate r; retryCount := retryCount r;
     lastQuestionField := lastQuestionField r;
     showQuickReplies := showQuickReplies r; budgetAligns := budgetAligns r;
     contactPhone := contactPhone r; contactEmail := contactEmail r;
     fullName := fullName r; userBudget := userBudget r; postalCode := v;
     projectStartTiming := projectStartTiming r;
     groundSoilType := groundSoilType r |}.

Definition set_projectStartTiming (v : option jsstring) (r : t) : t :=
  {| service := service r; area_m2 := area_m2 r; length_m := length_m r;
     width_m := width_m r; materialTier := materialTier r;
     hasExcavatorAccess := hasExcavatorAccess r;
     hasDrivewayForSkip := hasDrivewayForSkip r; slopeLevel := slopeLevel r;
     subBaseType := subBaseType r;
     existingDemolition := existingDemolition r;
     deckHeight_m := deckHeight_m r; overgrown := overgrown r;
     gateCount := gateCount r; wantsDrainage := wantsDrainage r;
     wantsLedLighting := wantsLedLighting r;
     messageHistory := messageHistory r; certaintyLevel := certaintyLevel r;
     awaitingEstimate := awaitingEstimate r; retryCount := retryCount r;
     lastQuestionField := lastQuestionField r;
     showQuickReplies := showQuickReplies r; budgetAligns := budgetAligns r;
     contactPhone := contactPhone r; contactEmail := contactEmail r;
     fullName := fullName r; userBudget := userBudget r;
     postalCode := postalCode r; projectStartTiming := v;
     groundSoilType := groundSoilType r |}.

Definition set_groundSoilType (v : option jsstring) (r : t) : t :=
  {| service := service r; area_m2 := area_m2 r; length_m := length_m r;
     width_m := width_m r; materialTier := materialTier r;
     hasExcavatorAccess := hasExcavatorAccess r;
     hasDrivewayForSkip := hasDrivewayForSkip r; slopeLevel := slopeLevel r;
     subBaseType := subBaseType r;
     existingDemolition := existingDemolition r;
     deckHeight_m := deckHeight_m r; overgrown := overgrown r;
     gateCount := gateCount r; wantsDrainage := wantsDrainage r;
     wantsLedLighting := wantsLedLighting r;
     messageHistory := messageHistory r; certaintyLevel := certaintyLevel r;
     awaitingEstimate := awaitingEstimate r; retryCount := retryCount r;
     lastQuestionField := lastQuestionField r;
     showQuickReplies := showQuickReplies r; budgetAligns := budgetAligns r;
     contactPhone := contactPhone r; contactEmail := contactEmail r;
     fullName := fullName r; userBudget := userBudget r;
     postalCode := postalCode r; projectStartTiming := projectStartTiming r;
     groundSoilType := v |}.

End ConversationState.

Module Manager.

Module S := ConversationState.
Module E := ExtractedInfo.

Local Open Scope Q_scope.
Local Open Scope string_scope.

Definition createInitialState : S.t :=
  {| S.service := None;
     S.area_m2 := None;
     S.length_m := None;
     S.width_m := None;
     S.materialTier := None;
     S.hasExcavatorAccess := None;
     S.hasDrivewayForSkip := None;
     S.slopeLevel := None;
     S.subBaseType := None;
     S.existingDemolition := None;
     S.deckHeight_m := None;
     S.overgrown := None;
     S.gateCount := None;
     S.wantsDrainage := None;
     S.wantsLedLighting := None;
     S.messageHistory := [];
     S.certaintyLevel := 0;
     S.awaitingEstimate := false;
     S.retryCount := [];
     S.lastQuestionField := None;
     S.showQuickReplies := false;
     S.budgetAligns := None;
     S.contactPhone := None;
     S.contactEmail := None;
     S.fullName := None;
     S.userBudget := None;
     S.postalCode := None;
     S.projectStartTiming := None;
     S.groundSoilType := None |}.

(** [list.includes(state.service)] for a list of service names. *)
Definition serviceIn (o : option ServiceType) (l : list ServiceType) : bool :=
  match o with
  | Some a => existsb (ServiceType_eqb a) l
  | None => false
  end.

(** *** Certainty calculation *)

Definition calculateCertainty (state : S.t) : number :=
  let score : number := 0 in
  let maxScore : number := 0 in
  (* Service type (25 points) *)
  let maxScore := maxScore + 25 in
  let score := if isSome (S.service state) then score + 25 else score in
  (* Dimensions (30 points) *)
  let maxScore := maxScore + 30 in
  let score :=
    if optTruthyNum (S.area_m2 state)
       || (optTruthyNum (S.length_m state) && optTruthyNum (S.width_m state))
    then score + 30 else score in
  (* Material tier (20 points) *)
  let maxScore := maxScore + 20 in
  let score := if isSome (S.materialTier state) then score + 20 else score in
  (* Service-specific scoring *)
  let '(score, maxScore) :=
    if serviceIs (S.service state) mowing then
      let maxScore := maxScore + 25 in
      let score := if isSome (S.overgrown state) then score + 25 else score in
      (score, maxScore)
    else if serviceIs (S.service state) planting
            || serviceIs (S.service state) softscaping then
      let maxScore := maxScore + 10 in
      let score := if isSome (S.slopeLevel state) then score + 5 else score in
      let score :=
        if isSome (S.hasDrivewayForSkip state) then score + 5 else score in
      (score, maxScore)
    else
      let maxScore := maxScore + 10 in
      let score :=
        if isSome (S.hasExcavatorAccess state) then score + 10 else score in
      let maxScore := maxScore + 5 in
      let score :=
        if isSome (S.hasDrivewayForSkip state) then score + 5 else score in
      let maxScore := maxScore + 5 in
      let score := if isSome (S.slopeLevel state) then score + 5 else score in
      let maxScore := maxScore + 5 in
      let score :=
        if isSome (S.existingDemolition state) then score + 5 else score in
      (score, maxScore) in
  round ((score / maxScore) * 100).

(** *** Retry tracking helpers *)

Definition excavationServices : list ServiceType :=
  [hardscaping; decking; fencing; framing].
Definition heavyWorkServices : list ServiceType :=
  [hardscaping; decking; fencing; framing; softscaping].

Definition detectCurrentField (state : S.t) : FieldName :=
  if negb (isSome (S.service state)) then "service"
  else if negb (optTruthyNum (S.area_m2 state))
          && negb (optTruthyNum (S.length_m state))
          && negb (optTruthyNum (S.width_m state)) then "dimensions"
  else if negb (isSome (S.materialTier state)) then "materialTier"
  else if negb (isSome (S.hasExcavatorAccess state))
          && serviceIn (S.service state) excavationServices
       then "excavatorAccess"
  else if serviceIs (S.service state) decking
          && negb (isSome (S.deckHeight_m state)) then "deckHeight"
  else if serviceIs (S.service state) mowing
          && negb (isSome (S.overgrown state)) then "overgrown"
  else if serviceIs (S.service state) fencing
          && negb (isSome (S.gateCount state)) then "gateCount"
  else if negb (isSome (S.hasDrivewayForSkip state))
          && serviceIn (S.service state) heavyWorkServices then "driveway"
  else if negb (isSome (S.slopeLevel state))
          && serviceIn (S.service state) heavyWorkServices then "slope"
  else if negb (isSome (S.existingDemolition state))
          && (serviceIs (S.service state) hardscaping
              || serviceIs (S.service state) decking) then "demolition"
  else if negb (optTruthyStr (S.fullName state)) then "fullName"
  else if negb (optTruthyStr (S.contactPhone state)) then "contactPhone"
  else if negb (optTruthyStr (S.contactEmail state)) then "contactEmail"
  else if negb (isSome (S.userBudget state)) then "userBudget"
  else if negb (optTruthyStr (S.postalCode state)) then "postalCode"
  else "unknown".

(** [Object.keys(extracted).length > 0] *)
Definition hasExtractedInfo (extracted : E.t) : bool :=
  isSome (E.service extracted) || isSome (E.area_m2 extracted)
  || isSome (E.length_m extracted) || isSome (E.width_m extracted)
  || isSome (E.materialTier extracted)
  || isSome (E.hasExcavatorAccess extracted)
  || isSome (E.hasDrivewayForSkip extracted)
  || isSome (E.slopeLevel extracted) || isSome (E.subBaseType extracted)
  || isSome (E.existingDemolition extracted)
  || isSome (E.deckHeight_m extracted) || isSome (E.overgrown extracted)
  || isSome (E.gateCount extracted) || isSome (E.wantsDrainage extracted)
  || isSome (E.wantsLedLighting extracted)
  || isSome (E.budgetAligns extracted) || isSome (E.fullName extracted)
  || isSome (E.userBudget extracted) || isSome (E.postalCode extracted)
  || isSome (E.contactEmail extracted) || isSome (E.contactPhone extracted)
  || isSome (E.projectStartTiming extracted)
  || isSome (E.groundSoilType extracted)
  || isSome (E.explicitBudget extracted).

(** Was the field of the current question set by the merge?  A field
    counts when it is non-null in the new state and was null in the old. *)
Definition isRelevantFieldExtracted (currentField : FieldName)
           (extracted : E.t) (oldState newState : S.t) : bool :=
  let fresh {A} (f : S.t -> option A) :=
    isSome (f newState) && negb (isSome (f oldState)) in
  if currentField =? "service" then fresh S.service
  else if currentField =? "dimensions" then
    fresh S.area_m2 || fresh S.length_m
  else if currentField =? "materialTier" then fresh S.materialTier
  else if currentField =? "excavatorAccess" then fresh S.hasExcavatorAccess
  else if currentField =? "driveway" then fresh S.hasDrivewayForSkip
  else if currentField =? "slope" then fresh S.slopeLevel
  else if currentField =? "demolition" then fresh S.existingDemolition
  else if currentField =? "deckHeight" then fresh S.deckHeight_m
  else if currentField =? "overgrown" then fresh S.overgrown
  else if currentField =? "gateCount" then fresh S.gateCount
  else if currentField =? "fullName" then fresh S.fullName
  else if currentField =? "contactPhone" then fresh S.contactPhone
  else if currentField =? "contactEmail" then fresh S.contactEmail
  else if currentField =? "userBudget" then fresh S.userBudget
  else if currentField =? "postalCode" then fresh S.postalCode
  else hasExtractedInfo extracted.

(** *** State update *)

(** Strict UK postcode (example: SL4 1AA). *)
Definition strictUkPattern : RegExp :=
  {| source := "/^[A-Z]{1,2}\d{1,2}[A-Z]?\s?\d[A-Z]{2}$/i";
     pattern :=
       Cat [Bol; Range 1 2 (Class isUpper); Range 1 2 Digit;
            Opt (Class isUpper); Opt Space; Digit; Times 2 (Class isUpper);
            Eol];
     ignoreCase := true |}.

(** [a || b] on field names: the empty string is falsy. *)
Definition orField (a : option FieldName) (b : FieldName) : FieldName :=
  match a with
  | Some EmptyString | None => b
  | Some f => f
  end.

Definition optMul (a b : option number) : option number :=
  match a, b with
  | Some x, Some y => Some (x * y)
  | _, _ => None
  end.

(** [const currentField = state.lastQuestionField || detectCurrentField(state)] *)
Definition currentFieldOf (state : S.t) : FieldName :=
  orField (S.lastQuestionField state) (detectCurrentField state).

(** One guarded assignment [if (c) updated.f = v]. *)
Definition when (c : bool) (assign : S.t -> S.t) (updated : S.t) : S.t :=
  if c then assign updated else updated.

(** The area safeguard: a new area below 2 does not replace a stored area
    above 2, unless dimensions are being asked. *)
Definition acceptsArea (state : S.t) (extracted : E.t) : bool :=
  match E.area_m2 extracted with
  | Some a =>
      truthyNum a
      && (let isDimensionsQuestion :=
            match S.lastQuestionField state with
            | Some f => f =? "dimensions"
            | None => false
            end || negb (optTruthyNum (S.area_m2 state)) in
          if match S.area_m2 state with
             | Some sa => truthyNum sa && gtb sa 2
             | None => false
             end && ltb a 2 && negb isDimensionsQuestion
          then false
          else true)
  | None => false
  end.

(** [if (updated.length_m && updated.width_m && !updated.area_m2)
       updated.area_m2 = updated.length_m * updated.width_m].  The product
    is exact here and never zero; in the source it is a double, and [0]
    when the product of the two sides underflows. *)
Definition deriveArea (updated : S.t) : S.t :=
  when (optTruthyNum (S.length_m updated) && optTruthyNum (S.width_m updated)
        && negb (optTruthyNum (S.area_m2 updated)))
       (S.set_area_m2 (optMul (S.length_m updated) (S.width_m updated)))
       updated.

Definition updateStateWithExtraction (state : S.t) (extracted : E.t) : S.t :=
  let updated := state in
  let updated :=
    when (isSome (E.service extracted))
         (S.set_service (E.service extracted)) updated in
  (* SAFEGUARD: don't overwrite area with tiny numbers *)
  let updated :=
    when (acceptsArea state extracted)
         (S.set_area_m2 (E.area_m2 extracted)) updated in
  let updated :=
    when (optTruthyNum (E.length_m extracted))
         (S.set_length_m (E.length_m extracted)) updated in
  let updated :=
    when (optTruthyNum (E.width_m extracted))
         (S.set_width_m (E.width_m extracted)) updated in
  let updated :=
    when (isSome (E.materialTier extracted))
         (S.set_materialTier (E.materialTier extracted)) updated in
  let updated :=
    when (isSome (E.hasExcavatorAccess extracted))
         (S.set_hasExcavatorAccess (E.hasExcavatorAccess extracted)) updated in
  let updated :=
    when (isSome (E.hasDrivewayForSkip extracted))
         (S.set_hasDrivewayForSkip (E.hasDrivewayForSkip extracted)) updated in
  let updated :=
    when (isSome (E.slopeLevel extracted))
         (S.set_slopeLevel (E.slopeLevel extracted)) updated in
  let updated :=
    when (isSome (E.subBaseType extracted))
         (S.set_subBaseType (E.subBaseType extracted)) updated in
  let updated :=
    when (isSome (E.existingDemolition extracted))
         (S.set_existingDemolition (E.existingDemolition extracted)) updated in
  let updated :=
    when (isSome (E.deckHeight_m extracted)
          && (serviceIs (S.service state) decking
              || serviceIs (E.service extracted) decking))
         (S.set_deckHeight_m (E.deckHeight_m extracted)) updated in
  let updated :=
    when (isSome (E.overgrown extracted))
         (S.set_overgrown (E.overgrown extracted)) updated in
  let updated :=
    when (optTruthyNum (E.gateCount extracted))
         (S.set_gateCount (E.gateCount extracted)) updated in
  let updated :=
    when (isSome (E.wantsDrainage extracted))
         (S.set_wantsDrainage (E.wantsDrainage extracted)) updated in
  let updated :=
    when (isSome (E.wantsLedLighting extracted))
         (S.set_wantsLedLighting (E.wantsLedLighting extracted)) updated in
  let updated :=
    when (isSome (E.budgetAligns extracted))
         (S.set_budgetAligns (E.budgetAligns extracted)) updated in
  let currentField := currentFieldOf state in
  let isNameQuestion := currentField =? "fullName" in
  let updated :=
    when (match E.fullName extracted with
          | Some name =>
              truthyStr name
              && (isNameQuestion
                  || includes (toLowerCase name) (str "name is"))
          | None => false
          end)
         (S.set_fullName (E.fullName extracted)) updated in
  let isBudgetQuestion := currentField =? "userBudget" in
  let updated :=
    when (isSome (E.userBudget extracted)
          && (isBudgetQuestion
              || match E.explicitBudget extracted with
                 | Some b => b
                 | None => false
                 end))
         (S.set_userBudget (E.userBudget extracted)) updated in
  let updated :=
    when (optTruthyStr (E.contactEmail extracted))
         (S.set_contactEmail (E.contactEmail extracted)) updated in
  let updated :=
    when (optTruthyStr (E.contactPhone extracted))
         (S.set_contactPhone (E.contactPhone extracted)) updated in
  let updated :=
    when (match E.postalCode extracted with
          | Some pc =>
              truthyStr pc
              && (let isStrict := test strictUkPattern pc in
                  isStrict || (currentField =? "postalCode"))
          | None => false
          end)
         (S.set_postalCode (E.postalCode extracted)) updated in
  let updated :=
    when (optTruthyStr (E.projectStartTiming extracted))
         (S.set_projectStartTiming (E.projectStartTiming extracted)) updated in
  let updated :=
    when (optTruthyStr (E.groundSoilType extracted))
         (S.set_groundSoilType (E.groundSoilType extracted)) updated in
  let updated := deriveArea updated in
  S.set_certaintyLevel (calculateCertainty updated) updated.

(** *** Ready for estimate *)

Definition heavyAccessServices : list ServiceType :=
  [hardscaping; decking; fencing; framing].
Definition groundServices : list ServiceType :=
  [hardscaping; decking; softscaping; framing].

Definition isReadyForEstimate (state : S.t) : bool :=
  (* 1. basics: must have budget and postcode *)
  if negb (isSome (S.userBudget state)) || negb (isSome (S.postalCode state))
  then false
  (* 2. critical missing info checks *)
  else if negb (isSome (S.hasExcavatorAccess state))
          && serviceIn (S.service state) heavyAccessServices then false
  else if negb (isSome (S.slopeLevel state))
          && serviceIn (S.service state) groundServices then false
  else if serviceIs (S.service state) fencing
          && negb (isSome (S.gateCount state)) then false
  else if serviceIs (S.service state) decking
          && negb (isSome (S.deckHeight_m state)) then false
  (* 3. certainty check *)
  else geb (S.certaintyLevel state) 85.

(** The earlier copy of the manager, whose state has no postcode, decides
    on the score alone. *)
Definition isReadyForEstimate_legacy (state : S.t) : bool :=
  geb (S.certaintyLevel state) 85.

End Manager.

(* ====================================================================== *)
(** ** The lexical field extractor ([localExtraction.ts]) *)
(* ====================================================================== *)

Module Extraction.

Module E := ExtractedInfo.

Local Open Scope Q_scope.
Local Open Scope string_scope.

(** A decimal with either separator: [\d+(?:[.,]\d+)?] *)
Definition decimal : regex :=
  Seq (Plus Digit) (Opt (Seq (OneOf ".,") (Plus Digit))).

(** [(?:x|by|\u00D7)] *)
Definition bySign : regex := Any [Word "x"; Word "by"; Lit TIMES].

Definition dimensionPatterns : list RegExp :=
  [ {| source :=
         "/(\d+(?:[.,]\d+)?)\s*(?:m|meter|metre)?\s*(?:x|by|\u00D7)\s*(\d+(?:[.,]\d+)?)\s*(?:m|meter|metre)?/i";
       pattern :=
         Cat [Group 1 decimal; Star Space;
              Opt (Any [Word "m"; Word "meter"; Word "metre"]); Star Space;
              bySign; Star Space; Group 2 decimal; Star Space;
              Opt (Any [Word "m"; Word "meter"; Word "metre"])];
       ignoreCase := true |};
    {| source :=
         "/(\d+(?:[.,]\d+)?)\s*m\s*(?:x|by|\u00D7)\s*(\d+(?:[.,]\d+)?)/i";
       pattern :=
         Cat [Group 1 decimal; Star Space; Word "m"; Star Space; bySign;
              Star Space; Group 2 decimal];
       ignoreCase := true |} ].

Definition heightPattern : RegExp :=
  {| source :=
       "/(\d+(?:[.,]\d+)?)\s*(?:m|meters?|metres?)?\s*(?:high|height|off\s*(?:the\s*)?ground)?/i";
     pattern :=
       Cat [Group 1 decimal; Star Space;
            Opt (Any [Word "m"; Seq (Word "meter") (Opt (Word "s"));
                      Seq (Word "metre") (Opt (Word "s"))]);
            Star Space;
            Opt (Any [Word "high"; Word "height";
                      Cat [Word "off"; Star Space;
                           Opt (Seq (Word "the") (Star Space));
                           Word "ground"]])];
     ignoreCase := true |}.

Definition areaPattern : RegExp :=
  {| source :=
       "/(\d+(?:[.,]\d+)?)\s*(?:square\s*)?(?:m|meter|metre|m2|m\u00B2|sqm)\s*(?!high|deep|tall|off|thick)/i";
     pattern :=
       Cat [Group 1 decimal; Star Space;
            Opt (Seq (Word "square") (Star Space));
            Any [Word "m"; Word "meter"; Word "metre"; Word "m2";
                 Seq (Word "m") (Lit SUPER2); Word "sqm"];
            Star Space;
            NotAhead (Any [Word "high"; Word "deep"; Word "tall"; Word "off";
                           Word "thick"])];
     ignoreCase := true |}.

Definition linearPattern : RegExp :=
  {| source :=
       "/(\d+(?:[.,]\d+)?)\s*(?:meter|metre|m)(?:s)?\s*(?:of\s*)?(?:fence|fencing)?/i";
     pattern :=
       Cat [Group 1 decimal; Star Space;
            Any [Word "meter"; Word "metre"; Word "m"]; Opt (Word "s");
            Star Space; Opt (Seq (Word "of") (Star Space));
            Opt (Any [Word "fence"; Word "fencing"])];
     ignoreCase := true |}.

Definition weeksPattern : RegExp :=
  {| source :=
       "/(\d+)\s*week/i";
     pattern := Cat [Group 1 (Plus Digit); Star Space; Word "week"];
     ignoreCase := true |}.
Definition monthsPattern : RegExp :=
  {| source :=
       "/(\d+)\s*month/i";
     pattern := Cat [Group 1 (Plus Digit); Star Space; Word "month"];
     ignoreCase := true |}.
Definition gatePattern : RegExp :=
  {| source :=
       "/(\d+)\s*gate/i";
     pattern := Cat [Group 1 (Plus Digit); Star Space; Word "gate"];
     ignoreCase := true |}.

(** The class [[\s-]] and the two parentheses. *)
Definition sepClass : regex := Class (fun c => (isSpace c || N.eqb c 45)%bool).
Definition LPAR : regex := Lit 40%N.
Definition RPAR : regex := Lit 41%N.

(** UK phone formats: 07xxx xxx xxx, +44 7xxx xxx xxx, 020 xxxx xxxx. *)
Definition phonePattern : RegExp :=
  {| source :=
       "/(?:(?:\(?(?:0(?:0|11)\)?[\s-]?\(?|\+)44\)?[\s-]?(?:\(?0\)?[\s-]?)?)|(?:\(?0))(?:(?:\d{5}\)?[\s-]?\d{4,5})|(?:\d{4}\)?[\s-]?(?:\d{5}|\d{3}[\s-]?\d{3}))|(?:\d{3}\)?[\s-]?\d{3}[\s-]?\d{3,4})|(?:\d{2}\)?[\s-]?\d{4}[\s-]?\d{4}))(?:[\s-]?(?:x|ext\.?|\#)\d{3,4})?/";
     pattern :=
       Cat [ (* the prefix: +44 / 0044 / (0)... or a leading 0 *)
             Alt (Cat [Opt LPAR;
                       Alt (Cat [Word "0"; Alt (Word "0") (Word "11");
                                 Opt RPAR; Opt sepClass; Opt LPAR])
                           (Word "+");
                       Word "44"; Opt RPAR; Opt sepClass;
                       Opt (Cat [Opt LPAR; Word "0"; Opt RPAR; Opt sepClass])])
                 (Cat [Opt LPAR; Word "0"]);
             (* the national number *)
             Any [ Cat [Times 5 Digit; Opt RPAR; Opt sepClass; Range 4 5 Digit];
                   Cat [Times 4 Digit; Opt RPAR; Opt sepClass;
                        Alt (Times 5 Digit)
                            (Cat [Times 3 Digit; Opt sepClass; Times 3 Digit])];
                   Cat [Times 3 Digit; Opt RPAR; Opt sepClass; Times 3 Digit;
                        Opt sepClass; Range 3 4 Digit];
                   Cat [Times 2 Digit; Opt RPAR; Opt sepClass; Times 4 Digit;
                        Opt sepClass; Times 4 Digit] ];
             (* the extension *)
             Opt (Cat [Opt sepClass;
                       Any [Word "x"; Seq (Word "ext") (Opt (Word "."));
                            Word "#"];
                       Range 3 4 Digit]) ];
     ignoreCase := false |}.

Definition emailPattern : RegExp :=
  let localPart c :=
    (isAlnum c || N.eqb c 46 || N.eqb c 95 || N.eqb c 43 || N.eqb c 45)%bool in
  let domainPart c := (isAlnum c || N.eqb c 46 || N.eqb c 45)%bool in
  let letter c := (isUpper c || isLower c)%bool in
  {| source :=
       "/([a-zA-Z0-9._+-]+@[a-zA-Z0-9.-]+\.[a-zA-Z]{2,})/";
     pattern :=
       Group 1 (Cat [Plus (Class localPart); Word "@"; Plus (Class domainPart);
                     Word "."; AtLeast 2 (Class letter)]);
     ignoreCase := false |}.

Definition postcodePattern : RegExp :=
  {| source :=
       "/\b(?!(?:budget|about|around|price|cost|money|cheap|steep|slope|level|width|length|depth|high|tall|area|size)\b)([A-Za-z0-9\s]{3,10})\b/i";
     pattern :=
       Cat [WordB;
            NotAhead
              (Seq (Any [Word "budget"; Word "about"; Word "around";
                         Word "price"; Word "cost"; Word "money"; Word "cheap";
                         Word "steep"; Word "slope"; Word "level"; Word "width";
                         Word "length"; Word "depth"; Word "high"; Word "tall";
                         Word "area"; Word "size"])
                   WordB);
            Group 1 (Range 3 10 (Class (fun c => (isAlnum c || isSpace c)%bool)));
            WordB];
     ignoreCase := true |}.

Definition startsWithZeroPattern : RegExp :=
  {| source :=
       "/^\s*0\d/";
     pattern := Cat [Bol; Star Space; Word "0"; Digit]; ignoreCase := false |}.

Definition budgetPattern : RegExp :=
  {| source :=
       "/(?:budget|is|about|around)?\s*[\u00A3$]?\s*(\d+(?:[.,]\d+)?)\s*(?:k|thousand)?/i";
     pattern :=
       Cat [Opt (Any [Word "budget"; Word "is"; Word "about"; Word "around"]);
            Star Space;
            Opt (Class (fun c => (N.eqb c POUND || N.eqb c 36)%bool));
            Star Space; Group 1 decimal; Star Space;
            Opt (Any [Word "k"; Word "thousand"])];
     ignoreCase := true |}.

Definition unitPattern : RegExp :=
  {| source :=
       "/^(m|sq|ft|cm|mm|x|by|meter|metre|deck|patio|paver|slab)/";
     pattern :=
       Seq Bol
           (Group 1 (Any [Word "m"; Word "sq"; Word "ft"; Word "cm"; Word "mm";
                          Word "x"; Word "by"; Word "meter"; Word "metre";
                          Word "deck"; Word "patio"; Word "paver"; Word "slab"]));
     ignoreCase := false |}.

(** [parseFloat(m[n].replace(',', '.'))] *)
Definition decimalOf (n : nat) (m : MatchResult) : number :=
  parseFloat (replaceFirstComma (group n m)).

(** The first pattern of the list that matches, as the [for ... break] loop
    finds it. *)
Fixpoint firstMatch (s : jsstring) (ps : list RegExp) : option MatchResult :=
  match ps with
  | [] => None
  | p :: ps' =>
      match matchRe s p with
      | Some m => Some m
      | None => firstMatch s ps'
      end
  end.

(** *** The stages of [extractLocalInformation], in source order.  Each one
    takes the object built so far and returns it with its own fields
    assigned. *)

(** Service detection: the first category whose keywords occur wins. *)
Definition detectService (msg : jsstring) (extracted : E.t) : E.t :=
  (* hardscaping: patio, paving, stonework *)
  if includesAny msg
          ["patio"; "paving"; "hardscape"; "paty"; "patyo"; "pato";
           "paio"; "pavimg"; "pavong"; "pavin"; "pavng";
           "hardlanscing"; "hardlscaping"; "hardscpaing"; "ptio";
           "pving"; "pavng"; "payshio"; "payving"; "paytio"; "pave";
           "paver"; "brick"; "stone paving"; "stone work"; "stonework";
           "slab"; "flag"; "yard"; "courtyard"; "terrace"; "flagstone"]
  then E.set_service hardscaping extracted
  (* decking *)
  else if includesAny msg
               ["deck"; "deckling"; "dekcing"; "deking"; "deckin"; "dck";
                "dek"; "decc"; "dekk"; "deeking"; "wood platform";
                "timber platform"; "raised platform"]
  then E.set_service decking extracted
  (* mowing: lawn cutting *)
  else if includesAny msg
               ["mow"; "lawn"; "grass"; "cut"; "cutting"; "trim"; "moww";
                "moing"; "mowin"; "mawing"; "lwn"; "lwan"; "gras"; "grss";
                "moe"; "moh"; "cut the grass"; "trim the lawn";
                "grass cutting"; "lawn care"; "garden maintenance";
                "keep tidy"]
  then E.set_service mowing extracted
  (* planting *)
  else if includesAny msg
               ["plant"; "flower"; "shrub"; "bed"; "border"; "plnat";
                "plantng"; "palnt"; "planting"; "flowr"; "flowrs"; "shrbs";
                "planter"; "vegetation"; "greenery"; "flower bed";
                "herbaceous"; "perennial"]
  then E.set_service planting extracted
  (* fencing *)
  else if includesAny msg
               ["fence"; "fencing"; "hedge"; "hedging"; "boundary"; "fense";
                "fance"; "fencng"; "fencig"; "hegde"; "hdge"; "panel";
                "privacy screen"; "enclosure"; "barrier"; "perimeter"]
  then E.set_service fencing extracted
  (* framing: pergolas, structures *)
  else if includesAny msg
               ["pergola"; "frame"; "structure"; "gazebo"; "arbor";
                "pergolla"; "pergla"; "pergola"; "gazbo"; "gazzebo";
                "arbour"; "overhead"; "canopy"; "trellis"; "archway";
                "outdoor structure"]
  then E.set_service framing extracted
  (* softscaping: general landscaping *)
  else if includesAny msg
               ["landscape"; "garden"; "landscaping"; "land scape";
                "land scaping"; "soft scape"; "soft scaping"; "landscpaing";
                "landscpe"; "lanscaping"; "gardn"; "gardning"; "gardan";
                "outdoor space"; "garden design"; "outdoor design";
                "green space"; "garden transformation"]
  then E.set_service softscaping extracted
  else extracted.

(** Dimensions: [N x M] sets length and width together. *)
Definition detectDimensions (userMessage : jsstring) (extracted : E.t) : E.t :=
  match firstMatch userMessage dimensionPatterns with
  | Some m =>
      E.set_width_m (decimalOf 2 m) (E.set_length_m (decimalOf 1 m) extracted)
  | None => extracted
  end.

(** Deck height, evaluated before the area so that a height is not read
    as an area.  Returns the object and the [isHeight] flag. *)
Definition detectDeckHeight (userMessage msg : jsstring) (extracted : E.t)
  : E.t * bool :=
  match matchRe userMessage heightPattern with
  | Some heightMatch =>
      let val := decimalOf 1 heightMatch in
      let hasKeywords := includesAny msg ["high"; "off"; "ground"] in
      if (hasKeywords || (ltb val 3 && gtb val 0))%bool then
        if ltb val 10 then (E.set_deckHeight_m val extracted, true)
        else (extracted, false)
      else (extracted, false)
  | None =>
      if includesAny msg ["ground level"; "flush"; "low"]
      then (E.set_deckHeight_m (1 # 10) extracted, true)
      else (extracted, false)
  end.

(** Single area number, and linear metres for fencing. *)
Definition detectArea (userMessage msg : jsstring) (isHeight : bool)
           (extracted : E.t) : E.t :=
  if negb isHeight then
    let areaMatch := matchRe userMessage areaPattern in
    let isActuallyHeight := includesAny msg ["high"; "deep"; "off the ground"] in
    let extracted :=
      match areaMatch with
      | Some m =>
          if (negb (optTruthyNum (E.length_m extracted))
              && negb isActuallyHeight)%bool
          then E.set_area_m2 (decimalOf 1 m) extracted
          else extracted
      | None => extracted
      end in
    if includesAny msg ["fence"; "fencing"] then
      match matchRe userMessage linearPattern with
      | Some linearMatch => E.set_area_m2 (decimalOf 1 linearMatch) extracted
      | None => extracted
      end
    else extracted
  else extracted.

(** Material tier: standard, then luxury, then premium. *)
Definition detectMaterialTier (msg : jsstring) (extracted : E.t) : E.t :=
  if includesAny msg
          ["cheap"; "budget"; "basic"; "softwood"; "soft wood";
           "softwood panel"; "concrete"; "concrete paver"; "standard";
           "container plant"; "basic cut"; "cut and collect";
           "basic pergola"; "basic frame"; "basic planting";
           "basic landscaping"; "normal"; "regular"; "simple";
           "ordinary"; "just a"; "budjet"; "cheep"; "baic"; "standrd";
           "softwod"; "conrete"; "affordable"; "economical";
           "cost effective"; "on a budget"; "save money";
           "inexpensive"; "value"; "reasonable price"; "not expensive";
           "lower cost"; "entry level"; "starter"; "essential"]
  then E.set_materialTier standard extracted
  else if includesAny msg
               ["luxury"; "high-end"; "ipe"; "hardwood"; "hard wood";
                "ipe hardwood"; "porcelain"; "porcelain paving"; "cedar";
                "premium cedar"; "full grounds"; "full maintenance";
                "architectural"; "architectural planting";
                "custom hardwood"; "full architectural design"; "best";
                "top"; "luxary"; "luxry"; "porcelin"; "ceadar";
                "high quality"; "top quality"; "top tier"; "finest";
                "high spec"; "upscale"; "top of the range";
                "top of the line"; "executive"; "deluxe"; "exclusive";
                "bespoke"; "best quality"; "nothing but the best";
                "spare no expense"]
  then E.set_materialTier luxury extracted
  else if includesAny msg
               ["composite"; "sandstone"; "mid"; "composite decking";
                "indian sandstone"; "treated slat"; "slat"; "precision";
                "precision cut"; "edge"; "edging"; "specimen";
                "specimen plant"; "engineered"; "engineered timber";
                "premium planting"; "premium specimen"; "decent";
                "good quality"; "middle"; "premium"; "composit"; "sandston";
                "decnt"; "speciman"; "enginered"; "premum"; "preimum";
                "mid-range"; "mid range"; "middle of the road";
                "good but not crazy"; "reasonable quality"; "solid quality";
                "well made"; "durable"]
  then E.set_materialTier premium extracted
  else extracted.

Definition detectExcavatorAccess (msg : jsstring)
           (isAffirmative isNegative : bool) (extracted : E.t) : E.t :=
  if (includesAny msg
          ["narrow"; "small gate"; "70cm"; "80cm"; "tight";
           "won't fit"; "can't"]
      || isNegative
      || includesAny msg
          ["too narrow"; "not wide enough"; "restricted";
           "limited access"; "difficult access"; "no access";
           "tight squeeze"; "won't get through"; "too tight";
           "side passage"; "alley"; "not sure"])%bool
  then E.set_hasExcavatorAccess false extracted
  else if (includesAny msg
               ["wide"; "good access"]
           || isAffirmative
           || includesAny msg
               ["fits"; "it fits"; "there is"; "it can"; "plenty of room";
                "easy access"; "wide enough"; "no problem";
                "can get through"; "accessible"; "open access"; "should fit"])%bool
  then E.set_hasExcavatorAccess true extracted
  else extracted.

Definition detectDriveway (msg : jsstring)
           (isAffirmative isNegative : bool) (extracted : E.t) : E.t :=
  if (includesAny msg
          ["no driveway"; "street"; "on the road"; "no drive"]
      || isNegative
      || includesAny msg
          ["on street"; "road parking"; "street parking"; "permit";
           "public road"; "haven't got"; "don't have"])%bool
  then E.set_hasDrivewayForSkip false extracted
  else if (includesAny msg
               ["driveway"; "parking"]
           || isAffirmative
           || includesAny msg
               ["have a drive"; "got a drive"; "front drive"; "off street";
                "private"; "own parking"; "car park"])%bool
  then E.set_hasDrivewayForSkip true extracted
  else extracted.

Definition detectSlope (msg : jsstring) (extracted : E.t) : E.t :=
  if includesAny msg
          ["flat"; "fla"; "level"; "even"; "no slope";
           "completely flat"; "totally level"; "nice and flat";
           "perfectly level"; "no gradient"; "horizontal"]
  then E.set_slopeLevel flat extracted
  else if includesAny msg
               ["steep"; "very slope"; "hill"; "quite slope"; "steepe";
                "steap"; "really steep"; "very steep"; "quite steep";
                "hilly"; "sharp slope"; "incline"; "on a hill";
                "sloped garden"]
  then E.set_slopeLevel steep extracted
  else if includesAny msg
               ["slope"; "moderate"; "bit of"; "slight"; "gentle slope";
                "bit sloped"; "some slope"; "sloping"; "gradual";
                "not too steep"; "bit of a slope"]
  then E.set_slopeLevel moderate extracted
  else extracted.

Definition detectDemolition (msg : jsstring)
           (isAffirmative isNegative : bool) (extracted : E.t) : E.t :=
  if (includesAny msg
          ["remove"; "tear out"; "demolish"; "existing"]
      || isAffirmative
      || includesAny msg
          ["a little"; "some "; "need to remove"; "demolish needed";
           "bit of"; "old"; "remov"; "demolis"; "exsting"; "take out";
           "rip out"; "clear out"; "get rid of"; "strip out";
           "take up"; "pull up"; "needs removing"; "to be removed";
           "old patio"; "old deck"; "something there"])%bool
  then E.set_existingDemolition true extracted
  else if (includesAny msg
               ["new"; "fresh"; "no removal"; "nothing"; "clean"]
           || isNegative
           || includesAny msg
               ["fresh start"; "blank slate"; "bare ground"; "empty";
                "clear"; "nothing there"; "clean site"; "no existing"])%bool
  then E.set_existingDemolition false extracted
  else extracted.

(** Overgrown: any number of months, or more than two weeks. *)
Definition detectOvergrown (userMessage msg : jsstring) (extracted : E.t)
  : E.t :=
  let weeksMatch := matchRe userMessage weeksPattern in
  let monthsMatch := matchRe userMessage monthsPattern in
  match monthsMatch, weeksMatch with
  | Some _, _ => E.set_overgrown true extracted
  | None, Some wm =>
      let weeks := parseInt (group 1 wm) in
      E.set_overgrown (Z.ltb 2 weeks) extracted
  | None, None =>
      if includesAny msg
              ["overgrown"; "long grass"; "not cut"; "while"; "ages";
               "long time"]
      then E.set_overgrown true extracted
      else if includesAny msg ["recent"; "last week"; "yesterday"; "few days"]
      then E.set_overgrown false extracted
      else extracted
  end.

Definition detectGates (userMessage msg : jsstring) (extracted : E.t) : E.t :=
  match matchRe userMessage gatePattern with
  | Some gateMatch =>
      E.set_gateCount (inject_Z (parseInt (group 1 gateMatch))) extracted
  | None =>
      if includesAny msg ["one gate"; "a gate"]
      then E.set_gateCount 1 extracted
      else if includesAny msg ["two gate"]
      then E.set_gateCount 2 extracted
      else if includesAny msg ["no gate"]
      then E.set_gateCount 0 extracted
      else extracted
  end.

(** Budget alignment: yes/no answers to the budget question. *)
Definition detectBudgetAlignment (msg : jsstring) (extracted : E.t) : E.t :=
  if includesAny msg
          ["yes"; "sure"; "ok"; "okay"; "sounds good"; "that works";
           "aligns"; "within budget"; "good for me"; "perfect";
           "great"; "fine"; "yep"; "yeah"; "yeh"; "absolutely";
           "definitely"; "works for me"; "good to go"; "let's do it";
           "let's go"; "approved"; "agree"; "accept"]
  then E.set_budgetAligns true extracted
  else if includesAny msg
               ["no "; "nope"; "nah"; "too much"; "expensive";
                "over budget"; "can't afford"; "too high"; "out of budget";
                "more than"; "exceeds"; "not sure"; "need to think";
                "discuss"; "reduce"; "lower"]
  then E.set_budgetAligns false extracted
  else extracted.

(** Full name: a short message without too many digits, addresses or
    question words. *)
Definition detectFullName (userMessage msg : jsstring) (extracted : E.t)
  : E.t :=
  let trimmedMsg := trim userMessage in
  let isExplicitName := includesAny msg ["name is"; "call me"; "i am"] in
  let wordCount := splitSpaceLength trimmedMsg in
  let looksLikePhone := Nat.ltb 5 (digitCount userMessage) in
  if ((isExplicitName || (Nat.leb wordCount 4 && Nat.leb 1 wordCount))
      && Nat.ltb 2 (List.length trimmedMsg)
      && Nat.ltb (List.length trimmedMsg) 50
      && negb looksLikePhone
      && negb (includes msg (str "@")) && negb (includes msg (str "http"))
      && negb (includes msg (str "what")) && negb (includes msg (str "how"))
      && negb (includes msg (str "why")) && negb (includes msg (str "when")))%bool
  then E.set_fullName trimmedMsg extracted
  else extracted.

(** Phone: a UK number of at least nine digits. *)
Definition detectPhone (userMessage : jsstring) (extracted : E.t) : E.t :=
  match matchRe userMessage phonePattern with
  | Some phoneMatch =>
      let digits := digitsOnly (matched phoneMatch) in
      if Nat.leb 9 (List.length digits)
      then E.set_contactPhone (matched phoneMatch) extracted
      else extracted
  | None => extracted
  end.

Definition detectEmail (userMessage : jsstring) (extracted : E.t) : E.t :=
  match matchRe userMessage emailPattern with
  | Some emailMatch => E.set_contactEmail (toLowerCase (group 1 emailMatch)) extracted
  | None => extracted
  end.

Definition detectPostcode (userMessage : jsstring) (extracted : E.t) : E.t :=
  match matchRe userMessage postcodePattern with
  | Some postcodeMatch =>
      let rawPostcode := toUpperCaseAscii (trim (group 1 postcodeMatch)) in
      if Nat.leb 3 (List.length rawPostcode)
      then E.set_postalCode rawPostcode extracted
      else extracted
  | None => extracted
  end.

(** Budget.  The early [return extracted] of the unit guard leaves the
    object as it is; nothing follows this stage. *)
Definition detectBudget (userMessage msg : jsstring) (extracted : E.t) : E.t :=
  let hasCurrency :=
    (includes msg [POUND] || includes msg (str "$") || includes msg (str "euro")
     || includes msg (str "budget"))%bool in
  let startsWithZero := test startsWithZeroPattern msg in
  let isPhone := optTruthyStr (E.contactPhone extracted) in
  if (negb isPhone || hasCurrency)%bool then
    match matchRe userMessage budgetPattern with
    | Some budgetMatch =>
        if (startsWithZero && negb hasCurrency)%bool then extracted
        else
          let amount :=
            parseFloat (removeCommas (replaceFirstComma (group 1 budgetMatch))) in
          let amount :=
            if (includes msg (str "k") || includes msg (str "thousand"))%bool
            then amount * 1000 else amount in
          let postMatch :=
            toLowerCase
              (trim (slice (index budgetMatch
                            + List.length (matched budgetMatch))%nat
                           userMessage)) in
          if test unitPattern postMatch then extracted
          else if (gtb amount 100 && ltb amount 2000000)%bool
          then E.set_explicitBudget hasCurrency (E.set_userBudget amount extracted)
          else extracted
    | None => extracted
    end
  else extracted.

Definition extractLocalInformation (userMessage : jsstring) : E.t :=
  let msg := toLowerCase userMessage in
  let extracted := E.empty in
  let isAffirmative :=
    (equalsAny msg ["yes"; "yep"; "yeah"; "yeh"; "ye"; "sure"; "ok"]
     || includesAny msg ["yeah"; "definitely"; "absolutely"; "of course"])%bool in
  let isNegative :=
    (equalsAny msg ["no"; "nope"; "nah"; "na"]
     || includesAny msg ["no "; "not really"])%bool in
  let extracted := detectService msg extracted in
  let extracted := detectDimensions userMessage extracted in
  let '(extracted, isHeight) := detectDeckHeight userMessage msg extracted in
  let extracted := detectArea userMessage msg isHeight extracted in
  let extracted := detectMaterialTier msg extracted in
  let extracted := detectExcavatorAccess msg isAffirmative isNegative extracted in
  let extracted := detectDriveway msg isAffirmative isNegative extracted in
  let extracted := detectSlope msg extracted in
  let extracted := detectDemolition msg isAffirmative isNegative extracted in
  let extracted := detectOvergrown userMessage msg extracted in
  let extracted := detectGates userMessage msg extracted in
  let extracted := detectBudgetAlignment msg extracted in
  let extracted := detectFullName userMessage msg extracted in
  let extracted := detectPhone userMessage extracted in
  let extracted := detectEmail userMessage extracted in
  let extracted := detectPostcode userMessage extracted in
  detectBudget userMessage msg extracted.

End Extraction.

(** The geometry rules of the earlier copy of the extractor: the same three
    rules without the comma as a decimal separator, without the height
    check and without the negative lookahead.  No other rule of that copy
    assigns [length_m], [width_m] or [area_m2]. *)
Module LegacyExtraction.

Module E := ExtractedInfo.

Local Open Scope string_scope.

(** A decimal: [\d+(?:\.\d+)?] *)
Definition decimal : regex :=
  Seq (Plus Digit) (Opt (Seq (Word ".") (Plus Digit))).

Definition dimensionPatterns : list RegExp :=
  [ {| source :=
         "/(\d+(?:\.\d+)?)\s*(?:m|meter|metre)?\s*(?:x|by|\u00D7)\s*(\d+(?:\.\d+)?)\s*(?:m|meter|metre)?/i";
       pattern :=
         Cat [Group 1 decimal; Star Space;
              Opt (Any [Word "m"; Word "meter"; Word "metre"]); Star Space;
              Extraction.bySign; Star Space; Group 2 decimal; Star Space;
              Opt (Any [Word "m"; Word "meter"; Word "metre"])];
       ignoreCase := true |};
    {| source :=
         "/(\d+(?:\.\d+)?)\s*m\s*(?:x|by|\u00D7)\s*(\d+(?:\.\d+)?)/i";
       pattern :=
         Cat [Group 1 decimal; Star Space; Word "m"; Star Space;
              Extraction.bySign; Star Space; Group 2 decimal];
       ignoreCase := true |} ].

Definition areaPattern : RegExp :=
  {| source :=
       "/(\d+(?:\.\d+)?)\s*(?:square\s*)?(?:m|meter|metre|m2|m\u00B2|sqm)/i";
     pattern :=
       Cat [Group 1 decimal; Star Space;
            Opt (Seq (Word "square") (Star Space));
            Any [Word "m"; Word "meter"; Word "metre"; Word "m2";
                 Seq (Word "m") (Lit SUPER2); Word "sqm"]];
     ignoreCase := true |}.

Definition linearPattern : RegExp :=
  {| source :=
       "/(\d+(?:\.\d+)?)\s*(?:meter|metre|m)(?:s)?\s*(?:of\s*)?(?:fence|fencing)?/i";
     pattern :=
       Cat [Group 1 decimal; Star Space;
            Any [Word "meter"; Word "metre"; Word "m"]; Opt (Word "s");
            Star Space; Opt (Seq (Word "of") (Star Space));
            Opt (Any [Word "fence"; Word "fencing"])];
     ignoreCase := true |}.

Definition detectGeometry (userMessage msg : jsstring) (extracted : E.t)
  : E.t :=
  (* dimensions *)
  let extracted :=
    match Extraction.firstMatch userMessage dimensionPatterns with
    | Some m =>
        E.set_width_m (parseFloat (group 2 m))
          (E.set_length_m (parseFloat (group 1 m)) extracted)
    | None => extracted
    end in
  (* single area number *)
  let extracted :=
    match matchRe userMessage areaPattern with
    | Some areaMatch =>
        if negb (optTruthyNum (E.length_m extracted))
        then E.set_area_m2 (parseFloat (group 1 areaMatch)) extracted
        else extracted
    | None => extracted
    end in
  (* linear metres for fencing *)
  if includesAny msg ["fence"; "fencing"] then
    match matchRe userMessage linearPattern with
    | Some linearMatch =>
        E.set_area_m2 (parseFloat (group 1 linearMatch)) extracted
    | None => extracted
    end
  else extracted.

End LegacyExtraction.


(* ====================================================================== *)
(** ** Quick replies ([quickReplies.ts]) *)
(* ====================================================================== *)

(** A quick reply is a button: the [text] shown and the [value] sent as the
    user's message when it is chosen.  Only the value reaches the extractor;
    the embedding keeps the values, in the order of the source. *)
Module QuickReplies.

Module S := ConversationState.

Local Open Scope string_scope.

Definition QuickReply := jsstring.

Definition WRITE_IT_OUT : jsstring := str "__write_it_out__".

Definition withWriteItOut (replies : list QuickReply) : list QuickReply :=
  (replies ++ [WRITE_IT_OUT])%list.

Definition values (l : list string) : list QuickReply := map str l.

(** The money literals start with the pound sign. *)
Definition pounds (digits : string) : QuickReply := POUND :: str digits.

Definition tierReplies (s : ServiceType) : list QuickReply :=
  match s with
  | hardscaping =>
      values ["basic concrete pavers"; "indian sandstone"; "porcelain paving"]
  | decking => values ["treated softwood"; "composite decking"; "ipe hardwood"]
  | mowing =>
      values ["basic cut and collect"; "precision cut with edging";
              "full grounds maintenance"]
  | planting =>
      values ["container plants"; "specimen plants"; "architectural planting"]
  | fencing => values ["softwood panels"; "treated slats"; "premium cedar"]
  | framing =>
      values ["basic pergola frame"; "engineered timber"; "custom hardwood"]
  | softscaping =>
      values ["basic landscaping"; "premium planting";
              "full architectural design"]
  end.

Definition getQuickReplies (state : S.t) : list QuickReply :=
  match S.service state with
  (* Service question (first question) *)
  | None =>
      withWriteItOut
        (values ["patio"; "decking"; "lawn mowing"; "landscaping"; "planting";
                 "fencing"; "pergola"])
  | Some service =>
      (* Dimensions question *)
      if (negb (optTruthyNum (S.area_m2 state))
          && negb (optTruthyNum (S.length_m state))
          && negb (optTruthyNum (S.width_m state)))%bool then
        withWriteItOut
          (values ["15 square meters"; "35 square meters"; "75 square meters";
                   "120 square meters"])
      (* Material tier questions *)
      else if negb (isSome (S.materialTier state)) then
        withWriteItOut (tierReplies service)
      (* Excavator access (yes/no) *)
      else if (negb (isSome (S.hasExcavatorAccess state))
               && negb (ServiceType_eqb service mowing))%bool then
        withWriteItOut (values ["yes it fits"; "narrow access"])
      (* Driveway (yes/no) *)
      else if (negb (isSome (S.hasDrivewayForSkip state))
               && negb (ServiceType_eqb service mowing))%bool then
        withWriteItOut (values ["yes driveway"; "on the street"])
      (* Slope level *)
      else if (negb (isSome (S.slopeLevel state))
               && negb (ServiceType_eqb service mowing))%bool then
        withWriteItOut (values ["flat"; "moderate slope"; "steep slope"])
      (* Demolition (yes/no) *)
      else if (negb (isSome (S.existingDemolition state))
               && (ServiceType_eqb service hardscaping
                   || ServiceType_eqb service decking))%bool then
        withWriteItOut (values ["yes removal needed"; "no nothing to remove"])
      (* Fencing gates *)
      else if (ServiceType_eqb service fencing
               && negb (isSome (S.gateCount state)))%bool then
        withWriteItOut (values ["no gates"; "one gate"; "two gates"])
      (* Mowing overgrowth *)
      else if (ServiceType_eqb service mowing
               && negb (isSome (S.overgrown state)))%bool then
        withWriteItOut (values ["last week"; "3 weeks ago"])
      (* Budget (user info section) *)
      else if (negb (isSome (S.userBudget state))
               && optTruthyStr (S.contactEmail state))%bool then
        withWriteItOut
          [pounds "4000"; pounds "7500"; pounds "15000"; pounds "25000";
           pounds "0"]
      (* Project start timing (after budget) *)
      else if (isSome (S.userBudget state)
               && negb (optTruthyStr (S.projectStartTiming state)))%bool then
        withWriteItOut
          (values ["As soon as possible"; "Within the next 3 months";
                   "Just planning ahead"; "Not sure yet"])
      else []
  end.

(** Fallback quick replies, offered when the answer to the question about
    [field] was not understood. *)
Definition getFallbackQuickReplies (field : FieldName) (state : S.t)
  : list QuickReply :=
  if field =? "service" then
    values ["patio"; "decking"; "lawn mowing"; "landscaping"; "planting";
            "fencing"; "pergola"]
  else if field =? "dimensions" then
    values ["15 square meters"; "35 square meters"; "75 square meters";
            "120 square meters"; "let me type it"]
  else if field =? "materialTier" then
    if serviceIs (S.service state) hardscaping then
      values ["basic concrete pavers"; "indian sandstone"; "porcelain paving"]
    else if serviceIs (S.service state) decking then
      values ["treated softwood"; "composite decking"; "ipe hardwood"]
    else values ["essential option"; "premium quality"; "luxury "]
  else if field =? "excavatorAccess" then
    values ["yes wide access"; "narrow gate"]
  else if field =? "driveway" then values ["yes driveway"; "on street"]
  else if field =? "slope" then
    values ["flat ground"; "moderate slope"; "steep slope"]
  else if field =? "demolition" then
    values ["yes need to remove existing"; "no nothing there"]
  else if field =? "deckHeight" then
    values ["0.3 meters high"; "0.8 meters high"; "1.2 meters high";
            "2 meters high"]
  else if field =? "overgrown" then values ["last week"; "3 weeks ago"]
  else if field =? "gateCount" then
    values ["no gates"; "one gate"; "two gates"; "three gates"]
  else if field =? "budgetAlignment" then
    values ["yes that works"; "too expensive need to discuss"]
  else if field =? "fullName" then values ["John Smith"; "Guest User"]
  else if field =? "contactPhone" then values ["07700900000"; "0000000000"]
  else if field =? "contactEmail" then
    values ["user@example.com"; "guest@example.com"]
  else if field =? "userBudget" then
    [pounds "4000"; pounds "7500"; pounds "15000"; pounds "25000"; pounds "0";
     WRITE_IT_OUT]
  else if field =? "projectStartTiming" then
    values ["As soon as possible"; "Within the next 3 months";
            "Just planning ahead"; "Not sure yet"]
  else [].

End QuickReplies.

(** The copy of [quickReplies.ts] without free-typing markers: it has no
    answers for the service, the dimensions, the budget or the start of the
    project in [getQuickReplies], and other words for the tiers and the
    budgets in [getFallbackQuickReplies].  Its tier answers per service are
    the same values as [QuickReplies.tierReplies]. *)
Module QuickRepliesEarlier.

Module S := ConversationState.

Local Open Scope string_scope.

Definition QuickReply := jsstring.
Definition values := QuickReplies.values.
Definition pounds := QuickReplies.pounds.

Definition getQuickReplies (state : S.t) : list QuickReply :=
  match S.service state with
  | None => []
  | Some service =>
      (* Material tier questions *)
      if negb (isSome (S.materialTier state)) then
        QuickReplies.tierReplies service
      (* Excavator access (yes/no) *)
      else if (negb (isSome (S.hasExcavatorAccess state))
               && negb (ServiceType_eqb service mowing))%bool then
        values ["yes it fits"; "narrow access"]
      (* Driveway (yes/no) *)
      else if (negb (isSome (S.hasDrivewayForSkip state))
               && negb (ServiceType_eqb service mowing))%bool then
        values ["yes driveway"; "on the street"]
      (* Slope level *)
      else if (negb (isSome (S.slopeLevel state))
               && negb (ServiceType_eqb service mowing))%bool then
        values ["flat"; "moderate slope"; "steep slope"]
      (* Demolition (yes/no) *)
      else if (negb (isSome (S.existingDemolition state))
               && (ServiceType_eqb service hardscaping
                   || ServiceType_eqb service decking))%bool then
        values ["yes removal needed"; "no nothing to remove"]
      (* Fencing gates *)
      else if (ServiceType_eqb service fencing
               && negb (isSome (S.gateCount state)))%bool then
        values ["no gates"; "one gate"; "two gates"]
      (* Mowing overgrowth *)
      else if (ServiceType_eqb service mowing
               && negb (isSome (S.overgrown state)))%bool then
        values ["last week"; "3 weeks ago"]
      else []
  end.

Definition getFallbackQuickReplies (field : FieldName) (state : S.t)
  : list QuickReply :=
  if field =? "service" then
    values ["patio"; "decking"; "lawn mowing"; "landscaping"; "planting";
            "fencing"; "pergola"]
  else if field =? "dimensions" then
    values ["15 square meters"; "35 square meters"; "75 square meters";
            "120 square meters"; "let me type it"]
  else if field =? "materialTier" then
    if serviceIs (S.service state) hardscaping then
      values ["basic concrete pavers"; "indian sandstone"; "porcelain paving"]
    else if serviceIs (S.service state) decking then
      values ["treated softwood"; "composite decking"; "ipe hardwood"]
    else values ["budget option"; "mid range"; "premium quality"]
  else if field =? "excavatorAccess" then
    values ["yes wide access"; "narrow gate"]
  else if field =? "driveway" then values ["yes driveway"; "on street"]
  else if field =? "slope" then
    values ["flat ground"; "moderate slope"; "steep slope"]
  else if field =? "demolition" then
    values ["yes need to remove existing"; "no nothing there"]
  else if field =? "deckHeight" then
    values ["0.3 meters high"; "0.8 meters high"; "1.2 meters high";
            "2 meters high"]
  else if field =? "overgrown" then values ["last week"; "3 weeks ago"]
  else if field =? "gateCount" then
    values ["no gates"; "one gate"; "two gates"; "three gates"]
  else if field =? "budgetAlignment" then
    values ["yes that works"; "too expensive need to discuss"]
  else if field =? "fullName" then values ["John Smith"; "Guest User"]
  else if field =? "contactPhone" then values ["07700900000"; "0000000000"]
  else if field =? "contactEmail" then
    values ["user@example.com"; "guest@example.com"]
  else if field =? "userBudget" then
    [pounds "5000"; pounds "10000"; pounds "20000"; pounds "0"]
  else [].

End QuickRepliesEarlier.


(* ====================================================================== *)
(** ** Notions used by the statements *)
(* ====================================================================== *)

Module S := ConversationState.
Module E := ExtractedInfo.

(** An optional number that is set, to a value equal to [q]. *)
Definition numIs (o : option number) (q : Q) : Prop :=
  match o with
  | Some x => x == q
  | None => False
  end.

(** The amounts of the line items of one kind, in order. *)
Definition amountsOfKind (k : Pricing.LineItemKind)
           (r : Pricing.EstimateResult) : list number :=
  map Pricing.amount
      (filter (fun it => Pricing.LineItemKind_eqb (Pricing.kind it) k)
              (Pricing.lineItems r)).

(** The line items of one kind, in order. *)
Definition itemsOfKind (k : Pricing.LineItemKind)
           (r : Pricing.EstimateResult) : list Pricing.LineItem :=
  filter (fun it => Pricing.LineItemKind_eqb (Pricing.kind it) k)
         (Pricing.lineItems r).

(** The line items that make up the subtotal: all but the wrapper fees. *)
Definition costItems (r : Pricing.EstimateResult) : list Pricing.LineItem :=
  filter (fun it => negb (Pricing.LineItemKind_eqb (Pricing.kind it) Pricing.fee))
         (Pricing.lineItems r).

(** The demolition-waste line item, found by its label. *)
Definition demolitionItem (r : Pricing.EstimateResult)
  : option Pricing.LineItem :=
  find (fun it => startsWith (str "Demolition waste") (Pricing.label it))
       (Pricing.lineItems r).

(** The demolition fee as the specification words it, with an explicit capacity
    of the skip: [ceil((area * thickness * density) / tons_per_skip) * cost]
    with a thickness of 0.15 m, a density of 0.6 tons per cubic metre and
    350 pounds per skip. *)
Definition demolitionFee (tons_per_skip area_m2 : number) : number :=
  ceil ((area_m2 * (15 # 100) * (6 # 10)) / tons_per_skip) * 350.

(** Whole numbers. *)
Definition integral (x : number) : Prop := exists z : Z, x == inject_Z z.

(** The three wrapper fees on a subtotal, as [calculateUKEstimate] pushes
    them, and the final cost they lead to. *)
Definition feeItems (subtotal : number) : list Pricing.LineItem :=
  [ {| Pricing.label := str "Project management (10%)";
       Pricing.amount :=
         Pricing.roundGBP (subtotal * Pricing.BUSINESS_FEES.projectManagement);
       Pricing.kind := Pricing.fee |};
    {| Pricing.label := str "Contingency reserve (5%)";
       Pricing.amount :=
         Pricing.roundGBP (subtotal * Pricing.BUSINESS_FEES.contingency);
       Pricing.kind := Pricing.fee |};
    {| Pricing.label := str "Net profit (15%)";
       Pricing.amount :=
         Pricing.roundGBP (subtotal * Pricing.BUSINESS_FEES.netProfit);
       Pricing.kind := Pricing.fee |} ].

Definition finalCostOf (subtotal : number) : number :=
  subtotal
  + Pricing.roundGBP (subtotal * Pricing.BUSINESS_FEES.projectManagement)
  + Pricing.roundGBP (subtotal * Pricing.BUSINESS_FEES.contingency)
  + Pricing.roundGBP (subtotal * Pricing.BUSINESS_FEES.netProfit).

(** The example of the specification: hardscaping, standard tier, 100 square
    metres (10 by 10), no excavator access, a driveway, flat ground, nothing
    to demolish. *)
Definition hardscape100 : Pricing.ProjectInputs :=
  {| Pricing.service := hardscaping;
     Pricing.hasExcavatorAccess := false;
     Pricing.hasDrivewayForSkip := true;
     Pricing.slopeLevel := flat;
     Pricing.subBaseType := dirt;
     Pricing.existingDemolition := false;
     Pricing.length_m := 10;
     Pricing.width_m := 10;
     Pricing.area_m2 := 100;
     Pricing.materialTier := standard;
     Pricing.deckHeight_m := None |}.


(** The example of the source's own comment: a 15 square metre deck to be
    demolished. *)
Definition deck15 : Pricing.ProjectInputs :=
  {| Pricing.service := decking;
     Pricing.hasExcavatorAccess := true;
     Pricing.hasDrivewayForSkip := true;
     Pricing.slopeLevel := flat;
     Pricing.subBaseType := dirt;
     Pricing.existingDemolition := true;
     Pricing.length_m := 5;
     Pricing.width_m := 3;
     Pricing.area_m2 := 15;
     Pricing.materialTier := standard;
     Pricing.deckHeight_m := None |}.

(** [s'] is [s] with exactly one field changed from unset (null) to a set
    value.  The fields that are never null (the message history, the
    certainty level, the flags and the retry counters) do not take part. *)
Inductive addsOneField (s : S.t) : S.t -> Prop :=
| add_service v :
    S.service s = None -> addsOneField s (S.set_service (Some v) s)
| add_area_m2 v :
    S.area_m2 s = None -> addsOneField s (S.set_area_m2 (Some v) s)
| add_length_m v :
    S.length_m s = None -> addsOneField s (S.set_length_m (Some v) s)
| add_width_m v :
    S.width_m s = None -> addsOneField s (S.set_width_m (Some v) s)
| add_materialTier v :
    S.materialTier s = None -> addsOneField s (S.set_materialTier (Some v) s)
| add_hasExcavatorAccess v :
    S.hasExcavatorAccess s = None ->
    addsOneField s (S.set_hasExcavatorAccess (Some v) s)
| add_hasDrivewayForSkip v :
    S.hasDrivewayForSkip s = None ->
    addsOneField s (S.set_hasDrivewayForSkip (Some v) s)
| add_slopeLevel v :
    S.slopeLevel s = None -> addsOneField s (S.set_slopeLevel (Some v) s)
| add_subBaseType v :
    S.subBaseType s = None -> addsOneField s (S.set_subBaseType (Some v) s)
| add_existingDemolition v :
    S.existingDemolition s = None ->
    addsOneField s (S.set_existingDemolition (Some v) s)
| add_deckHeight_m v :
    S.deckHeight_m s = None -> addsOneField s (S.set_deckHeight_m (Some v) s)
| add_overgrown v :
    S.overgrown s = None -> addsOneField s (S.set_overgrown (Some v) s)
| add_gateCount v :
    S.gateCount s = None -> addsOneField s (S.set_gateCount (Some v) s)
| add_wantsDrainage v :
    S.wantsDrainage s = None -> addsOneField s (S.set_wantsDrainage (Some v) s)
| add_wantsLedLighting v :
    S.wantsLedLighting s = None ->
    addsOneField s (S.set_wantsLedLighting (Some v) s)
| add_lastQuestionField v :
    S.lastQuestionField s = None ->
    addsOneField s (S.set_lastQuestionField (Some v) s)
| add_budgetAligns v :
    S.budgetAligns s = None -> addsOneField s (S.set_budgetAligns (Some v) s)
| add_contactPhone v :
    S.contactPhone s = None -> addsOneField s (S.set_contactPhone (Some v) s)
| add_contactEmail v :
    S.contactEmail s = None -> addsOneField s (S.set_contactEmail (Some v) s)
| add_fullName v :
    S.fullName s = None -> addsOneField s (S.set_fullName (Some v) s)
| add_userBudget v :
    S.userBudget s = None -> addsOneField s (S.set_userBudget (Some v) s)
| add_postalCode v :
    S.postalCode s = None -> addsOneField s (S.set_postalCode (Some v) s)
| add_projectStartTiming v :
    S.projectStartTiming s = None ->
    addsOneField s (S.set_projectStartTiming (Some v) s)
| add_groundSoilType v :
    S.groundSoilType s = None ->
    addsOneField s (S.set_groundSoilType (Some v) s).

(** The certainty of a state depends on its service and on which of the
    scored fields are present; [certaintyOf] is [calculateCertainty] on the
    plainest state with a given service and given presences. *)
Definition certaintyOf (svc : option ServiceType)
           (dims tier ov sl dr ex dm : bool) : number :=
  Manager.calculateCertainty
    {| S.service := svc;
       S.area_m2 := if dims then Some 1 else None;
       S.length_m := None;
       S.width_m := None;
       S.materialTier := if tier then Some standard else None;
       S.hasExcavatorAccess := if ex then Some true else None;
       S.hasDrivewayForSkip := if dr then Some true else None;
       S.slopeLevel := if sl then Some flat else None;
       S.subBaseType := None;
       S.existingDemolition := if dm then Some true else None;
       S.deckHeight_m := None;
       S.overgrown := if ov then Some true else None;
       S.gateCount := None;
       S.wantsDrainage := None;
       S.wantsLedLighting := None;
       S.messageHistory := [];
       S.certaintyLevel := 0;
       S.awaitingEstimate := false;
       S.retryCount := [];
       S.lastQuestionField := None;
       S.showQuickReplies := false;
       S.budgetAligns := None;
       S.contactPhone := None;
       S.contactEmail := None;
       S.fullName := None;
       S.userBudget := None;
       S.postalCode := None;
       S.projectStartTiming := None;
       S.groundSoilType := None |}.

(** Whether a state has dimensions, as the score sees it. *)
Definition hasDimensions (s : S.t) : bool :=
  (optTruthyNum (S.area_m2 s)
   || (optTruthyNum (S.length_m s) && optTruthyNum (S.width_m s)))%bool.

(** The geometry of an extraction result. *)
Definition geometry (e : E.t) : option number * option number * option number :=
  (E.area_m2 e, E.length_m e, E.width_m e).

(** The utterance mentions a fence, as the extractor looks for it. *)
Definition mentionsFence (userMessage : jsstring) : bool :=
  includesAny (toLowerCase userMessage) ["fence"%string; "fencing"%string].

(** The field that a question is about, in the state: the half
    [newState.f !== null] of [isRelevantFieldExtracted], with the two
    fields for which [getFallbackQuickReplies] has answers as well. *)
Definition fieldIsSet (f : FieldName) (s : S.t) : bool :=
  if String.eqb f "service" then isSome (S.service s)
  else if String.eqb f "dimensions" then
    (isSome (S.area_m2 s) || isSome (S.length_m s))%bool
  else if String.eqb f "materialTier" then isSome (S.materialTier s)
  else if String.eqb f "excavatorAccess" then isSome (S.hasExcavatorAccess s)
  else if String.eqb f "driveway" then isSome (S.hasDrivewayForSkip s)
  else if String.eqb f "slope" then isSome (S.slopeLevel s)
  else if String.eqb f "demolition" then isSome (S.existingDemolition s)
  else if String.eqb f "deckHeight" then isSome (S.deckHeight_m s)
  else if String.eqb f "overgrown" then isSome (S.overgrown s)
  else if String.eqb f "gateCount" then isSome (S.gateCount s)
  else if String.eqb f "fullName" then isSome (S.fullName s)
  else if String.eqb f "contactPhone" then isSome (S.contactPhone s)
  else if String.eqb f "contactEmail" then isSome (S.contactEmail s)
  else if String.eqb f "userBudget" then isSome (S.userBudget s)
  else if String.eqb f "postalCode" then isSome (S.postalCode s)
  else if String.eqb f "budgetAlignment" then isSome (S.budgetAligns s)
  else if String.eqb f "projectStartTiming" then
    isSome (S.projectStartTiming s)
  else false.

(** The question that [getQuickReplies] answers in a state: the field named
    by the branch that returns the list. *)
Definition quickReplyField (state : S.t) : option FieldName :=
  match S.service state with
  | None => Some "service"%string
  | Some service =>
      if (negb (optTruthyNum (S.area_m2 state))
          && negb (optTruthyNum (S.length_m state))
          && negb (optTruthyNum (S.width_m state)))%bool
      then Some "dimensions"%string
      else if negb (isSome (S.materialTier state))
      then Some "materialTier"%string
      else if (negb (isSome (S.hasExcavatorAccess state))
               && negb (ServiceType_eqb service mowing))%bool
      then Some "excavatorAccess"%string
      else if (negb (isSome (S.hasDrivewayForSkip state))
               && negb (ServiceType_eqb service mowing))%bool
      then Some "driveway"%string
      else if (negb (isSome (S.slopeLevel state))
               && negb (ServiceType_eqb service mowing))%bool
      then Some "slope"%string
      else if (negb (isSome (S.existingDemolition state))
               && (ServiceType_eqb service hardscaping
                   || ServiceType_eqb service decking))%bool
      then Some "demolition"%string
      else if (ServiceType_eqb service fencing
               && negb (isSome (S.gateCount state)))%bool
      then Some "gateCount"%string
      else if (ServiceType_eqb service mowing
               && negb (isSome (S.overgrown state)))%bool
      then Some "overgrown"%string
      else if (negb (isSome (S.userBudget state))
               && optTruthyStr (S.contactEmail state))%bool
      then Some "userBudget"%string
      else if (isSome (S.userBudget state)
               && negb (optTruthyStr (S.projectStartTiming state)))%bool
      then Some "projectStartTiming"%string
      else None
  end.

(** The same for the earlier copy of [getQuickReplies]. *)
Definition quickReplyFieldEarlier (state : S.t) : option FieldName :=
  match S.service state with
  | None => None
  | Some service =>
      if negb (isSome (S.materialTier state))
      then Some "materialTier"%string
      else if (negb (isSome (S.hasExcavatorAccess state))
               && negb (ServiceType_eqb service mowing))%bool
      then Some "excavatorAccess"%string
      else if (negb (isSome (S.hasDrivewayForSkip state))
               && negb (ServiceType_eqb service mowing))%bool
      then Some "driveway"%string
      else if (negb (isSome (S.slopeLevel state))
               && negb (ServiceType_eqb service mowing))%bool
      then Some "slope"%string
      else if (negb (isSome (S.existingDemolition state))
               && (ServiceType_eqb service hardscaping
                   || ServiceType_eqb service decking))%bool
      then Some "demolition"%string
      else if (ServiceType_eqb service fencing
               && negb (isSome (S.gateCount state)))%bool
      then Some "gateCount"%string
      else if (ServiceType_eqb service mowing
               && negb (isSome (S.overgrown state)))%bool
      then Some "overgrown"%string
      else None
  end.

(** The literal [v] is offered as an answer to the question about [f], by
    either copy of the quick replies. *)
Definition offered (f : FieldName) (s : S.t) (v : QuickReplies.QuickReply)
  : Prop :=
  In v (QuickReplies.getFallbackQuickReplies f s)
  \/ (quickReplyField s = Some f /\ In v (QuickReplies.getQuickReplies s))
  \/ In v (QuickRepliesEarlier.getFallbackQuickReplies f s)
  \/ (quickReplyFieldEarlier s = Some f
      /\ In v (QuickRepliesEarlier.getQuickReplies s)).

(** The literals set aside: the two that ask for free typing, the
    pounds-zero offered as "not sure yet", which the budget range of the
    extractor rejects, and the two gate counts that the extractor and the
    merge do not carry through. *)
Definition unparsedLiterals : list QuickReplies.QuickReply :=
  [ QuickReplies.WRITE_IT_OUT; str "let me type it"; QuickReplies.pounds "0";
    str "no gates"; str "three gates" ].

Definition unparsed (v : QuickReplies.QuickReply) : bool :=
  existsb (JS.eqb v) unparsedLiterals.

(** What an extraction result must carry for the merge to set the field of
    the current question. *)
Definition carries (f : FieldName) (e : E.t) : bool :=
  if String.eqb f "service" then isSome (E.service e)
  else if String.eqb f "dimensions" then
    match E.area_m2 e with
    | Some a => (truthyNum a && negb (ltb a 2))%bool
    | None => false
    end
  else if String.eqb f "materialTier" then isSome (E.materialTier e)
  else if String.eqb f "excavatorAccess" then isSome (E.hasExcavatorAccess e)
  else if String.eqb f "driveway" then isSome (E.hasDrivewayForSkip e)
  else if String.eqb f "slope" then isSome (E.slopeLevel e)
  else if String.eqb f "demolition" then isSome (E.existingDemolition e)
  else if String.eqb f "deckHeight" then isSome (E.deckHeight_m e)
  else if String.eqb f "overgrown" then isSome (E.overgrown e)
  else if String.eqb f "gateCount" then optTruthyNum (E.gateCount e)
  else if String.eqb f "fullName" then optTruthyStr (E.fullName e)
  else if String.eqb f "contactPhone" then optTruthyStr (E.contactPhone e)
  else if String.eqb f "contactEmail" then optTruthyStr (E.contactEmail e)
  else if String.eqb f "userBudget" then isSome (E.userBudget e)
  else if String.eqb f "budgetAlignment" then isSome (E.budgetAligns e)
  else false.

(** A conversation at the budget question: everything before it on the
    ladder is answered. *)
Definition askingBudget : S.t :=
  S.set_contactEmail (Some (str "user@example.com"))
    (S.set_contactPhone (Some (str "07700900000"))
       (S.set_fullName (Some (str "John Smith"))
          (S.set_existingDemolition (Some false)
             (S.set_slopeLevel (Some flat)
                (S.set_hasDrivewayForSkip (Some true)
                   (S.set_hasExcavatorAccess (Some true)
                      (S.set_materialTier (Some standard)
                         (S.set_area_m2 (Some 50)
                            (S.set_service (Some hardscaping)
                               Manager.createInitialState))))))))).

(** A conversation at the dimensions question. *)
Definition askingDimensions : S.t :=
  S.set_service (Some hardscaping) Manager.createInitialState.

(* ====================================================================== *)
(** ** Further notions: the pricing engine *)
(* ====================================================================== *)

(** Inputs that differ in one property, [{ ...inputs, f: v }]. *)
Module Inputs.

Import Pricing.

Definition set_hasDrivewayForSkip (v : bool) (i : ProjectInputs)
  : ProjectInputs :=
  {| service := service i;
     hasExcavatorAccess := hasExcavatorAccess i;
     hasDrivewayForSkip := v;
     slopeLevel := slopeLevel i;
     subBaseType := subBaseType i;
     existingDemolition := existingDemolition i;
     length_m := length_m i;
     width_m := width_m i;
     area_m2 := area_m2 i;
     materialTier := materialTier i;
     deckHeight_m := deckHeight_m i |}.

Definition set_slopeLevel (v : SlopeLevel) (i : ProjectInputs)
  : ProjectInputs :=
  {| service := service i;
     hasExcavatorAccess := hasExcavatorAccess i;
     hasDrivewayForSkip := hasDrivewayForSkip i;
     slopeLevel := v;
     subBaseType := subBaseType i;
     existingDemolition := existingDemolition i;
     length_m := length_m i;
     width_m := width_m i;
     area_m2 := area_m2 i;
     materialTier := materialTier i;
     deckHeight_m := deckHeight_m i |}.

Definition set_area_m2 (v : number) (i : ProjectInputs) : ProjectInputs :=
  {| service := service i;
     hasExcavatorAccess := hasExcavatorAccess i;
     hasDrivewayForSkip := hasDrivewayForSkip i;
     slopeLevel := slopeLevel i;
     subBaseType := subBaseType i;
     existingDemolition := existingDemolition i;
     length_m := length_m i;
     width_m := width_m i;
     area_m2 := v;
     materialTier := materialTier i;
     deckHeight_m := deckHeight_m i |}.

Definition set_deckHeight_m (v : option number) (i : ProjectInputs)
  : ProjectInputs :=
  {| service := service i;
     hasExcavatorAccess := hasExcavatorAccess i;
     hasDrivewayForSkip := hasDrivewayForSkip i;
     slopeLevel := slopeLevel i;
     subBaseType := subBaseType i;
     existingDemolition := existingDemolition i;
     length_m := length_m i;
     width_m := width_m i;
     area_m2 := area_m2 i;
     materialTier := materialTier i;
     deckHeight_m := v |}.

End Inputs.

(** The subtotal of step 5 in closed form: the rounded material cost, the
    rounded labor cost and the surcharges that apply. *)
Definition subtotalOf (i : Pricing.ProjectInputs) : number :=
  (Pricing.roundGBP
     (Pricing.area_m2 i
      * Pricing.rate (Pricing.UK_2026_RATES (Pricing.service i)
                                            (Pricing.materialTier i)))
   + Pricing.roundGBP
       (if Pricing.hasExcavatorAccess i
        then Pricing.estimateLaborHours (Pricing.area_m2 i) (Pricing.service i)
             * Pricing.LABOR_RATE_PER_HOUR_GBP
        else Pricing.estimateLaborHours (Pricing.area_m2 i) (Pricing.service i)
             * Pricing.LABOR_RATE_PER_HOUR_GBP * (145 # 100))
   + (if Pricing.hasDrivewayForSkip i then 0
      else Pricing.SURCHARGES.councilPermit)
   + (if SlopeLevel_eqb (Pricing.slopeLevel i) steep
      then Pricing.SURCHARGES.steepSlopeGrading else 0)
   + (if Pricing.existingDemolition i
      then Pricing.calculateSkipLoads (Pricing.area_m2 i)
           * Pricing.SURCHARGES.skipLoad
      else 0)
   + (if match Pricing.deckHeight_m i with
         | Some h => truthyNum h && gtb h (15 # 10)
         | None => false
         end
      then Pricing.SURCHARGES.highAltitudeScaffolding else 0))%Q.

(* ====================================================================== *)
(** ** The dialogue state, continued: questions and retries
       ([conversationManager.ts]) *)
(* ====================================================================== *)

Module Questions.

Import Manager.

Local Open Scope string_scope.

(** The question about the size of the work, per service. *)
Definition serviceExamples (s : ServiceType) : jsstring :=
  match s with
  | hardscaping => (str "How large of an area are we working with? You can give me rough dimensions like '10 meters by 5 meters' or just the total area.")
  | decking => (str "How large of an area are we working with? You can give me rough dimensions like '8m x 4m' or just the total area.")
  | softscaping => (str "What's the size of the area you'd like landscaped? Rough dimensions are fine.")
  | mowing => (str "How large is your lawn? You can tell me in square meters or give rough dimensions.")
  | planting => (str "What size is the planting area? Rough dimensions or total area would help.")
  | fencing => (str "How much fencing do you need? You can give me the perimeter length in meters.")
  | framing => (str "What's the footprint of the structure you're thinking about? Give me rough dimensions.")
  end.

(** The question about the material tier, per service. *)
Definition tierQuestions (s : ServiceType) : jsstring :=
  match s with
  | hardscaping => (str "What material are you considering? Options range from concrete pavers (budget-friendly) to Indian sandstone (mid-range) to porcelain paving (premium).")
  | decking => (str "What material are you considering" ++ [8212%N] ++ str "softwood, composite, or hardwood like Ipe?")%list
  | softscaping => (str "What level of landscaping are you thinking? Basic planting, premium specimens, or full architectural design?")
  | mowing => (str "What level of service do you need? Basic cut and collect, precision cut with edging, or full grounds maintenance?")
  | planting => (str "What type of plants are you thinking about? Container plants, specimen plants, or architectural planting?")
  | fencing => (str "What material are you considering? Softwood panels, treated slats, or premium cedar?")
  | framing => (str "What type of structure? Basic pergola frame, engineered timber, or custom hardwood?")
  end.

Definition getNextQuestion (state : S.t) : option jsstring :=
  match S.service state with
  (* Priority 1: service type *)
  | None => Some (str "Good day. I'm the Digital Front Desk for your professional landscaping requirements. I'll calculate a ballpark investment for your project. What service are you interested in today?")
  | Some service =>
      (* Priority 2: dimensions *)
      if negb (optTruthyNum (S.area_m2 state))
         && negb (optTruthyNum (S.length_m state))
         && negb (optTruthyNum (S.width_m state))
      then Some (serviceExamples service)
      (* Priority 3: material tier *)
      else if negb (isSome (S.materialTier state))
      then Some (tierQuestions service)
      (* Priority 4: site access *)
      else if negb (isSome (S.hasExcavatorAccess state))
              && serviceIn (S.service state) excavationServices
      then Some (str "Is there a way for a small digger (about 90cm wide) to get into your garden, or is the gate narrower than that?")
      (* Priority 5: service-specific questions *)
      else if serviceIs (S.service state) decking
              && negb (isSome (S.deckHeight_m state))
      then Some (str "How high off the ground will this deck be? This helps me factor in safety requirements.")
      else if serviceIs (S.service state) mowing
              && negb (isSome (S.overgrown state))
      then Some (str "When was it last cut? If it's been more than 2 weeks, I'll need to factor in extra time for collection.")
      else if serviceIs (S.service state) fencing
              && negb (isSome (S.gateCount state))
      then Some (str "Will you need any gates in this fence?")
      (* Priority 6: site conditions *)
      else if negb (isSome (S.hasDrivewayForSkip state))
              && serviceIn (S.service state) heavyWorkServices
      then Some (str "Is there a driveway where we can place a skip for waste disposal, or would it need to go on the street?")
      else if negb (isSome (S.slopeLevel state))
              && serviceIn (S.service state) heavyWorkServices
      then Some (str "How would you describe the ground" ++ [8212%N] ++ str "fairly flat, moderate slope, or quite steep?")%list
      else if negb (isSome (S.existingDemolition state))
              && (serviceIs (S.service state) hardscaping
                  || serviceIs (S.service state) decking)
      then Some (str "Is there any existing hardscape or structure we'd need to remove first?")
      (* Priority 7: user information *)
      else if negb (optTruthyStr (S.fullName state))
      then Some (str "Before I prepare your estimate, may I have your full name for the project summary?")
      else if negb (optTruthyStr (S.contactPhone state))
      then Some (str "And what's the best phone number to reach you at?")
      else if negb (optTruthyStr (S.contactEmail state))
      then Some (str "And your email address?")
      else if negb (isSome (S.userBudget state))
      then Some (str "What budget have you set aside for this project? This helps me understand if we're aligned.")
      else if negb (optTruthyStr (S.postalCode state))
      then Some (str "Finally, what's the postcode for the project address?")
      else None
  end.

End Questions.

(** The retry counters: [retryCount] is an object used as a map from field
    names to counts.  The field names are those [detectCurrentField]
    returns, none of which names a property that every object inherits;
    the order of the keys is not observed by the program. *)
Module Retry.

Local Open Scope string_scope.

(** [retryCount[field]], [undefined] as [None]. *)
Fixpoint lookup (retryCount : list (FieldName * number)) (field : FieldName)
  : option number :=
  match retryCount with
  | [] => None
  | (k, v) :: rest => if k =? field then Some v else lookup rest field
  end.

(** [{ ...retryCount, [field]: v }] *)
Fixpoint store (retryCount : list (FieldName * number)) (field : FieldName)
         (v : number) : list (FieldName * number) :=
  match retryCount with
  | [] => [(field, v)]
  | (k, x) :: rest =>
      if k =? field then (k, v) :: rest else (k, x) :: store rest field v
  end.

Definition incrementRetryCount (state : S.t) (field : FieldName) : S.t :=
  let currentCount :=
    match lookup (S.retryCount state) field with
    | Some n => if truthyNum n then n else 0%Q
    | None => 0%Q
    end in
  S.set_showQuickReplies (geb currentCount 0)
    (S.set_lastQuestionField (Some field)
       (S.set_retryCount
          (store (S.retryCount state) field (currentCount + 1)%Q) state)).

Definition resetRetryCount (state : S.t) : S.t :=
  S.set_lastQuestionField None
    (S.set_showQuickReplies false (S.set_retryCount [] state)).

End Retry.

(** The names [detectCurrentField] returns. *)
Definition fieldNames : list FieldName :=
  [ "service"; "dimensions"; "materialTier"; "excavatorAccess"; "deckHeight";
    "overgrown"; "gateCount"; "driveway"; "slope"; "demolition"; "fullName";
    "contactPhone"; "contactEmail"; "userBudget"; "postalCode";
    "unknown" ]%string.

(** A stored value is never falsy: the numbers and strings that the manager
    tests with [!state.f] or [state.f || ...] are non-zero and non-empty
    when they are set.  For such a state [!state.f] and [state.f === null]
    agree. *)
Definition setTruthyNum (o : option number) : bool :=
  match o with Some x => truthyNum x | None => true end.
Definition setTruthyStr (o : option jsstring) : bool :=
  match o with Some x => truthyStr x | None => true end.

Definition storesNoFalsyValue (s : S.t) : bool :=
  setTruthyNum (S.area_m2 s) && setTruthyNum (S.length_m s)
  && setTruthyNum (S.width_m s) && setTruthyNum (S.gateCount s)
  && setTruthyStr (S.fullName s) && setTruthyStr (S.contactPhone s)
  && setTruthyStr (S.contactEmail s) && setTruthyStr (S.postalCode s)
  && setTruthyStr (S.projectStartTiming s)
  && setTruthyStr (S.groundSoilType s).

(* ====================================================================== *)
(** ** Further notions: the extractor *)
(* ====================================================================== *)

(** The plain yes and the plain no that [extractLocalInformation] computes
    first, as functions of the lower-cased message. *)
Definition isAffirmative (msg : jsstring) : bool :=
  (equalsAny msg ["yes"; "yep"; "yeah"; "yeh"; "ye"; "sure"; "ok"]%string
   || includesAny msg
        ["yeah"; "definitely"; "absolutely"; "of course"]%string)%bool.

Definition isNegative (msg : jsstring) : bool :=
  (equalsAny msg ["no"; "nope"; "nah"; "na"]%string
   || includesAny msg ["no "; "not really"]%string)%bool.

(** The numbers of an extraction result, with the flag that goes with the
    budget. *)
Definition numbers (e : E.t)
  : option number * option number * option number * option number
    * option number * option number * option bool :=
  (E.length_m e, E.width_m e, E.area_m2 e, E.deckHeight_m e, E.gateCount e,
   E.userBudget e, E.explicitBudget e).

Definition optAll (p : number -> bool) (o : option number) : bool :=
  match o with Some x => p x | None => true end.

(** Lengths, widths, areas and gate counts are not negative; a deck height
    is not negative and below 10; a budget lies strictly between 100 and
    2,000,000 and comes with its flag. *)
Definition inRange
           (n : option number * option number * option number * option number
                * option number * option number * option bool) : bool :=
  let '(length_m, width_m, area_m2, deckHeight_m, gateCount, userBudget,
        explicitBudget) := n in
  (optAll (fun x => geb x 0) length_m && optAll (fun x => geb x 0) width_m
   && optAll (fun x => geb x 0) area_m2
   && optAll (fun h => geb h 0 && ltb h 10) deckHeight_m
   && optAll (fun g => geb g 0) gateCount
   && optAll (fun b => gtb b 100 && ltb b 2000000) userBudget
   && Bool.eqb (isSome userBudget) (isSome explicitBudget))%bool.

Definition numbersInRange (e : E.t) : bool := inRange (numbers e).

(** The properties of [ExtractedInfo] that no rule of the extractor
    assigns. *)
Definition neverExtracted (e : E.t)
  : option SubBaseType * option bool * option bool * option jsstring
    * option jsstring :=
  (E.subBaseType e, E.wantsDrainage e, E.wantsLedLighting e,
   E.projectStartTiming e, E.groundSoilType e).

(** The two answers about the site that a plain no decides, and the one
    that a bare yes decides with them. *)
Definition siteAccess (e : E.t) : option bool * option bool :=
  (E.hasExcavatorAccess e, E.hasDrivewayForSkip e).

Definition demolitionOf (e : E.t) : option bool := E.existingDemolition e.

(** A bare yes: the message is one of these words, in any case. *)
Definition isBareYes (msg : jsstring) : bool :=
  equalsAny msg ["yes"; "yep"; "yeah"; "yeh"; "ye"; "sure"; "ok"]%string.

(** The budget of an extraction result and its flag. *)
Definition budgetOf (e : E.t) : option number * option bool :=
  (E.userBudget e, E.explicitBudget e).

(* ====================================================================== *)
(** ** The chat handler ([App.tsx]) *)
(* ====================================================================== *)

(** The part of the component that decides on the state and on the kind of
    reply: the handler of a message from the merge on, and the estimate
    it asks for.  The message history (with its random identifiers and
    time stamps), the [awaitingEstimate] flag, the text of the
    acknowledgment and the call to the conversation API, whose answer is
    merged over the local extraction when it is made and succeeds, are
    not part of the embedding: [settle] takes the extraction result that
    the handler ends up with, and [localTurn] is the handler when that
    result is the one of the local extractor. *)
Module App.

Import Manager Questions Retry.

Local Open Scope string_scope.

Section Host.

(** [String.prototype.toUpperCase].  The handler applies it to whatever
    the user typed; the embedding defines it on ASCII only
    ([toUpperCaseAscii]) and takes it as given here. *)
Variable toUpperCase : jsstring -> jsstring.

(** [stateWithRetry]: the merge (the third argument that the handler passes
    to [updateStateWithExtraction] is not a parameter of the function), the
    forced acceptance of a postcode, and the retry bookkeeping. *)
Definition settle (state : S.t) (extracted : E.t) (sanitizedInput : jsstring)
  : S.t :=
  let currentField := detectCurrentField state in
  let updatedState := updateStateWithExtraction state extracted in
  let relevantFieldExtracted :=
    isRelevantFieldExtracted currentField extracted state updatedState in
  if (currentField =? "postalCode") && negb relevantFieldExtracted
     && Nat.ltb 1 (List.length sanitizedInput)
  then
    (* force accept postcode *)
    resetRetryCount
      (S.set_postalCode (Some (toUpperCase sanitizedInput)) updatedState)
  else if negb relevantFieldExtracted then
    incrementRetryCount updatedState currentField
  else resetRetryCount updatedState.

(** One message handled with the local extraction alone. *)
Definition localTurn (state : S.t) (sanitizedInput : jsstring) : S.t :=
  settle state (Extraction.extractLocalInformation sanitizedInput)
         sanitizedInput.

(** The state after a sequence of messages, from the initial state.  The
    handler drops a message that is empty once trimmed and sanitized; the
    messages of the list are the ones it handles. *)
Definition dialogue (inputs : list jsstring) : S.t :=
  fold_left localTurn inputs createInitialState.

End Host.

(** The kind of reply the handler builds from [stateWithRetry]: the
    announcement of the estimate, the next question, the apology shown
    with the quick replies, or the request to tell more. *)
Inductive Reply : Type :=
| Estimate
| Question (nextQ : jsstring)
| Apology
| TellMore.

Definition reply (stateWithRetry : S.t) : Reply :=
  let nextQ := getNextQuestion stateWithRetry in
  if isReadyForEstimate stateWithRetry && negb (isSome nextQ) then Estimate
  else
    match nextQ with
    | Some q =>
        if S.showQuickReplies stateWithRetry then Apology else Question q
    | None => TellMore
    end.

(** [ProjectInputs] from the conversation state, with the defaults of
    [generateEstimate]. *)
Definition orZero (o : option number) : number :=
  match o with
  | Some x => if truthyNum x then x else 0%Q
  | None => 0%Q
  end.

Definition projectInputs (conversationState : S.t) : Pricing.ProjectInputs :=
  {| Pricing.service :=
       match S.service conversationState with
       | Some v => v
       | None => hardscaping
       end;
     Pricing.hasExcavatorAccess :=
       match S.hasExcavatorAccess conversationState with
       | Some b => b
       | None => true
       end;
     Pricing.hasDrivewayForSkip :=
       match S.hasDrivewayForSkip conversationState with
       | Some b => b
       | None => true
       end;
     Pricing.slopeLevel :=
       match S.slopeLevel conversationState with
       | Some v => v
       | None => flat
       end;
     Pricing.subBaseType :=
       match S.subBaseType conversationState with
       | Some v => v
       | None => dirt
       end;
     Pricing.existingDemolition :=
       match S.existingDemolition conversationState with
       | Some b => b
       | None => false
       end;
     Pricing.length_m := orZero (S.length_m conversationState);
     Pricing.width_m := orZero (S.width_m conversationState);
     Pricing.area_m2 :=
       match S.area_m2 conversationState with
       | Some a =>
           if truthyNum a then a
           else (orZero (S.length_m conversationState)
                 * orZero (S.width_m conversationState))%Q
       | None =>
           (orZero (S.length_m conversationState)
            * orZero (S.width_m conversationState))%Q
       end;
     Pricing.materialTier :=
       match S.materialTier conversationState with
       | Some v => v
       | None => standard
       end;
     Pricing.deckHeight_m :=
       match S.deckHeight_m conversationState with
       | Some h => if truthyNum h then Some h else None
       | None => None
       end |}.

(** [estimatorSchema.parse(inputs)] succeeds: of the checks of the schema,
    those on the numbers can fail for a value of type [ProjectInputs] (the
    service is one of seven non-empty names, the enumerations and booleans
    are what they have to be, and the contact details are absent). *)
Definition estimatorSchema (inputs : Pricing.ProjectInputs) : bool :=
  geb (Pricing.area_m2 inputs) 0
  && geb (Pricing.length_m inputs) 0
  && geb (Pricing.width_m inputs) 0
  && match Pricing.deckHeight_m inputs with
     | Some h => geb h 0
     | None => true
     end.

(** The estimate that [generateEstimate] stores; [None] when the schema
    rejects the inputs and the handler reports [invalid_inputs]. *)
Definition generateEstimate (conversationState : S.t)
  : option Pricing.EstimateResult :=
  let inputs := projectInputs conversationState in
  if estimatorSchema inputs then Some (Pricing.calculateUKEstimate inputs)
  else None.

End App.

(** What a dialogue served by the local extractor keeps true of its state:
    no falsy value is stored, no number is negative, the stored certainty
    is the one of the state, a length and a width come with their area,
    and no sub-base type is known. *)
Definition noNegativeNumber (s : S.t) : bool :=
  optAll (fun x => geb x 0) (S.area_m2 s)
  && optAll (fun x => geb x 0) (S.length_m s)
  && optAll (fun x => geb x 0) (S.width_m s)
  && optAll (fun x => geb x 0) (S.deckHeight_m s).

Definition sidesGiveArea (s : S.t) : bool :=
  implb (optTruthyNum (S.length_m s) && optTruthyNum (S.width_m s))
        (optTruthyNum (S.area_m2 s)).

Definition localInvariant (s : S.t) : Prop :=
  storesNoFalsyValue s = true
  /\ noNegativeNumber s = true
  /\ sidesGiveArea s = true
  /\ S.certaintyLevel s = Manager.calculateCertainty s
  /\ S.subBaseType s = None.

(* ====================================================================== *)
(** ** Numbers and messages clear of the limits of a double *)
(* ====================================================================== *)

(** A side is ordinary when it is zero or between 10^-150 and 10^150 in
    magnitude.  The product of two such sides that are not zero lies
    between 10^-300 and 10^300: as a double it is neither [0] nor
    [Infinity], so that it is truthy in the source as it is here. *)
Definition smallestSide : number := (1 # (10 ^ 150)%positive)%Q.
Definition largestSide : number := inject_Z (10 ^ 150)%Z.

Definition ordinarySide (x : number) : bool :=
  negb (truthyNum x)
  || (Qle_bool smallestSide (Qabs x) && Qle_bool (Qabs x) largestSide).

(** The lengths and widths that a merge has at hand: those of the state
    and those of the extraction. *)
Definition ordinarySides (s : S.t) (e : E.t) : bool :=
  optAll ordinarySide (S.length_m s) && optAll ordinarySide (S.width_m s)
  && optAll ordinarySide (E.length_m e) && optAll ordinarySide (E.width_m e).

(** Messages of at most 100 code units.  A number that the extractor reads
    in such a message is a capture of at most 100 digits: it is zero or
    between 10^-99 and 10^100, hence an ordinary side. *)
Definition shortMessages (inputs : list jsstring) : bool :=
  forallb (fun sanitizedInput => Nat.leb (List.length sanitizedInput) 100)
          inputs.

(** Areas up to a square kilometre: every amount of their estimate is a
    whole number far below 2^53, which a double holds exactly. *)
Definition largestArea : number := 1000000%Q.

(* ====================================================================== *)
(** ** Utility exports of the pricing engine ([qouter.ts]) *)
(* ====================================================================== *)

Module Utilities.

Local Open Scope string_scope.

Record Dimensions : Type := { length : number; width : number }.

(** [input.replace(/×/g, 'x').replace(/\s+/g, '')] *)
Definition normalize (input : jsstring) : jsstring :=
  filter (fun c => negb (isSpace c))
         (map (fun c => if N.eqb c TIMES then 120%N else c) input).

Definition lengthByWidth : RegExp :=
  {| source := "/^(\d+(?:\.\d+)?)x(\d+(?:\.\d+)?)$/i";
     pattern :=
       Cat [Bol; Group 1 LegacyExtraction.decimal; Word "x";
            Group 2 LegacyExtraction.decimal; Eol];
     ignoreCase := true |}.

(** Parse the [Length x Width] format; [None] is [null].  Every rational
    is finite, so the [Number.isFinite] checks of the source always pass
    here: where a side is too long for a double ([Infinity]) or too small
    (read as [0]) the source returns [null] and this function a value. *)
Definition parseDimensions (input : jsstring) : option Dimensions :=
  let normalized := normalize input in
  match matchRe normalized lengthByWidth with
  | None => None
  | Some m =>
      let length := parseFloat (group 1 m) in
      let width := parseFloat (group 2 m) in
      if (Qle_bool length 0 || Qle_bool width 0)%bool then None
      else Some {| length := length; width := width |}
  end.

End Utilities.

(** The loop of the matcher for [r*], by name: [run ic (Star r) k c] is
    [starLoop ic r k (S (length (rest c))) c]. *)
Definition starLoop (ic : bool) (r : regex) (k : cursor -> option cursor)
  : nat -> cursor -> option cursor :=
  fix loop (fuel : nat) (c0 : cursor) {struct fuel} : option cursor :=
    match fuel with
    | O => k c0
    | S fuel' =>
        match run ic r
                  (fun c' => if Nat.ltb (pos c0) (pos c') then loop fuel' c'
                             else None) c0 with
        | Some c' => Some c'
        | None => k c0
        end
    end.

(** The cursor after the code units [ds] have been read. *)
Definition after (ds : jsstring) (p : nat) (b : option char) (r : jsstring)
           (cs : list (nat * jsstring)) : cursor :=
  {| pos := p + List.length ds;
     before := fold_left (fun _ d => Some d) ds b;
     rest := r;
     caps := cs |}.

(** A whole number in decimal: digits, at least one. *)
Definition wholeNumber (ds : jsstring) : Prop :=
  ds <> [] /\ Forall (fun c => isDigit c = true) ds.

(* ====================================================================== *)
(** ** Properties of the pricing engine *)
(* ====================================================================== *)

Section PricingFacts.

Import Pricing.
Local Open Scope Q_scope.

Lemma integral_inject (z : Z) : integral (inject_Z z).
Proof. exists z. reflexivity. Qed.

Lemma integral_round (x : number) : integral (round x).
Proof. apply integral_inject. Qed.

Lemma integral_plus (x y : number) :
  integral x -> integral y -> integral (x + y).
Proof.
  intros [a Ha] [b Hb]. exists (a + b)%Z.
  rewrite Ha, Hb, inject_Z_plus. reflexivity.
Qed.

Lemma integral_mult (x y : number) :
  integral x -> integral y -> integral (x * y).
Proof.
  intros [a Ha] [b Hb]. exists (a * b)%Z.
  rewrite Ha, Hb, inject_Z_mult. reflexivity.
Qed.

Lemma floor_half (z : Z) : Qfloor (inject_Z z + (1 # 2)) = z.
Proof.
  assert (Hlo : (z <= Qfloor (inject_Z z + (1 # 2)))%Z).
  { rewrite <- (Qfloor_Z z) at 1. apply Qfloor_resp_le.
    rewrite <- (Qplus_0_r (inject_Z z)) at 1.
    apply Qplus_le_r. discriminate. }
  assert (Hhi : (Qfloor (inject_Z z + (1 # 2)) < z + 1)%Z).
  { rewrite Zlt_Qlt. eapply Qle_lt_trans; [apply Qfloor_le|].
    rewrite inject_Z_plus. apply Qplus_lt_r. reflexivity. }
  lia.
Qed.

(** Rounding a whole number leaves it as it is. *)
Lemma round_integral (x : number) : integral x -> round x == x.
Proof.
  intros [z Hz]. unfold round.
  rewrite Hz at 1. rewrite floor_half. symmetry. exact Hz.
Qed.

Lemma round_comp (x y : number) : x == y -> round x = round y.
Proof. intros H. unfold round. now rewrite H. Qed.

Lemma integral_sumAmounts_from (items : list LineItem) (acc : number) :
  integral acc -> Forall (fun it => integral (amount it)) items ->
  integral (fold_left (fun sum item => sum + amount item) items acc).
Proof.
  revert acc. induction items as [|it items IH]; intros acc Hacc Hall; simpl.
  - exact Hacc.
  - inversion Hall; subst. apply IH; [apply integral_plus|]; assumption.
Qed.

Lemma integral_sumAmounts (items : list LineItem) :
  Forall (fun it => integral (amount it)) items -> integral (sumAmounts items).
Proof. apply integral_sumAmounts_from. exact (integral_inject 0). Qed.


Ltac split_inputs i :=
  destruct i as [svc acc drv slope sub demo len wid area tier dh].

(** Every estimate is a list of cost items followed by the three wrapper
    fees on their sum; the cost items carry whole amounts. *)
Lemma calculateUKEstimate_shape (i : ProjectInputs) :
  exists base : list LineItem,
    Forall (fun it => kind it <> fee /\ integral (amount it)) base
    /\ lineItems (calculateUKEstimate i) = base ++ feeItems (sumAmounts base)
    /\ estimate (calculateUKEstimate i) = roundGBP (finalCostOf (sumAmounts base))
    /\ lowerBound (calculateUKEstimate i)
       = roundGBP (finalCostOf (sumAmounts base) * (90 # 100))
    /\ upperBound (calculateUKEstimate i)
       = roundGBP (finalCostOf (sumAmounts base) * (110 # 100)).
Proof.
  split_inputs i.
  unfold calculateUKEstimate.
  cbn [service hasExcavatorAccess hasDrivewayForSkip slopeLevel subBaseType
       existingDemolition length_m width_m area_m2 materialTier deckHeight_m
       lineItems estimate lowerBound upperBound].
  destruct (negb acc), (negb drv), (SlopeLevel_eqb slope steep), demo,
    (match dh with
     | Some h => (truthyNum h && gtb h (15 # 10))%bool
     | None => false
     end);
    (eexists; split; [| split; [reflexivity | repeat split; reflexivity]]);
    cbn [app];
    repeat (constructor; [split; [discriminate | cbn [amount]] |]);
    try apply Forall_nil;
    first [ apply integral_round
          | apply integral_mult;
            [unfold calculateSkipLoads, ceil; apply integral_inject
            | exact (integral_inject 350)]
          | exact (integral_inject 60)
          | exact (integral_inject 8000)
          | exact (integral_inject 1800) ].
Qed.

Lemma filter_cost_base (base fees : list LineItem) :
  Forall (fun it => kind it <> fee) base ->
  Forall (fun it => kind it = fee) fees ->
  filter (fun it => negb (LineItemKind_eqb (kind it) fee)) (base ++ fees) = base.
Proof.
  intros Hb Hf. rewrite filter_app.
  assert (E1 : filter (fun it => negb (LineItemKind_eqb (kind it) fee)) base
               = base).
  { induction Hb as [|it l Hit _ IH]; simpl; [reflexivity|].
    destruct (kind it); simpl; solve [now rewrite IH | now elim Hit]. }
  assert (E2 : filter (fun it => negb (LineItemKind_eqb (kind it) fee)) fees
               = []).
  { induction Hf as [|it l Hit _ IH]; simpl; [reflexivity|].
    rewrite Hit. simpl. exact IH. }
  rewrite E1, E2. apply app_nil_r.
Qed.

Lemma filter_fee_base (base fees : list LineItem) :
  Forall (fun it => kind it <> fee) base ->
  Forall (fun it => kind it = fee) fees ->
  filter (fun it => LineItemKind_eqb (kind it) fee) (base ++ fees) = fees.
Proof.
  intros Hb Hf. rewrite filter_app.
  assert (E1 : filter (fun it => LineItemKind_eqb (kind it) fee) base = []).
  { induction Hb as [|it l Hit _ IH]; simpl; [reflexivity|].
    destruct (kind it); simpl; solve [exact IH | now elim Hit]. }
  assert (E2 : filter (fun it => LineItemKind_eqb (kind it) fee) fees = fees).
  { induction Hf as [|it l Hit _ IH]; simpl; [reflexivity|].
    rewrite Hit. simpl. now rewrite IH. }
  rewrite E1, E2. reflexivity.
Qed.

Lemma integral_finalCostOf (subtotal : number) :
  integral subtotal -> integral (finalCostOf subtotal).
Proof.
  intros H. unfold finalCostOf.
  repeat apply integral_plus; try apply integral_round. exact H.
Qed.

(** C1.  Without excavator access the labor line item is
    [round(laborHours * 85 * 1.45)], the only labor item of the estimate;
    the material line item is [round(area_m2 * tier rate)], the only
    material item, and it is the very item that the same input yields
    with excavator access.  Holds for every input of the engine, validated
    or not. *)
Theorem C1_access_multiplier_on_labor_only (i : ProjectInputs) :
  hasExcavatorAccess i = false ->
  amountsOfKind labor (calculateUKEstimate i)
    = [roundGBP (estimateLaborHours (area_m2 i) (service i) * 85 * (145 # 100))]
  /\ amountsOfKind material (calculateUKEstimate i)
     = [roundGBP (area_m2 i * rate (UK_2026_RATES (service i) (materialTier i)))]
  /\ itemsOfKind material (calculateUKEstimate i)
     = itemsOfKind material (calculateUKEstimate (set_hasExcavatorAccess true i)).
Proof.
  split_inputs i. simpl. intros ->.
  unfold amountsOfKind, itemsOfKind, calculateUKEstimate.
  cbn [service hasExcavatorAccess hasDrivewayForSkip slopeLevel subBaseType
       existingDemolition length_m width_m area_m2 materialTier deckHeight_m
       set_hasExcavatorAccess negb lineItems].
  destruct drv, slope, demo,
    (match dh with
     | Some h => (truthyNum h && gtb h (15 # 10))%bool
     | None => false
     end);
    cbn [SlopeLevel_eqb app filter map kind LineItemKind_eqb amount];
    repeat split; reflexivity.
Qed.

Lemma C1_witness :
  hasExcavatorAccess hardscape100 = false
  /\ amountsOfKind labor (calculateUKEstimate hardscape100)
     = [roundGBP (estimateLaborHours 100 hardscaping * 85 * (145 # 100))]
  /\ amountsOfKind material (calculateUKEstimate hardscape100)
     = [roundGBP (100 * rate (UK_2026_RATES hardscaping standard))]
  /\ itemsOfKind material (calculateUKEstimate hardscape100)
     = itemsOfKind material
         (calculateUKEstimate (set_hasExcavatorAccess true hardscape100)).
Proof.
  split; [reflexivity|].
  exact (C1_access_multiplier_on_labor_only hardscape100 eq_refl).
Defined.

(** For that example the labor item is 6163 pounds (4250 times 1.45, rounded)
    and the material item 9500 pounds. *)
Example hardscape100_amounts :
  amountsOfKind labor (calculateUKEstimate hardscape100) = [6163]
  /\ amountsOfKind material (calculateUKEstimate hardscape100) = [9500].
Proof. split; vm_compute; reflexivity. Qed.

(** C5.  The bounds are the returned point estimate times 0.9 and times 1.1,
    each rounded on its own, and the point estimate is the rounded sum of
    the cost items and the three wrapper fees. *)
Theorem C5_ballpark_range_of_point_estimate (i : ProjectInputs) :
  let r := calculateUKEstimate i in
  lowerBound r = roundGBP (estimate r * (90 # 100))
  /\ upperBound r = roundGBP (estimate r * (110 # 100))
  /\ exists projectManagement contingency netProfit : number,
       amountsOfKind fee r = [projectManagement; contingency; netProfit]
       /\ estimate r
          = roundGBP (sumAmounts (costItems r) + projectManagement
                      + contingency + netProfit).
Proof.
  intros r. subst r.
  destruct (calculateUKEstimate_shape i)
    as (base & Hbase & Hitems & He & Hl & Hu).
  assert (Hk : Forall (fun it => kind it <> fee) base).
  { eapply Forall_impl; [|exact Hbase]. now intros it [H _]. }
  assert (Hint : integral (finalCostOf (sumAmounts base))).
  { apply integral_finalCostOf, integral_sumAmounts.
    eapply Forall_impl; [|exact Hbase]. now intros it [_ H]. }
  assert (Hfees : Forall (fun it => kind it = fee) (feeItems (sumAmounts base))).
  { repeat constructor. }
  rewrite He, Hl, Hu. split; [|split].
  - apply round_comp. unfold roundGBP. now rewrite (round_integral Hint).
  - apply round_comp. unfold roundGBP. now rewrite (round_integral Hint).
  - unfold amountsOfKind, costItems. rewrite Hitems.
    rewrite (filter_fee_base Hk Hfees), (filter_cost_base Hk Hfees).
    do 3 eexists. split; reflexivity.
Qed.

Lemma gtb_spec (x y : number) : gtb x y = true <-> y < x.
Proof.
  unfold gtb, ltb. rewrite negb_true_iff.
  split.
  - intros H. apply Qnot_le_lt. intros Hle.
    apply Qle_bool_iff in Hle. congruence.
  - intros H. destruct (Qle_bool x y) eqn:E; [|reflexivity].
    apply Qle_bool_iff in E. exfalso. exact (Qlt_not_le _ _ H E).
Qed.

Lemma determineProjectStatus_spec (e : number) :
  determineProjectStatus e = VIP_PRIORITY <-> 5000 < e.
Proof.
  unfold determineProjectStatus. rewrite <- gtb_spec.
  destruct (gtb e 5000); split; congruence.
Qed.

(** C6.  5000 pounds is Standard, 5001 pounds is VIP PRIORITY, and the status
    of an estimate is VIP PRIORITY exactly when its point estimate exceeds
    5000. *)
Theorem C6_priority_threshold :
  determineProjectStatus 5000 = Standard
  /\ determineProjectStatus 5001 = VIP_PRIORITY
  /\ (forall e : number, determineProjectStatus e = VIP_PRIORITY <-> 5000 < e)
  /\ (forall i : ProjectInputs,
        projectStatus (calculateUKEstimate i) = VIP_PRIORITY
        <-> 5000 < estimate (calculateUKEstimate i)).
Proof.
  repeat split; try reflexivity; try apply determineProjectStatus_spec.
Qed.


Lemma material_label_not_demolition (s : ServiceType) (t : MaterialTier) :
  startsWith (str "Demolition waste") (getMaterialName s t) = false.
Proof. destruct s, t; reflexivity. Qed.

(** C4, as stated, fails: with two tons per skip a 15 square metre deck
    (1.35 tons of debris) would be charged one skip, 350 pounds; the
    engine charges two skips, 700 pounds. *)
Lemma C4_counterexample :
  existingDemolition deck15 = true
  /\ exists it : LineItem,
       demolitionItem (calculateUKEstimate deck15) = Some it
       /\ amount it == 700
       /\ demolitionFee 2 (area_m2 deck15) == 350
       /\ ~ amount it == demolitionFee 2 (area_m2 deck15).
Proof.
  split; [reflexivity|].
  eexists. split; [vm_compute; reflexivity|].
  repeat split; vm_compute; discriminate.
Qed.

(** C4, amended.  When there is something to demolish the estimate has a
    demolition-waste surcharge of
    [ceil((area_m2 * 0.15 * 0.6) / 1) * 350]: the skip count is taken at one
    ton per skip, the figure the source settles on. *)
Theorem C4_demolition_fee_one_ton_per_skip (i : ProjectInputs) :
  existingDemolition i = true ->
  exists it : LineItem,
    demolitionItem (calculateUKEstimate i) = Some it
    /\ kind it = surcharge
    /\ amount it = demolitionFee 1 (area_m2 i).
Proof.
  split_inputs i. simpl. intros ->.
  unfold demolitionItem, calculateUKEstimate.
  cbn [service hasExcavatorAccess hasDrivewayForSkip slopeLevel subBaseType
       existingDemolition length_m width_m area_m2 materialTier deckHeight_m
       lineItems].
  destruct acc, drv, (SlopeLevel_eqb slope steep),
    (match dh with
     | Some h => (truthyNum h && gtb h (15 # 10))%bool
     | None => false
     end);
    cbn [negb app find label];
    rewrite material_label_not_demolition;
    (eexists; split; [reflexivity | split; reflexivity]).
Qed.

Lemma C4_witness :
  existingDemolition deck15 = true
  /\ exists it : LineItem,
       demolitionItem (calculateUKEstimate deck15) = Some it
       /\ kind it = surcharge
       /\ amount it = demolitionFee 1 (area_m2 deck15).
Proof.
  split; [reflexivity|].
  exact (C4_demolition_fee_one_ton_per_skip deck15 eq_refl).
Defined.

End PricingFacts.

(* ====================================================================== *)
(** ** Properties of the dialogue state manager *)
(* ====================================================================== *)

Section ManagerFacts.

Import Manager.
Local Open Scope Q_scope.

(** C3.  Without a budget or without a postcode the state is never ready
    for an estimate, whatever its certainty level. *)
Theorem C3_not_ready_without_budget_or_postcode (s : S.t) :
  S.userBudget s = None \/ S.postalCode s = None ->
  isReadyForEstimate s = false.
Proof.
  unfold isReadyForEstimate. intros [H | H]; rewrite H; simpl.
  - reflexivity.
  - now rewrite orb_true_r.
Qed.

Lemma C3_witness :
  (S.userBudget (S.set_certaintyLevel 100 createInitialState) = None
   \/ S.postalCode (S.set_certaintyLevel 100 createInitialState) = None)
  /\ isReadyForEstimate (S.set_certaintyLevel 100 createInitialState) = false.
Proof.
  split; [left; reflexivity|].
  apply C3_not_ready_without_budget_or_postcode. left. reflexivity.
Defined.

(** The earlier copy of the manager has no such gate: a certainty level of
    85 is enough for it. *)
Remark isReadyForEstimate_legacy_score_only :
  isReadyForEstimate_legacy (S.set_certaintyLevel 100 createInitialState)
  = true.
Proof. reflexivity. Qed.


Lemma isSome_if {A} (b : bool) (x : A) :
  isSome (if b then Some x else None) = b.
Proof. now destruct b. Qed.

Lemma optTruthyNum_if (b : bool) :
  optTruthyNum (if b then Some 1 else None) = b.
Proof. now destruct b. Qed.

Lemma calculateCertainty_eq (s : S.t) :
  calculateCertainty s
  = certaintyOf (S.service s) (hasDimensions s) (isSome (S.materialTier s))
      (isSome (S.overgrown s)) (isSome (S.slopeLevel s))
      (isSome (S.hasDrivewayForSkip s)) (isSome (S.hasExcavatorAccess s))
      (isSome (S.existingDemolition s)).
Proof.
  unfold certaintyOf, calculateCertainty, hasDimensions.
  cbn [S.service S.area_m2 S.length_m S.width_m S.materialTier
       S.hasExcavatorAccess S.hasDrivewayForSkip S.slopeLevel
       S.existingDemolition S.overgrown].
  rewrite !isSome_if, optTruthyNum_if.
  cbn [optTruthyNum andb]. rewrite orb_false_r.
  reflexivity.
Qed.

Ltac closed_le := apply Qle_bool_imp_le; vm_compute; reflexivity.

Lemma certaintyOf_dims svc tier ov sl dr ex dm :
  certaintyOf svc false tier ov sl dr ex dm
  <= certaintyOf svc true tier ov sl dr ex dm.
Proof. destruct svc as [[]|], tier, ov, sl, dr, ex, dm; closed_le. Qed.

Lemma certaintyOf_tier svc dims ov sl dr ex dm :
  certaintyOf svc dims false ov sl dr ex dm
  <= certaintyOf svc dims true ov sl dr ex dm.
Proof. destruct svc as [[]|], dims, ov, sl, dr, ex, dm; closed_le. Qed.

Lemma certaintyOf_overgrown svc dims tier sl dr ex dm :
  certaintyOf svc dims tier false sl dr ex dm
  <= certaintyOf svc dims tier true sl dr ex dm.
Proof. destruct svc as [[]|], dims, tier, sl, dr, ex, dm; closed_le. Qed.

Lemma certaintyOf_slope svc dims tier ov dr ex dm :
  certaintyOf svc dims tier ov false dr ex dm
  <= certaintyOf svc dims tier ov true dr ex dm.
Proof. destruct svc as [[]|], dims, tier, ov, dr, ex, dm; closed_le. Qed.

Lemma certaintyOf_driveway svc dims tier ov sl ex dm :
  certaintyOf svc dims tier ov sl false ex dm
  <= certaintyOf svc dims tier ov sl true ex dm.
Proof. destruct svc as [[]|], dims, tier, ov, sl, ex, dm; closed_le. Qed.

Lemma certaintyOf_excavator svc dims tier ov sl dr dm :
  certaintyOf svc dims tier ov sl dr false dm
  <= certaintyOf svc dims tier ov sl dr true dm.
Proof. destruct svc as [[]|], dims, tier, ov, sl, dr, dm; closed_le. Qed.

Lemma certaintyOf_demolition svc dims tier ov sl dr ex :
  certaintyOf svc dims tier ov sl dr ex false
  <= certaintyOf svc dims tier ov sl dr ex true.
Proof. destruct svc as [[]|], dims, tier, ov, sl, dr, ex; closed_le. Qed.

(** Naming the service changes both the score and its maximum; the
    percentage does not go down. *)
Lemma certaintyOf_service v dims tier ov sl dr ex dm :
  certaintyOf None dims tier ov sl dr ex dm
  <= certaintyOf (Some v) dims tier ov sl dr ex dm.
Proof. destruct v, dims, tier, ov, sl, dr, ex, dm; closed_le. Qed.

(** C9.  Setting one unset field of a state never lowers its certainty. *)
Theorem C9_certainty_monotone (s s' : S.t) :
  addsOneField s s' -> calculateCertainty s <= calculateCertainty s'.
Proof.
  intros H. rewrite !calculateCertainty_eq.
  destruct H as
    [ v H | v H | v H | v H | v H | v H | v H | v H | v H | v H | v H | v H
    | v H | v H | v H | v H | v H | v H | v H | v H | v H | v H | v H | v H ];
    unfold hasDimensions;
    cbn [S.service S.area_m2 S.length_m S.width_m S.materialTier
         S.hasExcavatorAccess S.hasDrivewayForSkip S.slopeLevel
         S.existingDemolition S.overgrown
         S.set_service S.set_area_m2 S.set_length_m S.set_width_m
         S.set_materialTier S.set_hasExcavatorAccess S.set_hasDrivewayForSkip
         S.set_slopeLevel S.set_subBaseType S.set_existingDemolition
         S.set_deckHeight_m S.set_overgrown S.set_gateCount
         S.set_wantsDrainage S.set_wantsLedLighting S.set_lastQuestionField
         S.set_budgetAligns S.set_contactPhone S.set_contactEmail
         S.set_fullName S.set_userBudget S.set_postalCode
         S.set_projectStartTiming S.set_groundSoilType];
    try apply Qle_refl;
    rewrite H; cbn [isSome optTruthyNum orb andb].
  - apply certaintyOf_service.
  - destruct (truthyNum v); cbn [orb];
      destruct (optTruthyNum (S.length_m s) && optTruthyNum (S.width_m s))%bool;
      first [apply Qle_refl | apply certaintyOf_dims].
  - destruct (optTruthyNum (S.area_m2 s)); cbn [orb];
      destruct (truthyNum v && optTruthyNum (S.width_m s))%bool;
      first [apply Qle_refl | apply certaintyOf_dims].
  - rewrite ?andb_false_r.
    destruct (optTruthyNum (S.area_m2 s)); cbn [orb];
      destruct (optTruthyNum (S.length_m s) && truthyNum v)%bool;
      first [apply Qle_refl | apply certaintyOf_dims].
  - apply certaintyOf_tier.
  - apply certaintyOf_excavator.
  - apply certaintyOf_driveway.
  - apply certaintyOf_slope.
  - apply certaintyOf_demolition.
  - apply certaintyOf_overgrown.
Qed.


(** *** The merge, field by field *)

(** A guarded assignment to another field leaves a field as it was. *)
Lemma when_frame {A} (get : S.t -> A) (c : bool) (assign : S.t -> S.t)
      (updated : S.t) :
  (forall x, get (assign x) = get x) ->
  get (when c assign updated) = get updated.
Proof. intros H. unfold when. destruct c; [apply H | reflexivity]. Qed.

(** A guarded assignment whose guard holds. *)
Lemma when_true (assign : S.t -> S.t) (updated : S.t) :
  when true assign updated = assign updated.
Proof. reflexivity. Qed.

Lemma when_false (assign : S.t -> S.t) (updated : S.t) :
  when false assign updated = updated.
Proof. reflexivity. Qed.

Lemma serviceIs_false (o : option ServiceType) (v : ServiceType) :
  o <> Some v -> serviceIs o v = false.
Proof.
  destruct o as [a|]; [|reflexivity]. simpl. intros H.
  destruct a, v; try reflexivity; now elim H.
Qed.

(** Skip the guarded assignments to other fields. *)
Ltac skip_frames :=
  repeat (rewrite when_frame by (intro; reflexivity)).

(** C10.  Outside a decking project, and when the utterance does not name
    decking either, the merge leaves the deck height of the state as it
    was, whatever deck height the extraction carries. *)
Theorem C10_deck_height_only_for_decking (s : S.t) (e : E.t) :
  S.service s <> Some decking ->
  E.service e <> Some decking ->
  S.deckHeight_m (updateStateWithExtraction s e) = S.deckHeight_m s.
Proof.
  intros Hs He. unfold updateStateWithExtraction, deriveArea.
  cbv zeta. cbn [S.deckHeight_m S.set_certaintyLevel].
  skip_frames.
  rewrite (serviceIs_false Hs), (serviceIs_false He), andb_false_r, when_false.
  skip_frames. reflexivity.
Qed.


Lemma when_hit {A} (get : S.t -> A) (c : bool) (assign : S.t -> S.t)
      (updated : S.t) :
  get (when c assign updated)
  = if c then get (assign updated) else get updated.
Proof. now destruct c. Qed.

(** Open the merge up to the stage that assigns the field in the goal. *)
Ltac to_stage :=
  unfold updateStateWithExtraction, deriveArea; cbv zeta;
  cbn [S.service S.area_m2 S.length_m S.width_m S.materialTier
       S.hasExcavatorAccess S.hasDrivewayForSkip S.slopeLevel
       S.existingDemolition S.deckHeight_m S.overgrown S.gateCount
       S.budgetAligns S.contactPhone S.contactEmail S.fullName S.userBudget
       S.postalCode S.projectStartTiming S.set_certaintyLevel];
  skip_frames.

Lemma merge_service s e :
  isSome (E.service e) = true ->
  S.service (updateStateWithExtraction s e) = E.service e.
Proof. intros H. to_stage. now rewrite H. Qed.

Lemma merge_length_m s e :
  optTruthyNum (E.length_m e) = true ->
  S.length_m (updateStateWithExtraction s e) = E.length_m e.
Proof. intros H. to_stage. now rewrite H. Qed.

Lemma merge_width_m s e :
  optTruthyNum (E.width_m e) = true ->
  S.width_m (updateStateWithExtraction s e) = E.width_m e.
Proof. intros H. to_stage. now rewrite H. Qed.

Lemma merge_materialTier s e :
  isSome (E.materialTier e) = true ->
  S.materialTier (updateStateWithExtraction s e) = E.materialTier e.
Proof. intros H. to_stage. now rewrite H. Qed.

Lemma merge_hasExcavatorAccess s e :
  isSome (E.hasExcavatorAccess e) = true ->
  S.hasExcavatorAccess (updateStateWithExtraction s e)
  = E.hasExcavatorAccess e.
Proof. intros H. to_stage. now rewrite H. Qed.

Lemma merge_hasDrivewayForSkip s e :
  isSome (E.hasDrivewayForSkip e) = true ->
  S.hasDrivewayForSkip (updateStateWithExtraction s e)
  = E.hasDrivewayForSkip e.
Proof. intros H. to_stage. now rewrite H. Qed.

Lemma merge_slopeLevel s e :
  isSome (E.slopeLevel e) = true ->
  S.slopeLevel (updateStateWithExtraction s e) = E.slopeLevel e.
Proof. intros H. to_stage. now rewrite H. Qed.

Lemma merge_existingDemolition s e :
  isSome (E.existingDemolition e) = true ->
  S.existingDemolition (updateStateWithExtraction s e)
  = E.existingDemolition e.
Proof. intros H. to_stage. now rewrite H. Qed.

Lemma merge_deckHeight_m s e :
  isSome (E.deckHeight_m e) = true ->
  (serviceIs (S.service s) decking || serviceIs (E.service e) decking)%bool
  = true ->
  S.deckHeight_m (updateStateWithExtraction s e) = E.deckHeight_m e.
Proof. intros H1 H2. to_stage. now rewrite H1, H2. Qed.

Lemma merge_overgrown s e :
  isSome (E.overgrown e) = true ->
  S.overgrown (updateStateWithExtraction s e) = E.overgrown e.
Proof. intros H. to_stage. now rewrite H. Qed.

Lemma merge_gateCount s e :
  optTruthyNum (E.gateCount e) = true ->
  S.gateCount (updateStateWithExtraction s e) = E.gateCount e.
Proof. intros H. to_stage. now rewrite H. Qed.

Lemma merge_budgetAligns s e :
  isSome (E.budgetAligns e) = true ->
  S.budgetAligns (updateStateWithExtraction s e) = E.budgetAligns e.
Proof. intros H. to_stage. now rewrite H. Qed.

Lemma merge_fullName s e :
  optTruthyStr (E.fullName e) = true ->
  currentFieldOf s = "fullName"%string ->
  S.fullName (updateStateWithExtraction s e) = E.fullName e.
Proof.
  intros H1 H2. to_stage. rewrite H2.
  destruct (E.fullName e) as [n|]; [|discriminate].
  cbn in H1. rewrite H1. reflexivity.
Qed.

Lemma merge_userBudget s e :
  isSome (E.userBudget e) = true ->
  currentFieldOf s = "userBudget"%string \/ E.explicitBudget e = Some true ->
  S.userBudget (updateStateWithExtraction s e) = E.userBudget e.
Proof.
  intros H1 H2. to_stage. rewrite H1.
  destruct H2 as [H2 | H2]; rewrite H2; [reflexivity|].
  now rewrite orb_true_r.
Qed.

Lemma merge_contactEmail s e :
  optTruthyStr (E.contactEmail e) = true ->
  S.contactEmail (updateStateWithExtraction s e) = E.contactEmail e.
Proof. intros H. to_stage. now rewrite H. Qed.

Lemma merge_contactPhone s e :
  optTruthyStr (E.contactPhone e) = true ->
  S.contactPhone (updateStateWithExtraction s e) = E.contactPhone e.
Proof. intros H. to_stage. now rewrite H. Qed.

(** An area of two or more is never held back by the safeguard. *)
Lemma acceptsArea_large s e a :
  E.area_m2 e = Some a -> truthyNum a = true -> ltb a 2 = false ->
  acceptsArea s e = true.
Proof.
  intros He Ht Hl. unfold acceptsArea. rewrite He, Ht, Hl.
  now rewrite andb_false_r.
Qed.

Lemma optTruthyNum_isSome (o : option number) :
  optTruthyNum o = true -> isSome o = true.
Proof. now destruct o. Qed.

(** What the merge leaves in [area_m2]: an accepted area stays, unless it
    is not truthy and length and width are there to derive one from. *)
Lemma merge_area_m2_set s e :
  acceptsArea s e = true ->
  isSome (S.area_m2 (updateStateWithExtraction s e)) = true.
Proof.
  intros H. unfold updateStateWithExtraction. cbv zeta.
  cbn [S.area_m2 S.set_certaintyLevel].
  match goal with |- context [deriveArea ?u] => set (pre := u) end.
  assert (Hpre : S.area_m2 pre = E.area_m2 e).
  { subst pre. skip_frames. rewrite H. reflexivity. }
  unfold deriveArea. rewrite when_hit, Hpre. cbn [S.area_m2 S.set_area_m2].
  unfold acceptsArea in H.
  destruct (E.area_m2 e) as [a|]; [|discriminate].
  apply andb_prop in H. destruct H as [Ht _].
  cbn [optTruthyNum]. rewrite Ht. now rewrite andb_false_r.
Qed.

(** With no area stored and none extracted, a truthy length and width
    give the area as their product. *)
Lemma merge_area_m2_derived s e :
  S.area_m2 s = None -> E.area_m2 e = None ->
  optTruthyNum (E.length_m e) = true -> optTruthyNum (E.width_m e) = true ->
  S.area_m2 (updateStateWithExtraction s e)
  = optMul (E.length_m e) (E.width_m e).
Proof.
  intros Hs He Hl Hw. unfold updateStateWithExtraction. cbv zeta.
  cbn [S.area_m2 S.set_certaintyLevel].
  match goal with |- context [deriveArea ?u] => set (pre := u) end.
  assert (Ha : S.area_m2 pre = None).
  { subst pre. skip_frames. unfold acceptsArea. rewrite He.
    rewrite when_false. skip_frames. exact Hs. }
  assert (Hl' : S.length_m pre = E.length_m e).
  { subst pre. skip_frames. now rewrite Hl. }
  assert (Hw' : S.width_m pre = E.width_m e).
  { subst pre. skip_frames. now rewrite Hw. }
  unfold deriveArea. rewrite when_hit, Ha, Hl', Hw', Hl, Hw. reflexivity.
Qed.

Lemma serviceIs_Some (v : ServiceType) : serviceIs (Some v) v = true.
Proof. now destruct v. Qed.

(** An extraction that carries the answer to the current question has it
    set by the merge; a deck height wants a decking project. *)
Lemma carries_sound (s : S.t) (e : E.t) (f : FieldName) :
  currentFieldOf s = f ->
  (f = "deckHeight"%string -> S.service s = Some decking) ->
  carries f e = true ->
  fieldIsSet f (updateStateWithExtraction s e) = true.
Proof.
  intros Hcur Hdeck. unfold carries, fieldIsSet.
  repeat match goal with
         | |- context [String.eqb f ?k] =>
             destruct (String.eqb_spec f k) as [->|_]
         end;
    intros H; try discriminate H.
  - now rewrite merge_service.
  - destruct (E.area_m2 e) as [a|] eqn:Ha; [|discriminate].
    apply andb_prop in H. destruct H as [Ht Hl].
    apply negb_true_iff in Hl.
    now rewrite (merge_area_m2_set s e (acceptsArea_large s e Ha Ht Hl)).
  - now rewrite merge_materialTier.
  - now rewrite merge_hasExcavatorAccess.
  - now rewrite merge_hasDrivewayForSkip.
  - now rewrite merge_slopeLevel.
  - now rewrite merge_existingDemolition.
  - rewrite merge_deckHeight_m; [assumption | assumption |].
    rewrite (Hdeck eq_refl). reflexivity.
  - now rewrite merge_overgrown.
  - rewrite merge_gateCount by assumption. now apply optTruthyNum_isSome.
  - rewrite merge_fullName by assumption. now destruct (E.fullName e).
  - rewrite merge_contactPhone by assumption. now destruct (E.contactPhone e).
  - rewrite merge_contactEmail by assumption. now destruct (E.contactEmail e).
  - rewrite merge_userBudget; [assumption | assumption | now left].
  - now rewrite merge_budgetAligns.
Qed.

Lemma C9_witness :
  addsOneField createInitialState
    (S.set_service (Some mowing) createInitialState)
  /\ calculateCertainty createInitialState
     <= calculateCertainty (S.set_service (Some mowing) createInitialState).
Proof.
  split; [constructor; reflexivity|].
  apply C9_certainty_monotone. constructor. reflexivity.
Defined.

Lemma C10_witness :
  let e := E.set_deckHeight_m 2 E.empty in
  S.service createInitialState <> Some decking
  /\ E.service e <> Some decking
  /\ S.deckHeight_m (updateStateWithExtraction createInitialState e)
     = S.deckHeight_m createInitialState.
Proof.
  split; [discriminate|]. split; [discriminate|].
  apply C10_deck_height_only_for_decking; discriminate.
Defined.

End ManagerFacts.

(* ====================================================================== *)
(** ** Properties of the extractor *)
(* ====================================================================== *)

Section ExtractionFacts.

Import Extraction.
Local Open Scope Q_scope.

Ltac branch :=
  match goal with
  | |- context [if ?c then _ else _] => destruct c
  | |- context [match ?x with Some _ => _ | None => _ end] => destruct x
  end.

Ltac stage_frame := intros; repeat branch; reflexivity.

(** The stages other than [detectDimensions] and [detectArea] leave the
    geometry alone. *)
Lemma detectService_geometry msg e :
  geometry (detectService msg e) = geometry e.
Proof. unfold detectService. stage_frame. Qed.

Lemma detectDeckHeight_geometry u msg e :
  geometry (fst (detectDeckHeight u msg e)) = geometry e.
Proof. unfold detectDeckHeight. stage_frame. Qed.

Lemma detectMaterialTier_geometry msg e :
  geometry (detectMaterialTier msg e) = geometry e.
Proof. unfold detectMaterialTier. stage_frame. Qed.

Lemma detectExcavatorAccess_geometry msg a n e :
  geometry (detectExcavatorAccess msg a n e) = geometry e.
Proof. unfold detectExcavatorAccess. stage_frame. Qed.

Lemma detectDriveway_geometry msg a n e :
  geometry (detectDriveway msg a n e) = geometry e.
Proof. unfold detectDriveway. stage_frame. Qed.

Lemma detectSlope_geometry msg e : geometry (detectSlope msg e) = geometry e.
Proof. unfold detectSlope. stage_frame. Qed.

Lemma detectDemolition_geometry msg a n e :
  geometry (detectDemolition msg a n e) = geometry e.
Proof. unfold detectDemolition. stage_frame. Qed.

Lemma detectOvergrown_geometry u msg e :
  geometry (detectOvergrown u msg e) = geometry e.
Proof. unfold detectOvergrown. stage_frame. Qed.

Lemma detectGates_geometry u msg e :
  geometry (detectGates u msg e) = geometry e.
Proof. unfold detectGates. stage_frame. Qed.

Lemma detectBudgetAlignment_geometry msg e :
  geometry (detectBudgetAlignment msg e) = geometry e.
Proof. unfold detectBudgetAlignment. stage_frame. Qed.

Lemma detectFullName_geometry u msg e :
  geometry (detectFullName u msg e) = geometry e.
Proof. unfold detectFullName. stage_frame. Qed.

Lemma detectPhone_geometry u e : geometry (detectPhone u e) = geometry e.
Proof. unfold detectPhone. stage_frame. Qed.

Lemma detectEmail_geometry u e : geometry (detectEmail u e) = geometry e.
Proof. unfold detectEmail. stage_frame. Qed.

Lemma detectPostcode_geometry u e : geometry (detectPostcode u e) = geometry e.
Proof. unfold detectPostcode. stage_frame. Qed.

Lemma detectBudget_geometry u msg e :
  geometry (detectBudget u msg e) = geometry e.
Proof. unfold detectBudget. cbv zeta. stage_frame. Qed.

(** The geometry of the result is decided by the dimension and the area
    stages. *)
Lemma extractLocalInformation_geometry (u : jsstring) :
  geometry (extractLocalInformation u)
  = geometry
      (detectArea u (toLowerCase u)
         (snd (detectDeckHeight u (toLowerCase u)
                 (detectDimensions u (detectService (toLowerCase u) E.empty))))
         (fst (detectDeckHeight u (toLowerCase u)
                 (detectDimensions u (detectService (toLowerCase u) E.empty))))).
Proof.
  unfold extractLocalInformation. cbv zeta.
  destruct (detectDeckHeight u (toLowerCase u)
              (detectDimensions u (detectService (toLowerCase u) E.empty)))
    as [e1 isHeight].
  rewrite detectBudget_geometry, detectPostcode_geometry, detectEmail_geometry,
    detectPhone_geometry, detectFullName_geometry,
    detectBudgetAlignment_geometry, detectGates_geometry,
    detectOvergrown_geometry, detectDemolition_geometry, detectSlope_geometry,
    detectDriveway_geometry, detectExcavatorAccess_geometry,
    detectMaterialTier_geometry.
  reflexivity.
Qed.

Lemma detectDimensions_area u e :
  E.area_m2 (detectDimensions u e) = E.area_m2 e.
Proof. unfold detectDimensions. stage_frame. Qed.

(** The area stage leaves length and width alone, and sets an area only
    through the bare-area rule, which wants no truthy length, or through
    the linear-metre rule, which wants a fence in the message. *)
Lemma detectArea_geometry u isHeight e :
  mentionsFence u = false ->
  E.area_m2 e = None ->
  optTruthyNum (E.length_m e) = true ->
  geometry (detectArea u (toLowerCase u) isHeight e)
  = (None, E.length_m e, E.width_m e).
Proof.
  intros Hf Ha Hl. unfold detectArea, mentionsFence in *.
  rewrite Hf, Hl. cbn [negb andb].
  unfold geometry. destruct isHeight; cbn [negb];
    [|destruct (matchRe u areaPattern)]; now rewrite Ha.
Qed.


Lemma detectArea_length u msg isHeight e :
  E.length_m (detectArea u msg isHeight e) = E.length_m e.
Proof. unfold detectArea. stage_frame. Qed.

Lemma detectArea_width u msg isHeight e :
  E.width_m (detectArea u msg isHeight e) = E.width_m e.
Proof. unfold detectArea. stage_frame. Qed.

(** The bare-area rule is guarded by [!extracted.length_m]: in a message
    that does not mention a fence, a result with a non-zero [length_m] has
    no [area_m2]. *)
Lemma bare_area_rule_is_guarded (u : jsstring) :
  mentionsFence u = false ->
  optTruthyNum (E.length_m (extractLocalInformation u)) = true ->
  E.area_m2 (extractLocalInformation u) = None.
Proof.
  intros Hf Hl.
  pose proof (extractLocalInformation_geometry u) as G.
  set (d := detectDeckHeight u (toLowerCase u)
              (detectDimensions u (detectService (toLowerCase u) E.empty)))
    in G.
  assert (Hg : geometry (fst d)
               = geometry (detectDimensions u
                             (detectService (toLowerCase u) E.empty)))
    by apply detectDeckHeight_geometry.
  assert (Ha : E.area_m2 (fst d) = None).
  { apply (f_equal (fun g => fst (fst g))) in Hg. cbn in Hg. rewrite Hg.
    rewrite detectDimensions_area.
    pose proof (detectService_geometry (toLowerCase u) E.empty) as Hs.
    apply (f_equal (fun g => fst (fst g))) in Hs. exact Hs. }
  assert (Hl' : optTruthyNum (E.length_m (fst d)) = true).
  { rewrite <- (detectArea_length u (toLowerCase u) (snd d) (fst d)).
    apply (f_equal (fun g => snd (fst g))) in G. cbn in G.
    rewrite <- G. exact Hl. }
  rewrite (@detectArea_geometry u (snd d) (fst d) Hf Ha Hl') in G.
  apply (f_equal (fun g => fst (fst g))) in G. exact G.
Qed.

(** C2.  The linear-metre rule for fences lacks the guard of the bare-area
    rule beside it, and so breaks what that guard is there for: the message
    ["10x5m fence"] gets a length of 10, a width of 5 and, from the metres
    of its width, an area of 5, where the same dimensions without the fence
    get a length, a width and no area. *)
Theorem C2_fence_rule_sets_area_beside_dimensions :
  (let e := extractLocalInformation (str "10x5m fence") in
   E.length_m e = Some 10 /\ E.width_m e = Some 5 /\ E.area_m2 e = Some 5)
  /\ (let e := extractLocalInformation (str "10x5m") in
      E.length_m e = Some 10 /\ E.width_m e = Some 5 /\ E.area_m2 e = None).
Proof. vm_compute. repeat split; reflexivity. Qed.

(** The guard of the bare-area rule is a test for truthiness: a length of
    [0] lets the area through as well. *)
Remark zero_length_lets_area_through :
  let e := extractLocalInformation (str "0x5 20m2") in
  E.length_m e = Some 0 /\ E.width_m e = Some 5 /\ E.area_m2 e = Some 20.
Proof. vm_compute. repeat split; reflexivity. Qed.

(** The earlier copy of the extractor treats a fence message the same way,
    and keeps the area away from a truthy length otherwise. *)
Remark legacy_fence_sets_area_with_dimensions :
  let e := LegacyExtraction.detectGeometry (str "10x5m fence")
             (toLowerCase (str "10x5m fence")) E.empty in
  E.length_m e = Some 10 /\ E.width_m e = Some 5 /\ E.area_m2 e = Some 5.
Proof. vm_compute. repeat split; reflexivity. Qed.

Remark legacy_no_area_with_length (u : jsstring) :
  let e := LegacyExtraction.detectGeometry u (toLowerCase u) E.empty in
  mentionsFence u = false ->
  optTruthyNum (E.length_m e) = true ->
  E.area_m2 e = None.
Proof.
  unfold LegacyExtraction.detectGeometry, mentionsFence. cbv zeta.
  intros Hf. rewrite Hf.
  destruct (firstMatch u LegacyExtraction.dimensionPatterns) as [m|];
    cbn [E.length_m E.set_length_m E.set_width_m E.empty optTruthyNum negb].
  - destruct (truthyNum (parseFloat (group 1 m))) eqn:Ht; cbn [negb].
    + intros _. destruct (matchRe u LegacyExtraction.areaPattern); reflexivity.
    + destruct (matchRe u LegacyExtraction.areaPattern);
        cbn [E.length_m E.set_length_m E.set_width_m E.set_area_m2
             optTruthyNum];
        rewrite Ht; discriminate.
  - destruct (matchRe u LegacyExtraction.areaPattern); discriminate.
Qed.

End ExtractionFacts.

(* ====================================================================== *)
(** ** The extractor and the manager together *)
(* ====================================================================== *)

Section DialogueFacts.

Import Extraction Manager QuickReplies.
Local Open Scope Q_scope.
Local Open Scope string_scope.

(** C7.  "10x5" gives length 10 and width 5, and an area of 50 once merged
    into a state without geometry; "10,5m x 5,2m" gives 10.5 and 5.2; the
    pound sign followed by "7.5k", merged while the budget is being asked,
    gives a budget of 7500. *)
Theorem C7_round_trip_parsing :
  (E.length_m (extractLocalInformation (str "10x5")) = Some 10
   /\ E.width_m (extractLocalInformation (str "10x5")) = Some 5
   /\ forall s : S.t,
        S.area_m2 s = None -> S.length_m s = None -> S.width_m s = None ->
        numIs (S.area_m2
                 (updateStateWithExtraction s
                    (extractLocalInformation (str "10x5")))) 50)
  /\ (numIs (E.length_m (extractLocalInformation (str "10,5m x 5,2m"))) 10.5
      /\ numIs (E.width_m (extractLocalInformation (str "10,5m x 5,2m"))) 5.2)
  /\ (forall s : S.t,
        currentFieldOf s = "userBudget"%string ->
        numIs (S.userBudget
                 (updateStateWithExtraction s
                    (extractLocalInformation (POUND :: str "7.5k")))) 7500).
Proof.
  split; [|split].
  - split; [vm_compute; reflexivity|]. split; [vm_compute; reflexivity|].
    intros s Ha _ _.
    rewrite merge_area_m2_derived by (assumption || (vm_compute; reflexivity)).
    vm_compute. reflexivity.
  - split; vm_compute; reflexivity.
  - intros s Hcur.
    rewrite merge_userBudget by (try (left; exact Hcur); vm_compute; reflexivity).
    vm_compute. reflexivity.
Qed.

Lemma C7_witness :
  numIs (S.area_m2
           (updateStateWithExtraction createInitialState
              (extractLocalInformation (str "10x5")))) 50
  /\ numIs (S.userBudget
              (updateStateWithExtraction askingBudget
                 (extractLocalInformation (POUND :: str "7.5k")))) 7500.
Proof.
  destruct C7_round_trip_parsing as [[_ [_ Harea]] [_ Hbudget]].
  split.
  - apply Harea; reflexivity.
  - apply Hbudget. vm_compute. reflexivity.
Defined.


(** C8, as stated, fails: among the answers offered for the budget there
    is the marker that asks for free typing, and among those for the
    dimensions "let me type it"; neither sets the field it is offered
    for. *)
Lemma C8_counterexample :
  (currentFieldOf askingBudget = "userBudget"%string
   /\ In WRITE_IT_OUT (getFallbackQuickReplies "userBudget" askingBudget)
   /\ fieldIsSet "userBudget"
        (updateStateWithExtraction askingBudget
           (extractLocalInformation WRITE_IT_OUT)) = false)
  /\ (currentFieldOf askingDimensions = "dimensions"%string
      /\ In (str "let me type it")
            (getFallbackQuickReplies "dimensions" askingDimensions)
      /\ fieldIsSet "dimensions"
           (updateStateWithExtraction askingDimensions
              (extractLocalInformation (str "let me type it"))) = false).
Proof.
  split; (split; [vm_compute; reflexivity|]);
    (split; [cbn; tauto | vm_compute; reflexivity]).
Qed.

(** One literal: either it is set aside, or the extraction carries it. *)
Ltac literal :=
  subst;
  match goal with
  | Hex : unparsed _ = false |- _ =>
      first [ exfalso; vm_compute in Hex; discriminate Hex
            | apply carries_sound;
              [ assumption
              | first [assumption | intros Hd; discriminate Hd]
              | vm_compute; reflexivity ] ]
  end.

(** All the literals of a list. *)
Ltac literals H :=
  cbn [values map In tierReplies withWriteItOut app] in H;
  repeat (destruct H as [H | H]; [literal|]);
  try contradiction.

(** C8, amended.  Every literal offered for a field by
    [getFallbackQuickReplies] or [getQuickReplies] (in either copy of the
    quick replies), other than the five set aside in [unparsedLiterals] and
    other than the answers about the start of the project, sets that field
    when it is extracted and merged while that field is the current one; a
    deck height is set in a decking project. *)
Theorem C8_quick_replies_parse (s : S.t) (f : FieldName) (v : QuickReply) :
  currentFieldOf s = f ->
  offered f s v ->
  unparsed v = false ->
  f <> "projectStartTiming"%string ->
  (f = "deckHeight"%string -> S.service s = Some decking) ->
  fieldIsSet f (updateStateWithExtraction s (extractLocalInformation v)) = true.
Proof.
  intros Hcur [Hin | [[Hq Hin] | [Hin | [Hq Hin]]]] Hex Hf Hdeck.
  - unfold getFallbackQuickReplies in Hin.
    repeat match type of Hin with
           | context [String.eqb f ?k] =>
               destruct (String.eqb_spec f k) as [->|_]
           end;
      try (now elim Hf); try contradiction.
    all: try (destruct (serviceIs (S.service s) hardscaping);
              [|destruct (serviceIs (S.service s) decking)]).
    all: literals Hin.
  - revert Hq Hin. unfold quickReplyField, getQuickReplies.
    destruct (S.service s) as [svc|];
      repeat match goal with
             | |- context [if ?c then _ else _] => destruct c
             end;
      intros Hq Hin; try discriminate Hq; injection Hq as <-;
      try (now elim Hf); try (destruct svc); literals Hin.
  - unfold QuickRepliesEarlier.getFallbackQuickReplies in Hin.
    repeat match type of Hin with
           | context [String.eqb f ?k] =>
               destruct (String.eqb_spec f k) as [->|_]
           end;
      try contradiction.
    all: try (destruct (serviceIs (S.service s) hardscaping);
              [|destruct (serviceIs (S.service s) decking)]).
    all: unfold QuickRepliesEarlier.values, QuickRepliesEarlier.pounds in Hin;
      literals Hin.
  - revert Hq Hin.
    unfold quickReplyFieldEarlier, QuickRepliesEarlier.getQuickReplies.
    destruct (S.service s) as [svc|];
      repeat match goal with
             | |- context [if ?c then _ else _] => destruct c
             end;
      intros Hq Hin; try discriminate Hq; injection Hq as <-;
      try (destruct svc);
      unfold QuickRepliesEarlier.values in Hin; literals Hin.
Qed.

Lemma C8_witness :
  currentFieldOf createInitialState = "service"%string
  /\ offered "service" createInitialState (str "patio")
  /\ unparsed (str "patio") = false
  /\ fieldIsSet "service"
       (updateStateWithExtraction createInitialState
          (extractLocalInformation (str "patio"))) = true.
Proof.
  split; [reflexivity|].
  assert (Hoff : offered "service" createInitialState (str "patio")).
  { left. cbn. tauto. }
  split; [exact Hoff|]. split; [vm_compute; reflexivity|].
  apply C8_quick_replies_parse;
    [reflexivity | exact Hoff | vm_compute; reflexivity
    | discriminate | discriminate].
Defined.

End DialogueFacts.

(* ====================================================================== *)
(** * Further properties of the pricing engine *)
(* ====================================================================== *)

Section PricingMore.

Import Pricing.
Local Open Scope Q_scope.

Ltac qring := unfold number in *; ring.

Lemma sumAmounts_from (items : list LineItem) (acc : Q) :
  fold_left (fun sum item => sum + amount item) items acc
  == acc + sumAmounts items.
Proof.
  unfold sumAmounts. revert acc.
  induction items as [|it items IH]; intros acc; simpl.
  - qring.
  - rewrite IH, (IH (0 + amount it)). qring.
Qed.

Lemma sumAmounts_app (l1 l2 : list LineItem) :
  sumAmounts (l1 ++ l2) == sumAmounts l1 + sumAmounts l2.
Proof. unfold sumAmounts at 1. rewrite fold_left_app. apply sumAmounts_from. Qed.

Lemma finalCostOf_comp (x y : number) : x == y -> finalCostOf x == finalCostOf y.
Proof.
  intros H. unfold finalCostOf, roundGBP.
  assert (E1 : round (x * BUSINESS_FEES.projectManagement)
               = round (y * BUSINESS_FEES.projectManagement))
    by (apply round_comp; now rewrite H).
  assert (E2 : round (x * BUSINESS_FEES.contingency)
               = round (y * BUSINESS_FEES.contingency))
    by (apply round_comp; now rewrite H).
  assert (E3 : round (x * BUSINESS_FEES.netProfit)
               = round (y * BUSINESS_FEES.netProfit))
    by (apply round_comp; now rewrite H).
  rewrite E1, E2, E3, H. reflexivity.
Qed.

Lemma integral_subtotalOf (i : ProjectInputs) : integral (subtotalOf i).
Proof.
  unfold subtotalOf.
  repeat apply integral_plus; try apply integral_round.
  - destruct (hasDrivewayForSkip i);
      [exact (integral_inject 0) | exact (integral_inject 60)].
  - destruct (SlopeLevel_eqb (slopeLevel i) steep);
      [exact (integral_inject 8000) | exact (integral_inject 0)].
  - destruct (existingDemolition i); [|exact (integral_inject 0)].
    apply integral_mult;
      [unfold calculateSkipLoads, ceil; apply integral_inject
      | exact (integral_inject 350)].
  - destruct (match deckHeight_m i with
              | Some h => (truthyNum h && gtb h (15 # 10))%bool
              | None => false
              end); [exact (integral_inject 1800) | exact (integral_inject 0)].
Qed.

(** The result in closed form: cost items that add up to [subtotalOf],
    then the three fees on that subtotal. *)
Lemma calculateUKEstimate_closed (i : ProjectInputs) :
  exists base : list LineItem,
    lineItems (calculateUKEstimate i) = base ++ feeItems (sumAmounts base)
    /\ sumAmounts base == subtotalOf i
    /\ estimate (calculateUKEstimate i) = roundGBP (finalCostOf (sumAmounts base))
    /\ lowerBound (calculateUKEstimate i)
       = roundGBP (finalCostOf (sumAmounts base) * (90 # 100))
    /\ upperBound (calculateUKEstimate i)
       = roundGBP (finalCostOf (sumAmounts base) * (110 # 100)).
Proof.
  destruct i as [svc acc drv slope sub demo len wid area tier dh].
  unfold calculateUKEstimate, subtotalOf.
  cbn [service hasExcavatorAccess hasDrivewayForSkip slopeLevel subBaseType
       existingDemolition length_m width_m area_m2 materialTier deckHeight_m
       lineItems estimate lowerBound upperBound].
  destruct acc, drv, (SlopeLevel_eqb slope steep), demo,
    (match dh with
     | Some h => (truthyNum h && gtb h (15 # 10))%bool
     | None => false
     end);
    cbn [negb];
    (eexists; split; [reflexivity | split; [| repeat split; reflexivity]]);
    unfold sumAmounts; cbn [app fold_left amount]; qring.
Qed.

Lemma estimate_closed (i : ProjectInputs) :
  estimate (calculateUKEstimate i) == finalCostOf (subtotalOf i).
Proof.
  destruct (calculateUKEstimate_closed i) as (base & _ & HS & HE & _).
  rewrite HE. unfold roundGBP.
  rewrite round_integral.
  - now apply finalCostOf_comp.
  - apply integral_finalCostOf.
    destruct (integral_subtotalOf i) as [z Hz]. exists z. now rewrite HS.
Qed.

Lemma lowerBound_closed (i : ProjectInputs) :
  lowerBound (calculateUKEstimate i)
  = roundGBP (finalCostOf (subtotalOf i) * (90 # 100)).
Proof.
  destruct (calculateUKEstimate_closed i) as (base & _ & HS & _ & HL & _).
  rewrite HL. apply round_comp. now rewrite (finalCostOf_comp HS).
Qed.

Lemma upperBound_closed (i : ProjectInputs) :
  upperBound (calculateUKEstimate i)
  = roundGBP (finalCostOf (subtotalOf i) * (110 # 100)).
Proof.
  destruct (calculateUKEstimate_closed i) as (base & _ & HS & _ & _ & HU).
  rewrite HU. apply round_comp. now rewrite (finalCostOf_comp HS).
Qed.

(** X1.  The line items of an estimate add up to the estimate: the cost
    items and the three fees, as listed, sum to the point estimate. *)
Theorem estimate_is_sum_of_line_items (i : ProjectInputs) :
  sumAmounts (lineItems (calculateUKEstimate i))
  == estimate (calculateUKEstimate i).
Proof.
  destruct (calculateUKEstimate_closed i) as (base & HL & HS & HE & _).
  rewrite HL, HE, sumAmounts_app.
  unfold roundGBP at 1. rewrite round_integral.
  - unfold finalCostOf, feeItems, sumAmounts at 2.
    cbn [fold_left amount]. qring.
  - apply integral_finalCostOf.
    destruct (integral_subtotalOf i) as [z Hz]. exists z. now rewrite HS.
Qed.

(** *** Rounding: order and whole shifts *)

Lemma round_le (x y : number) : x <= y -> round x <= round y.
Proof.
  intros H. unfold round. rewrite <- Zle_Qle. apply Qfloor_resp_le.
  apply Qplus_le_l. exact H.
Qed.

Lemma ceil_le (x y : number) : x <= y -> ceil x <= ceil y.
Proof.
  intros H. unfold ceil. rewrite <- Zle_Qle. now apply Qceiling_resp_le.
Qed.

Lemma floor_unique (q : Q) (z : Z) :
  inject_Z z <= q -> q < inject_Z (z + 1) -> Qfloor q = z.
Proof.
  intros Hlo Hhi.
  assert (H1 : (z <= Qfloor q)%Z).
  { rewrite <- (Qfloor_Z z). now apply Qfloor_resp_le. }
  assert (H2 : (Qfloor q < z + 1)%Z).
  { rewrite Zlt_Qlt. eapply Qle_lt_trans; [apply Qfloor_le | exact Hhi]. }
  lia.
Qed.

Lemma round_shift (x : number) (n : Z) :
  round (x + inject_Z n) == round x + inject_Z n.
Proof.
  unfold round. rewrite <- inject_Z_plus. apply inject_Z_injective.
  apply floor_unique.
  - rewrite inject_Z_plus.
    setoid_replace (x + inject_Z n + (1 # 2))
      with ((x + (1 # 2)) + inject_Z n) by qring.
    apply Qplus_le_l. apply Qfloor_le.
  - rewrite <- Z.add_assoc, (Z.add_comm n 1), Z.add_assoc.
    rewrite (inject_Z_plus _ n).
    setoid_replace (x + inject_Z n + (1 # 2))
      with ((x + (1 # 2)) + inject_Z n) by qring.
    apply Qplus_lt_l. apply Qlt_floor.
Qed.

Lemma round_nonneg (x : number) : 0 <= x -> 0 <= round x.
Proof.
  intros H. change 0 with (inject_Z 0). rewrite <- (Qfloor_Z 0).
  unfold round. rewrite <- Zle_Qle. apply Qfloor_resp_le. simpl.
  apply Qle_trans with x; [exact H|].
  rewrite <- (Qplus_0_r x) at 1. apply Qplus_le_r. discriminate.
Qed.

Lemma finalCostOf_le (x y : number) : x <= y -> finalCostOf x <= finalCostOf y.
Proof.
  intros H. unfold finalCostOf, roundGBP.
  repeat apply Qplus_le_compat; try exact H;
    apply round_le; apply Qmult_le_compat_r; try exact H; discriminate.
Qed.

Lemma finalCostOf_nonneg (x : number) : 0 <= x -> 0 <= finalCostOf x.
Proof.
  intros H. unfold finalCostOf, roundGBP.
  assert (forall c : Q, 0 <= c -> 0 <= round (x * c)).
  { intros c Hc. apply round_nonneg. now apply Qmult_le_0_compat. }
  repeat (apply Qle_trans with (0 + 0); [discriminate|];
          apply Qplus_le_compat); try exact H; apply H0; discriminate.
Qed.

(** A whole surcharge [n] whose three fees are whole raises the final cost
    by the surcharge and its fees. *)
Lemma finalCostOf_shift (x : number) (n a b c : Z) :
  inject_Z n * BUSINESS_FEES.projectManagement == inject_Z a ->
  inject_Z n * BUSINESS_FEES.contingency == inject_Z b ->
  inject_Z n * BUSINESS_FEES.netProfit == inject_Z c ->
  finalCostOf (x + inject_Z n)
  == finalCostOf x + inject_Z (n + a + b + c).
Proof.
  intros Ha Hb Hc. unfold finalCostOf, roundGBP.
  assert (E : forall (f : Q) (k : Z), inject_Z n * f == inject_Z k ->
              round ((x + inject_Z n) * f) == round (x * f) + inject_Z k).
  { intros f k Hk. rewrite <- round_shift.
    assert (R : round ((x + inject_Z n) * f) = round (x * f + inject_Z k)).
    { apply round_comp. rewrite <- Hk. qring. }
    rewrite R. reflexivity. }
  rewrite (E _ _ Ha), (E _ _ Hb), (E _ _ Hc).
  rewrite !inject_Z_plus. qring.
Qed.

(** *** The subtotal as a function of the inputs *)

Lemma rate_pos (s : ServiceType) (t : MaterialTier) :
  0 <= rate (UK_2026_RATES s t).
Proof. destruct s, t; discriminate. Qed.

Lemma baseRates_pos (s : ServiceType) : 0 <= baseRates s.
Proof. destruct s; discriminate. Qed.

Lemma laborCost_le (a b : number) (s : ServiceType) (acc : bool) :
  a <= b ->
  (if acc then estimateLaborHours a s * LABOR_RATE_PER_HOUR_GBP
   else estimateLaborHours a s * LABOR_RATE_PER_HOUR_GBP * (145 # 100))
  <= (if acc then estimateLaborHours b s * LABOR_RATE_PER_HOUR_GBP
      else estimateLaborHours b s * LABOR_RATE_PER_HOUR_GBP * (145 # 100)).
Proof.
  intros H. unfold estimateLaborHours.
  assert (H1 : a * baseRates s <= b * baseRates s)
    by (apply Qmult_le_compat_r; [exact H | apply baseRates_pos]).
  assert (H2 : a * baseRates s * LABOR_RATE_PER_HOUR_GBP
               <= b * baseRates s * LABOR_RATE_PER_HOUR_GBP)
    by (apply Qmult_le_compat_r; [exact H1 | discriminate]).
  destruct acc; [exact H2|].
  apply Qmult_le_compat_r; [exact H2 | discriminate].
Qed.

Lemma calculateSkipLoads_le (a b : number) :
  a <= b -> calculateSkipLoads a <= calculateSkipLoads b.
Proof.
  intros H. unfold calculateSkipLoads. apply ceil_le.
  unfold Qdiv. repeat (apply Qmult_le_compat_r; [|discriminate]). exact H.
Qed.

Lemma calculateSkipLoads_nonneg (a : number) :
  0 <= a -> 0 <= calculateSkipLoads a.
Proof.
  intros H. apply Qle_trans with (calculateSkipLoads 0).
  - vm_compute. discriminate.
  - now apply calculateSkipLoads_le.
Qed.

Lemma subtotalOf_area_le (i : ProjectInputs) (a b : number) :
  a <= b ->
  subtotalOf (Inputs.set_area_m2 a i) <= subtotalOf (Inputs.set_area_m2 b i).
Proof.
  intros H. unfold subtotalOf, Inputs.set_area_m2, roundGBP.
  cbn [service hasExcavatorAccess hasDrivewayForSkip slopeLevel subBaseType
       existingDemolition length_m width_m area_m2 materialTier deckHeight_m].
  repeat apply Qplus_le_compat; try apply Qle_refl.
  - apply round_le. apply Qmult_le_compat_r; [exact H | apply rate_pos].
  - apply round_le. now apply laborCost_le.
  - destruct (existingDemolition i); [|apply Qle_refl].
    apply Qmult_le_compat_r; [now apply calculateSkipLoads_le | discriminate].
Qed.

Lemma subtotalOf_nonneg (i : ProjectInputs) :
  0 <= area_m2 i -> 0 <= subtotalOf i.
Proof.
  intros H. unfold subtotalOf, roundGBP.
  assert (P : forall x y : Q, 0 <= x -> 0 <= y -> 0 <= x + y).
  { intros x y Hx Hy. apply Qle_trans with (0 + 0); [discriminate|].
    now apply Qplus_le_compat. }
  repeat apply P.
  - apply round_nonneg. apply Qmult_le_0_compat; [exact H | apply rate_pos].
  - apply round_nonneg. unfold estimateLaborHours.
    destruct (hasExcavatorAccess i);
      repeat (apply Qmult_le_0_compat; try discriminate);
      try exact H; apply baseRates_pos.
  - destruct (hasDrivewayForSkip i); discriminate.
  - destruct (SlopeLevel_eqb (slopeLevel i) steep); discriminate.
  - destruct (existingDemolition i); [|discriminate].
    apply Qmult_le_0_compat; [now apply calculateSkipLoads_nonneg | discriminate].
  - destruct (match deckHeight_m i with
              | Some h => (truthyNum h && gtb h (15 # 10))%bool
              | None => false
              end); discriminate.
Qed.

(** X2.  Each fixed surcharge raises the estimate by its amount and the
    three fees on it (30 percent in all): a steep slope by 10,400 over a
    flat or moderate one, a skip on the street by 78, scaffolding by 2,340
    for a deck height above 1.5 m and by nothing at 1.5 m or below.  The
    property is stated for the areas from 0 to [largestArea], a square
    kilometre: there every amount is a whole number far below 2^53 and
    the doubles of the source add and round as the rationals do (beyond
    2^53 the sums of the source lose their last digits). *)
Theorem fixed_surcharges_raise_estimate (i : ProjectInputs) (h : number) :
  0 <= area_m2 i -> area_m2 i <= largestArea ->
  estimate (calculateUKEstimate (Inputs.set_slopeLevel steep i))
  == estimate (calculateUKEstimate (Inputs.set_slopeLevel flat i)) + 10400
  /\ estimate (calculateUKEstimate (Inputs.set_slopeLevel moderate i))
     == estimate (calculateUKEstimate (Inputs.set_slopeLevel flat i))
  /\ estimate (calculateUKEstimate (Inputs.set_hasDrivewayForSkip false i))
     == estimate (calculateUKEstimate (Inputs.set_hasDrivewayForSkip true i))
        + 78
  /\ estimate (calculateUKEstimate (Inputs.set_deckHeight_m (Some h) i))
     == estimate (calculateUKEstimate (Inputs.set_deckHeight_m None i))
        + (if gtb h (15 # 10) then 2340 else 0).
Proof.
  intros _ _. rewrite !estimate_closed.
  split; [|split; [|split]].
  - rewrite (@finalCostOf_comp
               (subtotalOf (Inputs.set_slopeLevel steep i))
               (subtotalOf (Inputs.set_slopeLevel flat i) + inject_Z 8000)).
    + rewrite (@finalCostOf_shift _ 8000 800 400 1200); reflexivity.
    + unfold subtotalOf, Inputs.set_slopeLevel.
      cbn [service hasExcavatorAccess hasDrivewayForSkip slopeLevel
           subBaseType existingDemolition length_m width_m area_m2
           materialTier deckHeight_m SlopeLevel_eqb].
      unfold SURCHARGES.steepSlopeGrading. qring.
  - apply finalCostOf_comp. reflexivity.
  - rewrite (@finalCostOf_comp
               (subtotalOf (Inputs.set_hasDrivewayForSkip false i))
               (subtotalOf (Inputs.set_hasDrivewayForSkip true i)
                + inject_Z 60)).
    + rewrite (@finalCostOf_shift _ 60 6 3 9); reflexivity.
    + unfold subtotalOf, Inputs.set_hasDrivewayForSkip.
      cbn [service hasExcavatorAccess hasDrivewayForSkip slopeLevel
           subBaseType existingDemolition length_m width_m area_m2
           materialTier deckHeight_m].
      unfold SURCHARGES.councilPermit. qring.
  - destruct (gtb h (15 # 10)) eqn:Hh.
    + assert (Ht : truthyNum h = true).
      { unfold truthyNum. destruct (Qeq_bool h 0) eqn:E0; [|reflexivity].
        apply Qeq_bool_eq in E0. apply gtb_spec in Hh.
        rewrite E0 in Hh. discriminate Hh. }
      rewrite (@finalCostOf_comp
                 (subtotalOf (Inputs.set_deckHeight_m (Some h) i))
                 (subtotalOf (Inputs.set_deckHeight_m None i)
                  + inject_Z 1800)).
      * rewrite (@finalCostOf_shift _ 1800 180 90 270); reflexivity.
      * unfold subtotalOf, Inputs.set_deckHeight_m.
        cbn [service hasExcavatorAccess hasDrivewayForSkip slopeLevel
             subBaseType existingDemolition length_m width_m area_m2
             materialTier deckHeight_m].
        rewrite Ht, Hh. cbn [andb].
        unfold SURCHARGES.highAltitudeScaffolding. qring.
    + rewrite Qplus_0_r. apply finalCostOf_comp.
      unfold subtotalOf, Inputs.set_deckHeight_m.
      cbn [service hasExcavatorAccess hasDrivewayForSkip slopeLevel
           subBaseType existingDemolition length_m width_m area_m2
           materialTier deckHeight_m].
      rewrite Hh, andb_false_r. reflexivity.
Qed.

Lemma fixed_surcharges_raise_estimate_witness :
  0 <= area_m2 hardscape100 /\ area_m2 hardscape100 <= largestArea
  /\ estimate (calculateUKEstimate (Inputs.set_slopeLevel steep hardscape100))
     == estimate (calculateUKEstimate (Inputs.set_slopeLevel flat hardscape100))
        + 10400.
Proof.
  assert (H0 : 0 <= area_m2 hardscape100)
    by (apply Qle_bool_iff; reflexivity).
  assert (H1 : area_m2 hardscape100 <= largestArea)
    by (apply Qle_bool_iff; reflexivity).
  split; [exact H0|]. split; [exact H1|].
  exact (proj1 (@fixed_surcharges_raise_estimate hardscape100 2 H0 H1)).
Defined.

(** X3.  A larger area never costs less: with every other input the
    same, the estimate is monotone in [area_m2]. *)
Theorem estimate_monotone_in_area (i : ProjectInputs) (a b : number) :
  a <= b ->
  estimate (calculateUKEstimate (Inputs.set_area_m2 a i))
  <= estimate (calculateUKEstimate (Inputs.set_area_m2 b i)).
Proof.
  intros H. rewrite !estimate_closed.
  apply finalCostOf_le. now apply subtotalOf_area_le.
Qed.

Lemma estimate_monotone_in_area_witness :
  12 <= 20
  /\ estimate (calculateUKEstimate (Inputs.set_area_m2 12 hardscape100))
     <= estimate (calculateUKEstimate (Inputs.set_area_m2 20 hardscape100)).
Proof.
  split; [discriminate|].
  apply (estimate_monotone_in_area hardscape100 (a:=12) (b:=20)). discriminate.
Defined.

(** X4.  For a non-negative area the range brackets the estimate:
    [0 <= lowerBound <= estimate <= upperBound]. *)
Theorem range_brackets_estimate (i : ProjectInputs) :
  0 <= area_m2 i ->
  0 <= lowerBound (calculateUKEstimate i)
  /\ lowerBound (calculateUKEstimate i) <= estimate (calculateUKEstimate i)
  /\ estimate (calculateUKEstimate i) <= upperBound (calculateUKEstimate i).
Proof.
  intros H.
  pose proof (finalCostOf_nonneg (subtotalOf_nonneg i H)) as HF.
  assert (HI : integral (finalCostOf (subtotalOf i)))
    by (apply integral_finalCostOf, integral_subtotalOf).
  rewrite lowerBound_closed, upperBound_closed, estimate_closed.
  unfold roundGBP. split; [|split].
  - apply round_nonneg. apply Qmult_le_0_compat; [exact HF | discriminate].
  - rewrite <- (round_integral HI) at 2. apply round_le.
    rewrite <- (Qmult_1_l (finalCostOf (subtotalOf i))) at 2.
    rewrite Qmult_comm.
    apply Qmult_le_compat_r; [discriminate | exact HF].
  - rewrite <- (round_integral HI) at 1. apply round_le.
    rewrite <- (Qmult_1_l (finalCostOf (subtotalOf i))) at 1.
    rewrite (Qmult_comm _ (110 # 100)).
    apply Qmult_le_compat_r; [discriminate | exact HF].
Qed.

Lemma range_brackets_estimate_witness :
  0 <= area_m2 hardscape100
  /\ 0 <= lowerBound (calculateUKEstimate hardscape100)
  /\ lowerBound (calculateUKEstimate hardscape100)
     <= estimate (calculateUKEstimate hardscape100)
  /\ estimate (calculateUKEstimate hardscape100)
     <= upperBound (calculateUKEstimate hardscape100).
Proof.
  split; [discriminate|].
  apply (range_brackets_estimate hardscape100). discriminate.
Defined.

(** X5.  Losing excavator access never lowers the estimate of a project
    with a non-negative area. *)
Theorem restricted_access_never_cheaper (i : ProjectInputs) :
  0 <= area_m2 i ->
  estimate (calculateUKEstimate (set_hasExcavatorAccess true i))
  <= estimate (calculateUKEstimate (set_hasExcavatorAccess false i)).
Proof.
  intros H. rewrite !estimate_closed. apply finalCostOf_le.
  unfold subtotalOf, set_hasExcavatorAccess, roundGBP.
  cbn [service hasExcavatorAccess hasDrivewayForSkip slopeLevel subBaseType
       existingDemolition length_m width_m area_m2 materialTier deckHeight_m].
  repeat apply Qplus_le_compat; try apply Qle_refl.
  apply round_le.
  set (c := estimateLaborHours (area_m2 i) (service i) * LABOR_RATE_PER_HOUR_GBP).
  assert (Hc : 0 <= c).
  { unfold c, estimateLaborHours.
    repeat (apply Qmult_le_0_compat; try discriminate);
      [exact H | apply baseRates_pos]. }
  rewrite <- (Qmult_1_l c) at 1. rewrite (Qmult_comm c).
  apply Qmult_le_compat_r; [discriminate | exact Hc].
Qed.

Lemma restricted_access_never_cheaper_witness :
  0 <= area_m2 hardscape100
  /\ estimate (calculateUKEstimate (set_hasExcavatorAccess true hardscape100))
     <= estimate (calculateUKEstimate
                    (set_hasExcavatorAccess false hardscape100)).
Proof.
  split; [discriminate|].
  apply (restricted_access_never_cheaper hardscape100). discriminate.
Defined.

(** X6.  A project on a steep slope with a non-negative area is always
    VIP PRIORITY: the grading surcharge alone takes the estimate over
    5,000. *)
Theorem steep_slope_is_vip (i : ProjectInputs) :
  0 <= area_m2 i -> slopeLevel i = steep ->
  projectStatus (calculateUKEstimate i) = VIP_PRIORITY.
Proof.
  intros H Hs.
  assert (HP : projectStatus (calculateUKEstimate i)
               = determineProjectStatus (estimate (calculateUKEstimate i)))
    by reflexivity.
  rewrite HP. apply determineProjectStatus_spec.
  rewrite estimate_closed.
  apply Qlt_le_trans with (finalCostOf 8000); [reflexivity|].
  apply finalCostOf_le.
  pose proof (subtotalOf_nonneg (Inputs.set_slopeLevel flat i) H) as H0.
  assert (E : subtotalOf i
              == subtotalOf (Inputs.set_slopeLevel flat i) + 8000).
  { unfold subtotalOf, Inputs.set_slopeLevel.
    cbn [service hasExcavatorAccess hasDrivewayForSkip slopeLevel
         subBaseType existingDemolition length_m width_m area_m2
         materialTier deckHeight_m SlopeLevel_eqb].
    rewrite Hs. cbn [SlopeLevel_eqb].
    unfold SURCHARGES.steepSlopeGrading. qring. }
  rewrite E. rewrite <- (Qplus_0_l 8000) at 1.
  apply Qplus_le_compat; [exact H0 | apply Qle_refl].
Qed.

Lemma steep_slope_is_vip_witness :
  0 <= area_m2 (Inputs.set_slopeLevel steep hardscape100)
  /\ slopeLevel (Inputs.set_slopeLevel steep hardscape100) = steep
  /\ projectStatus (calculateUKEstimate (Inputs.set_slopeLevel steep hardscape100))
     = VIP_PRIORITY.
Proof.
  split; [discriminate|]. split; [reflexivity|].
  apply (steep_slope_is_vip (Inputs.set_slopeLevel steep hardscape100));
    [discriminate | reflexivity].
Defined.

End PricingMore.

(* ====================================================================== *)
(** * Further properties of the dialogue manager *)
(* ====================================================================== *)

Section ManagerMore.

Import Manager Questions Retry.
Local Open Scope Q_scope.
Local Open Scope string_scope.

(** *** The merge, field by field *)

Ltac frames := repeat (rewrite when_frame by (intro; reflexivity)).

Ltac stage :=
  unfold updateStateWithExtraction, deriveArea; cbv zeta;
  cbn [S.service S.area_m2 S.length_m S.width_m S.materialTier
       S.hasExcavatorAccess S.hasDrivewayForSkip S.slopeLevel S.subBaseType
       S.existingDemolition S.deckHeight_m S.overgrown S.gateCount
       S.wantsDrainage S.wantsLedLighting S.messageHistory
       S.awaitingEstimate S.retryCount S.lastQuestionField
       S.showQuickReplies
       S.budgetAligns S.contactPhone S.contactEmail S.fullName S.userBudget
       S.postalCode S.projectStartTiming S.groundSoilType
       S.set_certaintyLevel];
  frames; rewrite when_hit;
  cbn [S.service S.area_m2 S.length_m S.width_m S.materialTier
       S.hasExcavatorAccess S.hasDrivewayForSkip S.slopeLevel S.subBaseType
       S.existingDemolition S.deckHeight_m S.overgrown S.gateCount
       S.wantsDrainage S.wantsLedLighting S.messageHistory
       S.awaitingEstimate S.retryCount S.lastQuestionField
       S.showQuickReplies
       S.budgetAligns S.contactPhone S.contactEmail S.fullName S.userBudget
       S.postalCode S.projectStartTiming S.groundSoilType
       S.set_service S.set_area_m2 S.set_length_m S.set_width_m
       S.set_materialTier S.set_hasExcavatorAccess S.set_hasDrivewayForSkip
       S.set_slopeLevel S.set_subBaseType S.set_existingDemolition
       S.set_deckHeight_m S.set_overgrown S.set_gateCount
       S.set_budgetAligns S.set_contactPhone S.set_contactEmail
       S.set_fullName S.set_userBudget S.set_postalCode
       S.set_projectStartTiming S.set_groundSoilType];
  frames.

Lemma merged_service s e :
  S.service (updateStateWithExtraction s e)
  = if isSome (E.service e) then E.service e else S.service s.
Proof. stage. reflexivity. Qed.

Lemma merged_length_m s e :
  S.length_m (updateStateWithExtraction s e)
  = if optTruthyNum (E.length_m e) then E.length_m e else S.length_m s.
Proof. stage. reflexivity. Qed.

Lemma merged_width_m s e :
  S.width_m (updateStateWithExtraction s e)
  = if optTruthyNum (E.width_m e) then E.width_m e else S.width_m s.
Proof. stage. reflexivity. Qed.

Lemma merged_materialTier s e :
  S.materialTier (updateStateWithExtraction s e)
  = if isSome (E.materialTier e) then E.materialTier e else S.materialTier s.
Proof. stage. reflexivity. Qed.

Lemma merged_hasExcavatorAccess s e :
  S.hasExcavatorAccess (updateStateWithExtraction s e)
  = if isSome (E.hasExcavatorAccess e) then E.hasExcavatorAccess e
    else S.hasExcavatorAccess s.
Proof. stage. reflexivity. Qed.

Lemma merged_hasDrivewayForSkip s e :
  S.hasDrivewayForSkip (updateStateWithExtraction s e)
  = if isSome (E.hasDrivewayForSkip e) then E.hasDrivewayForSkip e
    else S.hasDrivewayForSkip s.
Proof. stage. reflexivity. Qed.

Lemma merged_slopeLevel s e :
  S.slopeLevel (updateStateWithExtraction s e)
  = if isSome (E.slopeLevel e) then E.slopeLevel e else S.slopeLevel s.
Proof. stage. reflexivity. Qed.

Lemma merged_subBaseType s e :
  S.subBaseType (updateStateWithExtraction s e)
  = if isSome (E.subBaseType e) then E.subBaseType e else S.subBaseType s.
Proof. stage. reflexivity. Qed.

Lemma merged_existingDemolition s e :
  S.existingDemolition (updateStateWithExtraction s e)
  = if isSome (E.existingDemolition e) then E.existingDemolition e
    else S.existingDemolition s.
Proof. stage. reflexivity. Qed.

Lemma merged_deckHeight_m s e :
  S.deckHeight_m (updateStateWithExtraction s e)
  = if isSome (E.deckHeight_m e)
       && (serviceIs (S.service s) decking || serviceIs (E.service e) decking)
    then E.deckHeight_m e else S.deckHeight_m s.
Proof. stage. reflexivity. Qed.

Lemma merged_overgrown s e :
  S.overgrown (updateStateWithExtraction s e)
  = if isSome (E.overgrown e) then E.overgrown e else S.overgrown s.
Proof. stage. reflexivity. Qed.

Lemma merged_gateCount s e :
  S.gateCount (updateStateWithExtraction s e)
  = if optTruthyNum (E.gateCount e) then E.gateCount e else S.gateCount s.
Proof. stage. reflexivity. Qed.

Lemma merged_budgetAligns s e :
  S.budgetAligns (updateStateWithExtraction s e)
  = if isSome (E.budgetAligns e) then E.budgetAligns e else S.budgetAligns s.
Proof. stage. reflexivity. Qed.

Lemma merged_fullName s e :
  S.fullName (updateStateWithExtraction s e)
  = if match E.fullName e with
       | Some name =>
           truthyStr name
           && ((currentFieldOf s =? "fullName")
               || includes (toLowerCase name) (str "name is"))
       | None => false
       end
    then E.fullName e else S.fullName s.
Proof. stage. reflexivity. Qed.

Lemma merged_userBudget s e :
  S.userBudget (updateStateWithExtraction s e)
  = if isSome (E.userBudget e)
       && ((currentFieldOf s =? "userBudget")
           || match E.explicitBudget e with Some b => b | None => false end)
    then E.userBudget e else S.userBudget s.
Proof. stage. reflexivity. Qed.

Lemma merged_contactEmail s e :
  S.contactEmail (updateStateWithExtraction s e)
  = if optTruthyStr (E.contactEmail e) then E.contactEmail e
    else S.contactEmail s.
Proof. stage. reflexivity. Qed.

Lemma merged_contactPhone s e :
  S.contactPhone (updateStateWithExtraction s e)
  = if optTruthyStr (E.contactPhone e) then E.contactPhone e
    else S.contactPhone s.
Proof. stage. reflexivity. Qed.

Lemma merged_postalCode s e :
  S.postalCode (updateStateWithExtraction s e)
  = if match E.postalCode e with
       | Some pc =>
           truthyStr pc
           && (test strictUkPattern pc || (currentFieldOf s =? "postalCode"))
       | None => false
       end
    then E.postalCode e else S.postalCode s.
Proof. stage. reflexivity. Qed.

Lemma merged_projectStartTiming s e :
  S.projectStartTiming (updateStateWithExtraction s e)
  = if optTruthyStr (E.projectStartTiming e) then E.projectStartTiming e
    else S.projectStartTiming s.
Proof. stage. reflexivity. Qed.

Lemma merged_groundSoilType s e :
  S.groundSoilType (updateStateWithExtraction s e)
  = if optTruthyStr (E.groundSoilType e) then E.groundSoilType e
    else S.groundSoilType s.
Proof. stage. reflexivity. Qed.

Lemma merged_area_m2 s e :
  S.area_m2 (updateStateWithExtraction s e)
  = let pre := if acceptsArea s e then E.area_m2 e else S.area_m2 s in
    let l := if optTruthyNum (E.length_m e) then E.length_m e
             else S.length_m s in
    let w := if optTruthyNum (E.width_m e) then E.width_m e
             else S.width_m s in
    if optTruthyNum l && optTruthyNum w && negb (optTruthyNum pre)
    then optMul l w else pre.
Proof.
  cbv zeta. rewrite <- merged_length_m, <- merged_width_m.
  unfold updateStateWithExtraction. cbv zeta.
  cbn [S.area_m2 S.length_m S.width_m S.set_certaintyLevel].
  match goal with |- context [deriveArea ?u] => set (pre := u) end.
  assert (Hpre : S.area_m2 pre
                 = if acceptsArea s e then E.area_m2 e else S.area_m2 s).
  { subst pre. frames. rewrite when_hit. cbn [S.area_m2 S.set_area_m2].
    frames. reflexivity. }
  unfold deriveArea.
  rewrite !(when_frame S.length_m) by (intro; reflexivity).
  rewrite !(when_frame S.width_m) by (intro; reflexivity).
  rewrite when_hit. cbn [S.area_m2 S.set_area_m2]. rewrite Hpre.
  reflexivity.
Qed.

Lemma merged_certaintyLevel s e :
  S.certaintyLevel (updateStateWithExtraction s e)
  = calculateCertainty (updateStateWithExtraction s e).
Proof. reflexivity. Qed.

Lemma truthyNum_mult (x y : number) :
  truthyNum x = true -> truthyNum y = true -> truthyNum (x * y) = true.
Proof.
  unfold truthyNum. intros Hx Hy.
  destruct (Qeq_bool (x * y) 0) eqn:E0; [|reflexivity].
  apply Qeq_bool_eq in E0. apply Qmult_integral in E0.
  destruct E0 as [E0 | E0]; apply Qeq_eq_bool in E0.
  - rewrite E0 in Hx. discriminate Hx.
  - rewrite E0 in Hy. discriminate Hy.
Qed.

Lemma optTruthyNum_set (o : option number) :
  optTruthyNum o = true -> setTruthyNum o = true.
Proof. now destruct o. Qed.

Lemma optTruthyStr_set (o : option jsstring) :
  optTruthyStr o = true -> setTruthyStr o = true.
Proof. now destruct o. Qed.

Lemma acceptsArea_truthy s e :
  acceptsArea s e = true -> optTruthyNum (E.area_m2 e) = true.
Proof.
  unfold acceptsArea. destruct (E.area_m2 e) as [a|]; [|discriminate].
  intros H. apply andb_prop in H. exact (proj1 H).
Qed.

Lemma optMul_truthy (a b : option number) :
  optTruthyNum a = true -> optTruthyNum b = true ->
  optTruthyNum (optMul a b) = true.
Proof.
  destruct a as [x|], b as [y|]; try discriminate. apply truthyNum_mult.
Qed.

(** What the merge leaves in [area_m2] is truthy as soon as the length and
    the width it leaves are. *)
Lemma merged_area_from_sides s e :
  optTruthyNum (S.length_m (updateStateWithExtraction s e)) = true ->
  optTruthyNum (S.width_m (updateStateWithExtraction s e)) = true ->
  optTruthyNum (S.area_m2 (updateStateWithExtraction s e)) = true.
Proof.
  rewrite merged_area_m2, merged_length_m, merged_width_m. cbv zeta.
  intros Hl Hw. rewrite Hl, Hw. cbn [andb].
  destruct (optTruthyNum (if acceptsArea s e then E.area_m2 e
                          else S.area_m2 s)) eqn:Hp; cbn [negb].
  - exact Hp.
  - now apply optMul_truthy.
Qed.

Lemma storesNoFalsyValue_merge (s : S.t) (e : E.t) :
  storesNoFalsyValue s = true ->
  storesNoFalsyValue (updateStateWithExtraction s e) = true.
Proof.
  unfold storesNoFalsyValue. intros H.
  repeat (apply andb_prop in H; destruct H as [H ?]).
  rewrite merged_area_m2, merged_length_m, merged_width_m, merged_gateCount,
    merged_fullName, merged_contactPhone, merged_contactEmail,
    merged_postalCode, merged_projectStartTiming, merged_groundSoilType.
  cbv zeta.
  repeat (apply andb_true_intro; split);
    try match goal with
      | |- setTruthyNum (if optTruthyNum ?o then ?o else _) = true =>
          destruct (optTruthyNum o) eqn:G;
          [now apply optTruthyNum_set | assumption]
      | |- setTruthyStr (if optTruthyStr ?o then ?o else _) = true =>
          destruct (optTruthyStr o) eqn:G;
          [now apply optTruthyStr_set | assumption]
      end.
  - (* area *)
    match goal with
    | |- setTruthyNum (if ?c then _ else _) = true => destruct c eqn:C
    end.
    + apply andb_prop in C. destruct C as [C _].
      apply andb_prop in C. destruct C as [Hl Hw].
      apply optTruthyNum_set. now apply optMul_truthy.
    + destruct (acceptsArea s e) eqn:Ha; [|assumption].
      apply optTruthyNum_set. now apply (acceptsArea_truthy s).
  - (* full name *)
    destruct (E.fullName e) as [n|]; [|assumption].
    destruct (truthyStr n) eqn:Hn; cbn [andb]; [|assumption].
    destruct ((currentFieldOf s =? "fullName")
              || includes (toLowerCase n) (str "name is"))%bool;
      [exact Hn | assumption].
  - (* postcode *)
    destruct (E.postalCode e) as [pc|]; [|assumption].
    destruct (truthyStr pc) eqn:Hn; cbn [andb]; [|assumption].
    destruct (test strictUkPattern pc || (currentFieldOf s =? "postalCode"))%bool;
      [exact Hn | assumption].
Qed.

(** The product of two ordinary sides that are not zero is clear of the
    limits of a double: it lies between 10^-300 and 10^300. *)
Lemma ordinary_product (x y : number) :
  truthyNum x = true -> truthyNum y = true ->
  ordinarySide x = true -> ordinarySide y = true ->
  smallestSide * smallestSide <= Qabs (x * y)
  /\ Qabs (x * y) <= largestSide * largestSide.
Proof.
  unfold ordinarySide. intros Hx Hy Ox Oy. rewrite Hx in Ox. rewrite Hy in Oy.
  cbn [negb orb] in Ox, Oy.
  apply andb_prop in Ox. destruct Ox as [Lx Ux].
  apply andb_prop in Oy. destruct Oy as [Ly Uy].
  apply Qle_bool_iff in Lx, Ux, Ly, Uy.
  rewrite Qabs_Qmult.
  assert (H0 : 0 <= smallestSide) by (apply Qle_bool_iff; reflexivity).
  split; apply Qmult_le_compat_nonneg; split;
    first [assumption | apply Qabs_nonneg].
Qed.

(** X7.  The merge stores no falsy value: if every number and string that
    the manager tests for truthiness is non-zero or non-empty when set, it
    is so again after [updateStateWithExtraction].  The one number that the
    merge computes is the area it derives from a length and a width; the
    property is stated for ordinary sides, whose product is not zero as a
    double either ([ordinary_product]).  For two sides of 10^-200 the
    source stores an area of [0]. *)
Theorem merge_stores_no_falsy_value (s : S.t) (e : E.t) :
  ordinarySides s e = true ->
  storesNoFalsyValue s = true ->
  storesNoFalsyValue (updateStateWithExtraction s e) = true.
Proof. intros _. apply storesNoFalsyValue_merge. Qed.

Lemma merge_stores_no_falsy_value_witness :
  let e := Extraction.extractLocalInformation (str "0x5 patio") in
  ordinarySides createInitialState e = true
  /\ storesNoFalsyValue createInitialState = true
  /\ storesNoFalsyValue (updateStateWithExtraction createInitialState e)
     = true.
Proof.
  cbv zeta. split; [vm_compute; reflexivity|]. split; [reflexivity|].
  apply (@merge_stores_no_falsy_value createInitialState);
    [vm_compute; reflexivity | reflexivity].
Defined.

(** *** Questions and detected fields *)

Ltac next_if :=
  match goal with
  | |- context [if ?c then _ else _] => destruct c
  end.

(** X8.  [getNextQuestion] and [detectCurrentField] walk the same list of
    priorities: there is no question left exactly when the detected field
    is ['unknown']. *)
Theorem no_question_iff_no_field (s : S.t) :
  getNextQuestion s = None <-> detectCurrentField s = "unknown".
Proof.
  unfold getNextQuestion, detectCurrentField.
  destruct (S.service s) as [svc|]; cbn [isSome negb];
    [|split; discriminate].
  repeat (next_if; [split; discriminate|]).
  split; reflexivity.
Qed.

Lemma detectCurrentField_in (s : S.t) : In (detectCurrentField s) fieldNames.
Proof.
  unfold detectCurrentField, fieldNames.
  repeat (next_if; [cbn; tauto|]). cbn; tauto.
Qed.

(** *** The merge never forgets *)

Ltac kept :=
  let H := fresh "H" in
  let G := fresh "G" in
  intros H;
  match goal with
  | |- isSome (if ?c then ?n else _) = true =>
      destruct c eqn:G; [| exact H];
      destruct n; [reflexivity | cbn in G; discriminate G]
  end.

Lemma kept_area_m2 s e :
  isSome (S.area_m2 s) = true ->
  isSome (S.area_m2 (updateStateWithExtraction s e)) = true.
Proof.
  rewrite merged_area_m2. cbv zeta. intros H.
  match goal with
  | |- isSome (if ?c then _ else _) = true => destruct c eqn:C
  end.
  - apply andb_prop in C. destruct C as [C _].
    apply andb_prop in C. destruct C as [Hl Hw].
    apply optTruthyNum_isSome. now apply optMul_truthy.
  - destruct (acceptsArea s e) eqn:Ha; [|exact H].
    apply optTruthyNum_isSome. now apply (acceptsArea_truthy s).
Qed.

Lemma fieldIsSet_merge (f : FieldName) (s : S.t) (e : E.t) :
  fieldIsSet f s = true ->
  fieldIsSet f (updateStateWithExtraction s e) = true.
Proof.
  unfold fieldIsSet.
  repeat match goal with
         | |- context [String.eqb f ?k] => destruct (String.eqb f k)
         end;
    try (intros H; discriminate H);
    try (rewrite ?merged_service, ?merged_materialTier,
           ?merged_hasExcavatorAccess, ?merged_hasDrivewayForSkip,
           ?merged_slopeLevel, ?merged_existingDemolition,
           ?merged_deckHeight_m, ?merged_overgrown, ?merged_gateCount,
           ?merged_fullName, ?merged_contactPhone, ?merged_contactEmail,
           ?merged_userBudget, ?merged_postalCode, ?merged_budgetAligns,
           ?merged_projectStartTiming; kept).
  (* dimensions *)
  intros H. apply orb_true_iff in H. apply orb_true_iff.
  destruct H as [H | H].
  - left. now apply kept_area_m2.
  - right. revert H. rewrite merged_length_m. kept.
Qed.

(** X9.  Merging what the local extractor found never unsets a field:
    whatever field of the dialogue is set in a state is still set after
    [updateStateWithExtraction], whatever the message was.  (An answer of
    the conversation API can hold a [null], which the merge stores over a
    field where it tests [!== undefined].) *)
Theorem merge_never_unsets_a_field (f : FieldName) (s : S.t)
        (userMessage : jsstring) :
  fieldIsSet f s = true ->
  fieldIsSet f
    (updateStateWithExtraction s
       (Extraction.extractLocalInformation userMessage))
  = true.
Proof. apply fieldIsSet_merge. Qed.

Lemma merge_never_unsets_a_field_witness :
  fieldIsSet "gateCount" (S.set_gateCount (Some 2) createInitialState) = true
  /\ fieldIsSet "gateCount"
       (updateStateWithExtraction
          (S.set_gateCount (Some 2) createInitialState)
          (Extraction.extractLocalInformation (str "no gates")))
     = true.
Proof.
  split; [reflexivity|].
  apply (@merge_never_unsets_a_field "gateCount"
           (S.set_gateCount (Some 2) createInitialState) (str "no gates")).
  reflexivity.
Defined.

(** *** Certainty over a merge *)

Lemma kept_truthy_length s e :
  optTruthyNum (S.length_m s) = true ->
  optTruthyNum (S.length_m (updateStateWithExtraction s e)) = true.
Proof.
  rewrite merged_length_m. intros H.
  destruct (optTruthyNum (E.length_m e)) eqn:G; assumption.
Qed.

Lemma kept_truthy_width s e :
  optTruthyNum (S.width_m s) = true ->
  optTruthyNum (S.width_m (updateStateWithExtraction s e)) = true.
Proof.
  rewrite merged_width_m. intros H.
  destruct (optTruthyNum (E.width_m e)) eqn:G; assumption.
Qed.

Lemma kept_truthy_area s e :
  optTruthyNum (S.area_m2 s) = true ->
  optTruthyNum (S.area_m2 (updateStateWithExtraction s e)) = true.
Proof.
  rewrite merged_area_m2. cbv zeta. intros H.
  match goal with
  | |- optTruthyNum (if ?c then _ else _) = true => destruct c eqn:C
  end.
  - apply andb_prop in C. destruct C as [C _].
    apply andb_prop in C. destruct C as [Hl Hw].
    now apply optMul_truthy.
  - destruct (acceptsArea s e) eqn:Ha; [|exact H].
    now apply (acceptsArea_truthy s).
Qed.

Lemma kept_hasDimensions s e :
  hasDimensions s = true ->
  hasDimensions (updateStateWithExtraction s e) = true.
Proof.
  unfold hasDimensions. intros H.
  apply orb_true_iff in H. apply orb_true_iff. left.
  destruct H as [H | H].
  - now apply kept_truthy_area.
  - apply andb_prop in H. destruct H as [Hl Hw].
    apply merged_area_from_sides;
      [now apply kept_truthy_length | now apply kept_truthy_width].
Qed.

Lemma certaintyOf_mono svc d t o l r x m d' t' o' l' r' x' m' :
  (d = true -> d' = true) -> (t = true -> t' = true) ->
  (o = true -> o' = true) -> (l = true -> l' = true) ->
  (r = true -> r' = true) -> (x = true -> x' = true) ->
  (m = true -> m' = true) ->
  certaintyOf svc d t o l r x m <= certaintyOf svc d' t' o' l' r' x' m'.
Proof.
  intros Hd Ht Ho Hl Hr Hx Hm.
  apply Qle_trans with (certaintyOf svc d' t o l r x m).
  { destruct d, d'; try apply Qle_refl;
      [discriminate Hd; reflexivity | apply certaintyOf_dims]. }
  apply Qle_trans with (certaintyOf svc d' t' o l r x m).
  { destruct t, t'; try apply Qle_refl;
      [discriminate Ht; reflexivity | apply certaintyOf_tier]. }
  apply Qle_trans with (certaintyOf svc d' t' o' l r x m).
  { destruct o, o'; try apply Qle_refl;
      [discriminate Ho; reflexivity | apply certaintyOf_overgrown]. }
  apply Qle_trans with (certaintyOf svc d' t' o' l' r x m).
  { destruct l, l'; try apply Qle_refl;
      [discriminate Hl; reflexivity | apply certaintyOf_slope]. }
  apply Qle_trans with (certaintyOf svc d' t' o' l' r' x m).
  { destruct r, r'; try apply Qle_refl;
      [discriminate Hr; reflexivity | apply certaintyOf_driveway]. }
  apply Qle_trans with (certaintyOf svc d' t' o' l' r' x' m).
  { destruct x, x'; try apply Qle_refl;
      [discriminate Hx; reflexivity | apply certaintyOf_excavator]. }
  destruct m, m'; try apply Qle_refl;
    [discriminate Hm; reflexivity | apply certaintyOf_demolition].
Qed.

Lemma certainty_kept_up (s : S.t) (e : E.t) :
  S.service (updateStateWithExtraction s e) = S.service s ->
  calculateCertainty s <= S.certaintyLevel (updateStateWithExtraction s e).
Proof.
  intros Hsvc. rewrite merged_certaintyLevel, !calculateCertainty_eq, Hsvc.
  apply certaintyOf_mono.
  - apply kept_hasDimensions.
  - apply (fieldIsSet_merge "materialTier").
  - apply (fieldIsSet_merge "overgrown").
  - apply (fieldIsSet_merge "slope").
  - apply (fieldIsSet_merge "driveway").
  - apply (fieldIsSet_merge "excavatorAccess").
  - apply (fieldIsSet_merge "demolition").
Qed.

(** X10.  Merging what the local extractor found never lowers the
    certainty, as long as it leaves the service as it was; the certainty
    the merge stores is the one of the merged state.  (A [null] in an
    answer of the conversation API unsets a field and lowers it.) *)
Theorem merge_keeps_certainty_up (s : S.t) (userMessage : jsstring) :
  S.service
    (updateStateWithExtraction s
       (Extraction.extractLocalInformation userMessage))
  = S.service s ->
  calculateCertainty s
  <= S.certaintyLevel
       (updateStateWithExtraction s
          (Extraction.extractLocalInformation userMessage)).
Proof. apply certainty_kept_up. Qed.

Lemma merge_keeps_certainty_up_witness :
  let s := S.set_service (Some mowing) createInitialState in
  let e := Extraction.extractLocalInformation (str "25 square meters") in
  S.service (updateStateWithExtraction s e) = S.service s
  /\ calculateCertainty s <= S.certaintyLevel (updateStateWithExtraction s e).
Proof.
  cbv zeta. split; [reflexivity|].
  apply (@merge_keeps_certainty_up
           (S.set_service (Some mowing) createInitialState)
           (str "25 square meters")).
  reflexivity.
Defined.

(** When the merge changes the service the certainty can go down: the
    planting project below is at 88, and at 75 once a patio is named. *)
Remark merge_changing_service_can_lower_certainty :
  let s := S.set_materialTier (Some standard)
             (S.set_area_m2 (Some 20)
                (S.set_service (Some planting) createInitialState)) in
  let e := Extraction.extractLocalInformation (str "patio") in
  calculateCertainty s == 88
  /\ S.certaintyLevel (updateStateWithExtraction s e) == 75.
Proof. cbv zeta. split; vm_compute; reflexivity. Qed.

(** *** Readiness *)

Lemma certaintyOf_ready svc d t o l r x m :
  geb (certaintyOf svc d t o l r x m) 85 = true ->
  isSome svc = true /\ d = true /\ t = true.
Proof.
  destruct svc as [[]|], d, t, o, l, r, x, m; vm_compute; intros H;
    first [discriminate H | repeat split].
Qed.

(** A ready state whose stored certainty is its own, and whose length and
    width come with their area, has what the price depends on. *)
Lemma ready_has_pricing_inputs (u : S.t) :
  (optTruthyNum (S.length_m u) = true -> optTruthyNum (S.width_m u) = true ->
   optTruthyNum (S.area_m2 u) = true) ->
  S.certaintyLevel u = calculateCertainty u ->
  isReadyForEstimate u = true ->
  isSome (S.service u) = true
  /\ optTruthyNum (S.area_m2 u) = true
  /\ isSome (S.materialTier u) = true
  /\ isSome (S.userBudget u) = true
  /\ isSome (S.postalCode u) = true.
Proof.
  intros Hsides Hc H.
  assert (HA : forall l w a : bool,
             (l = true -> w = true -> a = true) ->
             (a || (l && w))%bool = true -> a = true).
  { intros [] [] []; cbn; auto. }
  rewrite calculateCertainty_eq in Hc. unfold hasDimensions in Hc.
  unfold isReadyForEstimate in H.
  destruct (isSome (S.userBudget u)); [|discriminate H].
  destruct (isSome (S.postalCode u)); [|discriminate H].
  cbn [negb orb] in H.
  assert (Hg : geb (S.certaintyLevel u) 85 = true).
  { repeat match type of H with
           | (if ?c then false else _) = true =>
               destruct c; [discriminate H|]
           end.
    exact H. }
  rewrite Hc in Hg. apply certaintyOf_ready in Hg.
  destruct Hg as (Hsvc & Hd & Ht).
  repeat split; try assumption.
  exact (HA _ _ _ Hsides Hd).
Qed.

(** X11.  A state that comes out of the merge ready for an estimate has
    what the price depends on: the service, a non-zero area, the material
    tier, and the budget and postcode asked for last.  The area can be the
    one the merge derives from a length and a width; the property is
    stated for ordinary sides, whose product is not zero as a double
    either ([ordinary_product]). *)
Theorem ready_after_merge_has_pricing_inputs (s : S.t) (e : E.t) :
  ordinarySides s e = true ->
  isReadyForEstimate (updateStateWithExtraction s e) = true ->
  isSome (S.service (updateStateWithExtraction s e)) = true
  /\ optTruthyNum (S.area_m2 (updateStateWithExtraction s e)) = true
  /\ isSome (S.materialTier (updateStateWithExtraction s e)) = true
  /\ isSome (S.userBudget (updateStateWithExtraction s e)) = true
  /\ isSome (S.postalCode (updateStateWithExtraction s e)) = true.
Proof.
  intros _. apply ready_has_pricing_inputs.
  - apply merged_area_from_sides.
  - apply merged_certaintyLevel.
Qed.

Lemma ready_after_merge_has_pricing_inputs_witness :
  let s := S.set_postalCode (Some (str "SL4 1AA"))
             (S.set_overgrown (Some false)
                (S.set_materialTier (Some standard)
                   (S.set_area_m2 (Some 20)
                      (S.set_service (Some mowing) createInitialState)))) in
  let e := Extraction.extractLocalInformation (POUND :: str "4000") in
  ordinarySides s e = true
  /\ isReadyForEstimate (updateStateWithExtraction s e) = true
  /\ isSome (S.service (updateStateWithExtraction s e)) = true
  /\ optTruthyNum (S.area_m2 (updateStateWithExtraction s e)) = true
  /\ isSome (S.materialTier (updateStateWithExtraction s e)) = true
  /\ isSome (S.userBudget (updateStateWithExtraction s e)) = true
  /\ isSome (S.postalCode (updateStateWithExtraction s e)) = true.
Proof.
  cbv zeta. split; [vm_compute; reflexivity|].
  split; [vm_compute; reflexivity|].
  apply ready_after_merge_has_pricing_inputs; vm_compute; reflexivity.
Defined.

(** *** Merging nothing *)

Lemma set_certaintyLevel_same (u : S.t) :
  S.set_certaintyLevel (S.certaintyLevel u) u = u.
Proof. destruct u. reflexivity. Qed.

Lemma merge_empty (u : S.t) :
  updateStateWithExtraction u E.empty
  = S.set_certaintyLevel (calculateCertainty (deriveArea u)) (deriveArea u).
Proof. reflexivity. Qed.

(** X12.  Merging an empty extraction into a state that came out of the
    merge changes nothing: no field, no derived area, not the certainty. *)
Theorem merging_nothing_changes_nothing (s : S.t) (e : E.t) :
  updateStateWithExtraction (updateStateWithExtraction s e) E.empty
  = updateStateWithExtraction s e.
Proof.
  rewrite merge_empty.
  pose proof (@merged_area_from_sides s e) as Hsides.
  pose proof (merged_certaintyLevel s e) as Hc.
  revert Hsides Hc. generalize (updateStateWithExtraction s e) as u.
  intros u Hsides Hc.
  assert (Hd : deriveArea u = u).
  { unfold deriveArea, when.
    destruct (optTruthyNum (S.length_m u)) eqn:Hl;
      destruct (optTruthyNum (S.width_m u)) eqn:Hw; cbn [andb];
      try reflexivity.
    rewrite Hsides by reflexivity. reflexivity. }
  rewrite Hd, <- Hc. apply set_certaintyLevel_same.
Qed.

(** *** Retries *)

Lemma lookup_store_same rc f v : lookup (store rc f v) f = Some v.
Proof.
  induction rc as [|[k x] rc IH]; cbn.
  - now rewrite String.eqb_refl.
  - destruct (k =? f) eqn:E; cbn; rewrite E; [reflexivity | exact IH].
Qed.

Lemma lookup_store_other rc f g v :
  f <> g -> lookup (store rc f v) g = lookup rc g.
Proof.
  intros Hfg. induction rc as [|[k x] rc IH]; cbn.
  - destruct (f =? g) eqn:E; [|reflexivity].
    apply String.eqb_eq in E. contradiction.
  - destruct (k =? f) eqn:E; cbn.
    + apply String.eqb_eq in E. subst k.
      destruct (f =? g) eqn:E2; [|reflexivity].
      apply String.eqb_eq in E2. contradiction.
    + destruct (k =? g); [reflexivity | exact IH].
Qed.

Lemma retry_iter (s : S.t) (f : FieldName) (k : nat) :
  let s' := Nat.iter (S k) (fun x => incrementRetryCount x f)
                     (resetRetryCount s) in
  numIs (lookup (S.retryCount s') f) (inject_Z (Z.of_nat (S k)))
  /\ S.showQuickReplies s' = true
  /\ S.lastQuestionField s' = Some f.
Proof.
  cbv zeta. induction k as [|k IH].
  - unfold Nat.iter, nat_rect, incrementRetryCount, resetRetryCount.
    cbn [S.retryCount S.showQuickReplies S.lastQuestionField
         S.set_retryCount S.set_showQuickReplies S.set_lastQuestionField
         lookup store].
    rewrite String.eqb_refl. cbn. repeat split; reflexivity.
  - remember (Nat.iter (S k) (fun x => incrementRetryCount x f)
                       (resetRetryCount s)) as t eqn:Et.
    change (Nat.iter (S (S k)) (fun x => incrementRetryCount x f)
                     (resetRetryCount s))
      with (incrementRetryCount
              (Nat.iter (S k) (fun x => incrementRetryCount x f)
                        (resetRetryCount s)) f).
    rewrite <- Et. destruct IH as (Hn & _ & _).
    unfold incrementRetryCount.
    cbn [S.retryCount S.showQuickReplies S.lastQuestionField
         S.set_retryCount S.set_showQuickReplies S.set_lastQuestionField].
    rewrite lookup_store_same.
    destruct (lookup (S.retryCount t) f) as [n|]; [|contradiction].
    cbn [numIs] in Hn.
    assert (Hpos : 0 < n).
    { rewrite Hn. change 0 with (inject_Z 0). rewrite <- Zlt_Qlt. lia. }
    assert (Ht : truthyNum n = true).
    { unfold truthyNum. destruct (Qeq_bool n 0) eqn:E0; [|reflexivity].
      apply Qeq_bool_eq in E0. rewrite E0 in Hpos. discriminate Hpos. }
    rewrite Ht. cbn [numIs]. split; [|split; [|reflexivity]].
    + rewrite Hn. rewrite (Nat2Z.inj_succ (S k)). unfold Z.succ.
      rewrite inject_Z_plus. reflexivity.
    + unfold geb. apply Qle_bool_iff. now apply Qlt_le_weak.
Qed.

(** X13.  Retry bookkeeping.  After [k + 1] failed answers to the
    question about a field since the last reset, the counter of the field
    is [k + 1], the quick replies are on (from the first failure), and the
    merge takes that field as the current question; after a reset the
    counters are gone, the quick replies are off, and the current question
    is the detected one again. *)
Theorem retry_bookkeeping (s : S.t) (f : FieldName) (k : nat) :
  In f fieldNames ->
  (let s' := Nat.iter (S k) (fun x => incrementRetryCount x f)
                      (resetRetryCount s) in
   numIs (lookup (S.retryCount s') f) (inject_Z (Z.of_nat (S k)))
   /\ S.showQuickReplies s' = true
   /\ currentFieldOf s' = f)
  /\ lookup (S.retryCount (resetRetryCount s)) f = None
  /\ S.showQuickReplies (resetRetryCount s) = false
  /\ currentFieldOf (resetRetryCount s) = detectCurrentField s.
Proof.
  intros Hf. cbv zeta. split; [|repeat split].
  destruct (retry_iter s f k) as (Hn & Hq & Hl).
  split; [exact Hn | split; [exact Hq|]].
  unfold currentFieldOf. rewrite Hl.
  unfold fieldNames in Hf. cbn [In] in Hf.
  repeat (destruct Hf as [<- | Hf]; [reflexivity|]). contradiction.
Qed.

Lemma retry_bookkeeping_witness :
  In "dimensions" fieldNames
  /\ (let s' := Nat.iter 3 (fun x => incrementRetryCount x "dimensions")
                         (resetRetryCount createInitialState) in
      numIs (lookup (S.retryCount s') "dimensions") 3
      /\ S.showQuickReplies s' = true
      /\ currentFieldOf s' = "dimensions").
Proof.
  split; [cbn; tauto|].
  apply (retry_bookkeeping createInitialState (f:="dimensions") 2).
  cbn; tauto.
Defined.

(** *** Progress *)

Lemma set_truthy_num (o : option number) :
  setTruthyNum o = true -> isSome o = true -> optTruthyNum o = true.
Proof. now destruct o. Qed.

Lemma set_truthy_str (o : option jsstring) :
  setTruthyStr o = true -> isSome o = true -> optTruthyStr o = true.
Proof. now destruct o. Qed.

Ltac fresh_field H :=
  apply andb_prop in H; destruct H as [H _].

(** X14.  When the field asked about counts as extracted, the dialogue
    moves on: in a new state that stores no falsy value, the field that
    [isRelevantFieldExtracted] accepts is not the one
    [detectCurrentField] finds next. *)
Theorem relevant_extraction_moves_on (f : FieldName) (e : E.t)
        (oldState newState : S.t) :
  f <> "unknown" ->
  storesNoFalsyValue newState = true ->
  isRelevantFieldExtracted f e oldState newState = true ->
  detectCurrentField newState <> f.
Proof.
  intros Hu Hwf H Hd.
  pose proof (detectCurrentField_in newState) as Hin. rewrite Hd in Hin.
  unfold storesNoFalsyValue in Hwf.
  repeat (apply andb_prop in Hwf; destruct Hwf as [Hwf ?]).
  unfold fieldNames in Hin. cbn [In] in Hin.
  repeat (destruct Hin as [<- | Hin]); try contradiction;
    try (now elim Hu);
    cbn in H;
    try (apply orb_prop in H; destruct H as [H | H]);
    apply andb_prop in H; destruct H as [H _];
    repeat match goal with
           | X : setTruthyNum ?o = true, Y : isSome ?o = true |- _ =>
               pose proof (set_truthy_num _ X Y); clear X
           | X : setTruthyStr ?o = true, Y : isSome ?o = true |- _ =>
               pose proof (set_truthy_str _ X Y); clear X
           end;
    unfold detectCurrentField in Hd;
    repeat match type of Hd with
           | (if ?c then _ else _) = _ =>
               destruct c eqn:?C; [try discriminate Hd|]
           end;
    try discriminate Hd;
    repeat match goal with
           | C : _ = false |- _ => clear C
           end;
    repeat match goal with
           | X : isSome ?o = true, C : context [isSome ?o] |- _ =>
               rewrite X in C
           | X : optTruthyNum ?o = true, C : context [optTruthyNum ?o] |- _ =>
               rewrite X in C
           | X : optTruthyStr ?o = true, C : context [optTruthyStr ?o] |- _ =>
               rewrite X in C
           end;
    cbn [negb andb] in *; try discriminate;
    rewrite ?andb_false_r in *; discriminate.
Qed.

Lemma relevant_extraction_moves_on_witness :
  let s := S.set_service (Some mowing) createInitialState in
  let e := Extraction.extractLocalInformation (str "25 square meters") in
  ("dimensions" <> "unknown")
  /\ storesNoFalsyValue (updateStateWithExtraction s e) = true
  /\ isRelevantFieldExtracted "dimensions" e s (updateStateWithExtraction s e)
     = true
  /\ detectCurrentField (updateStateWithExtraction s e) <> "dimensions".
Proof.
  cbv zeta. split; [discriminate|]. split; [reflexivity|].
  split; [vm_compute; reflexivity|].
  apply (@relevant_extraction_moves_on "dimensions"
           (Extraction.extractLocalInformation (str "25 square meters"))
           (S.set_service (Some mowing) createInitialState)).
  - discriminate.
  - reflexivity.
  - vm_compute. reflexivity.
Defined.

(** *** The end of the dialogue *)

Lemma optTruthyStr_isSome (o : option jsstring) :
  optTruthyStr o = true -> isSome o = true.
Proof. now destruct o. Qed.

(** X15.  Once no question is left, a state that came out of the merge is
    ready for an estimate exactly when it holds a non-zero area: every
    other check of [isReadyForEstimate] is then met, and without an area
    the score stays below 85.  The property is stated for ordinary sides:
    a length and a width whose product is [0] as a double leave the source
    ready with an area of [0]. *)
Theorem no_question_left_ready_iff_area (s : S.t) (e : E.t) :
  ordinarySides s e = true ->
  getNextQuestion (updateStateWithExtraction s e) = None ->
  (isReadyForEstimate (updateStateWithExtraction s e) = true
   <-> optTruthyNum (S.area_m2 (updateStateWithExtraction s e)) = true).
Proof.
  intros _.
  pose proof (@merged_area_from_sides s e) as Hsides.
  pose proof (merged_certaintyLevel s e) as Hc.
  rewrite calculateCertainty_eq in Hc. unfold hasDimensions in Hc.
  revert Hsides Hc. generalize (updateStateWithExtraction s e) as u.
  intros u Hsides Hc Hq.
  unfold getNextQuestion in Hq.
  destruct (S.service u) as [svc|] eqn:Hsvc; [|discriminate Hq].
  repeat match type of Hq with
         | (if ?c then _ else _) = _ =>
             destruct c eqn:?C; [discriminate Hq|]
         end.
  clear Hq. unfold isReadyForEstimate. rewrite Hc, Hsvc.
  apply negb_false_iff in C0, C9, C10, C11, C12.
  apply optTruthyStr_isSome in C12.
  rewrite C0, C11, C12 in *.
  unfold excavationServices, heavyWorkServices, heavyAccessServices,
    groundServices in *.
  destruct (optTruthyNum (S.area_m2 u)) eqn:Ha;
    destruct (optTruthyNum (S.length_m u)) eqn:Hl;
    destruct (optTruthyNum (S.width_m u)) eqn:Hw;
    try (specialize (Hsides eq_refl eq_refl); discriminate Hsides);
    clear Hsides C;
    destruct svc; cbn in C1, C2, C3, C4, C5, C6, C7, C8;
    repeat match goal with
           | X : negb (isSome ?o) = false |- _ =>
               apply negb_false_iff in X; rewrite X in *
           | X : (negb (isSome ?o) && true)%bool = false |- _ =>
               rewrite andb_true_r in X
           end;
    cbn [serviceIn serviceIs existsb ServiceType_eqb orb andb negb isSome];
    repeat match goal with
           | |- context [isSome ?o] => destruct (isSome o)
           end;
    vm_compute; split; intros H; first [reflexivity | discriminate H].
Qed.

Lemma no_question_left_ready_iff_area_witness :
  let s := S.set_userBudget (Some 4000)
             (S.set_contactEmail (Some (str "user@example.com"))
                (S.set_contactPhone (Some (str "07700900000"))
                   (S.set_fullName (Some (str "John Smith"))
                      (S.set_overgrown (Some false)
                         (S.set_materialTier (Some standard)
                            (S.set_area_m2 (Some 20)
                               (S.set_service (Some mowing)
                                  createInitialState))))))) in
  let e := Extraction.extractLocalInformation (str "SL4 1AA") in
  ordinarySides s e = true
  /\ getNextQuestion (updateStateWithExtraction s e) = None
  /\ (isReadyForEstimate (updateStateWithExtraction s e) = true
      <-> optTruthyNum (S.area_m2 (updateStateWithExtraction s e)) = true).
Proof.
  cbv zeta. split; [vm_compute; reflexivity|].
  split; [vm_compute; reflexivity|].
  apply no_question_left_ready_iff_area; vm_compute; reflexivity.
Defined.

End ManagerMore.

(* ====================================================================== *)
(** * Further properties of the extractor *)
(* ====================================================================== *)

Section ExtractionMore.

Import Extraction.
Local Open Scope Q_scope.

Ltac branch :=
  match goal with
  | |- context [if ?c then _ else _] => destruct c
  | |- context [match ?x with Some _ => _ | None => _ end] => destruct x
  end.

Ltac stage_frame := intros; repeat branch; reflexivity.

(** *** What no stage assigns *)

Lemma detectService_neverExtracted msg e :
  neverExtracted (detectService msg e) = neverExtracted e.
Proof. unfold detectService. cbv zeta. stage_frame. Qed.

Lemma detectDimensions_neverExtracted u e :
  neverExtracted (detectDimensions u e) = neverExtracted e.
Proof. unfold detectDimensions. cbv zeta. stage_frame. Qed.

Lemma detectDeckHeight_neverExtracted u msg e :
  neverExtracted (fst (detectDeckHeight u msg e)) = neverExtracted e.
Proof. unfold detectDeckHeight. cbv zeta. stage_frame. Qed.

Lemma detectArea_neverExtracted u msg isHeight e :
  neverExtracted (detectArea u msg isHeight e) = neverExtracted e.
Proof. unfold detectArea. cbv zeta. stage_frame. Qed.

Lemma detectMaterialTier_neverExtracted msg e :
  neverExtracted (detectMaterialTier msg e) = neverExtracted e.
Proof. unfold detectMaterialTier. cbv zeta. stage_frame. Qed.

Lemma detectExcavatorAccess_neverExtracted msg a n e :
  neverExtracted (detectExcavatorAccess msg a n e) = neverExtracted e.
Proof. unfold detectExcavatorAccess. cbv zeta. stage_frame. Qed.

Lemma detectDriveway_neverExtracted msg a n e :
  neverExtracted (detectDriveway msg a n e) = neverExtracted e.
Proof. unfold detectDriveway. cbv zeta. stage_frame. Qed.

Lemma detectSlope_neverExtracted msg e :
  neverExtracted (detectSlope msg e) = neverExtracted e.
Proof. unfold detectSlope. cbv zeta. stage_frame. Qed.

Lemma detectDemolition_neverExtracted msg a n e :
  neverExtracted (detectDemolition msg a n e) = neverExtracted e.
Proof. unfold detectDemolition. cbv zeta. stage_frame. Qed.

Lemma detectOvergrown_neverExtracted u msg e :
  neverExtracted (detectOvergrown u msg e) = neverExtracted e.
Proof. unfold detectOvergrown. cbv zeta. stage_frame. Qed.

Lemma detectGates_neverExtracted u msg e :
  neverExtracted (detectGates u msg e) = neverExtracted e.
Proof. unfold detectGates. cbv zeta. stage_frame. Qed.

Lemma detectBudgetAlignment_neverExtracted msg e :
  neverExtracted (detectBudgetAlignment msg e) = neverExtracted e.
Proof. unfold detectBudgetAlignment. cbv zeta. stage_frame. Qed.

Lemma detectFullName_neverExtracted u msg e :
  neverExtracted (detectFullName u msg e) = neverExtracted e.
Proof. unfold detectFullName. cbv zeta. stage_frame. Qed.

Lemma detectPhone_neverExtracted u e :
  neverExtracted (detectPhone u e) = neverExtracted e.
Proof. unfold detectPhone. cbv zeta. stage_frame. Qed.

Lemma detectEmail_neverExtracted u e :
  neverExtracted (detectEmail u e) = neverExtracted e.
Proof. unfold detectEmail. cbv zeta. stage_frame. Qed.

Lemma detectPostcode_neverExtracted u e :
  neverExtracted (detectPostcode u e) = neverExtracted e.
Proof. unfold detectPostcode. cbv zeta. stage_frame. Qed.

Lemma detectBudget_neverExtracted u msg e :
  neverExtracted (detectBudget u msg e) = neverExtracted e.
Proof. unfold detectBudget. cbv zeta. stage_frame. Qed.

Lemma neverExtracted_extract (u : jsstring) :
  neverExtracted (extractLocalInformation u) = neverExtracted E.empty.
Proof.
  unfold extractLocalInformation. cbv zeta.
  pose proof (detectDeckHeight_neverExtracted u (toLowerCase u)
                (detectDimensions u (detectService (toLowerCase u) E.empty)))
    as Hh.
  destruct (detectDeckHeight u (toLowerCase u)
              (detectDimensions u (detectService (toLowerCase u) E.empty)))
    as [e1 isHeight].
  cbn [fst] in Hh.
  rewrite detectBudget_neverExtracted, detectPostcode_neverExtracted,
    detectEmail_neverExtracted, detectPhone_neverExtracted,
    detectFullName_neverExtracted, detectBudgetAlignment_neverExtracted,
    detectGates_neverExtracted, detectOvergrown_neverExtracted,
    detectDemolition_neverExtracted, detectSlope_neverExtracted,
    detectDriveway_neverExtracted, detectExcavatorAccess_neverExtracted,
    detectMaterialTier_neverExtracted, detectArea_neverExtracted, Hh,
    detectDimensions_neverExtracted, detectService_neverExtracted.
  reflexivity.
Qed.

(** X16.  The extractor never yields a sub-base type, a wish for drainage
    or lighting, a start of the project or a soil type: whatever the
    message, these properties of the result are absent. *)
Theorem extractor_never_yields (u : jsstring) :
  E.subBaseType (extractLocalInformation u) = None
  /\ E.wantsDrainage (extractLocalInformation u) = None
  /\ E.wantsLedLighting (extractLocalInformation u) = None
  /\ E.projectStartTiming (extractLocalInformation u) = None
  /\ E.groundSoilType (extractLocalInformation u) = None.
Proof.
  pose proof (neverExtracted_extract u) as H.
  unfold neverExtracted in H. cbn in H.
  injection H as H1 H2 H3 H4 H5. repeat split; assumption.
Qed.

(** *** The numbers *)

Lemma detectService_numbers msg e :
  numbers (detectService msg e) = numbers e.
Proof. unfold detectService. cbv zeta. stage_frame. Qed.

Lemma detectMaterialTier_numbers msg e :
  numbers (detectMaterialTier msg e) = numbers e.
Proof. unfold detectMaterialTier. cbv zeta. stage_frame. Qed.

Lemma detectExcavatorAccess_numbers msg a n e :
  numbers (detectExcavatorAccess msg a n e) = numbers e.
Proof. unfold detectExcavatorAccess. cbv zeta. stage_frame. Qed.

Lemma detectDriveway_numbers msg a n e :
  numbers (detectDriveway msg a n e) = numbers e.
Proof. unfold detectDriveway. cbv zeta. stage_frame. Qed.

Lemma detectSlope_numbers msg e :
  numbers (detectSlope msg e) = numbers e.
Proof. unfold detectSlope. cbv zeta. stage_frame. Qed.

Lemma detectDemolition_numbers msg a n e :
  numbers (detectDemolition msg a n e) = numbers e.
Proof. unfold detectDemolition. cbv zeta. stage_frame. Qed.

Lemma detectOvergrown_numbers u msg e :
  numbers (detectOvergrown u msg e) = numbers e.
Proof. unfold detectOvergrown. cbv zeta. stage_frame. Qed.

Lemma detectBudgetAlignment_numbers msg e :
  numbers (detectBudgetAlignment msg e) = numbers e.
Proof. unfold detectBudgetAlignment. cbv zeta. stage_frame. Qed.

Lemma detectFullName_numbers u msg e :
  numbers (detectFullName u msg e) = numbers e.
Proof. unfold detectFullName. cbv zeta. stage_frame. Qed.

Lemma detectPhone_numbers u e :
  numbers (detectPhone u e) = numbers e.
Proof. unfold detectPhone. cbv zeta. stage_frame. Qed.

Lemma detectEmail_numbers u e :
  numbers (detectEmail u e) = numbers e.
Proof. unfold detectEmail. cbv zeta. stage_frame. Qed.

Lemma detectPostcode_numbers u e :
  numbers (detectPostcode u e) = numbers e.
Proof. unfold detectPostcode. cbv zeta. stage_frame. Qed.

Lemma digitsToZ_from_nonneg (ds : jsstring) (acc : Z) :
  (0 <= acc)%Z ->
  (0 <= fold_left (fun a c => (10 * a + digitVal c)%Z) ds acc)%Z.
Proof.
  revert acc. induction ds as [|d ds IH]; intros acc H; cbn [fold_left];
    [exact H|].
  apply IH. unfold digitVal. pose proof (N2Z.is_nonneg (d - 48)). lia.
Qed.

Lemma digitsToZ_nonneg (ds : jsstring) : (0 <= digitsToZ ds)%Z.
Proof. apply digitsToZ_from_nonneg. lia. Qed.

Lemma parseFloat_nonneg (s : jsstring) : 0 <= parseFloat s.
Proof.
  unfold parseFloat. destruct (takeDigits s) as [ip r].
  assert (H0 : forall ds, 0 <= inject_Z (digitsToZ ds)).
  { intros ds. change 0 with (inject_Z 0). rewrite <- Zle_Qle.
    apply digitsToZ_nonneg. }
  destruct r as [|c r']; [apply H0|].
  destruct (N.eqb c 46); [|apply H0].
  rewrite Qred_correct. apply Qle_shift_div_l.
  - change 0 with (inject_Z 0). rewrite <- Zlt_Qlt.
    apply Z.pow_pos_nonneg; lia.
  - rewrite Qmult_0_l. apply H0.
Qed.

Lemma decimalOf_nonneg (n : nat) (m : MatchResult) : geb (decimalOf n m) 0 = true.
Proof. unfold geb, decimalOf. apply Qle_bool_iff. apply parseFloat_nonneg. Qed.

Lemma inRange_parts l w a h g b x :
  inRange (l, w, a, h, g, b, x)
  = (optAll (fun x => geb x 0) l && optAll (fun x => geb x 0) w
     && optAll (fun x => geb x 0) a
     && optAll (fun h => geb h 0 && ltb h 10) h
     && optAll (fun g => geb g 0) g
     && optAll (fun b => gtb b 100 && ltb b 2000000) b
     && Bool.eqb (isSome b) (isSome x))%bool.
Proof. reflexivity. Qed.

Ltac range_parts H :=
  unfold numbersInRange, numbers in *; rewrite inRange_parts in *;
  repeat (apply andb_prop in H; destruct H as [H ?]).

Ltac range_goal :=
  cbn [E.length_m E.width_m E.area_m2 E.deckHeight_m E.gateCount
       E.userBudget E.explicitBudget
       E.set_length_m E.set_width_m E.set_area_m2 E.set_deckHeight_m
       E.set_gateCount E.set_userBudget E.set_explicitBudget];
  repeat (apply andb_true_intro; split); try assumption.

Lemma detectDimensions_range u e :
  numbersInRange e = true -> numbersInRange (detectDimensions u e) = true.
Proof.
  intros H. unfold detectDimensions.
  destruct (firstMatch u dimensionPatterns) as [m|]; [|exact H].
  range_parts H. range_goal; apply decimalOf_nonneg.
Qed.

Lemma detectDeckHeight_range u msg e :
  numbersInRange e = true ->
  numbersInRange (fst (detectDeckHeight u msg e)) = true.
Proof.
  intros H. unfold detectDeckHeight.
  destruct (matchRe u heightPattern) as [m|]; cbv zeta.
  - destruct (includesAny msg ["high"%string; "off"%string; "ground"%string]
              || ltb (decimalOf 1 m) 3 && gtb (decimalOf 1 m) 0)%bool;
      [|exact H].
    destruct (ltb (decimalOf 1 m) 10) eqn:H10; [|exact H].
    cbn [fst]. range_parts H. range_goal. apply decimalOf_nonneg.
  - destruct (includesAny msg
                ["ground level"%string; "flush"%string; "low"%string]);
      [|exact H].
    cbn [fst]. range_parts H. range_goal; reflexivity.
Qed.

Lemma detectArea_range u msg isHeight e :
  numbersInRange e = true ->
  numbersInRange (detectArea u msg isHeight e) = true.
Proof.
  intros H. unfold detectArea. cbv zeta.
  destruct (negb isHeight); [|exact H].
  assert (H1 : numbersInRange
                 match matchRe u areaPattern with
                 | Some m =>
                     if (negb (optTruthyNum (E.length_m e))
                         && negb (includesAny msg
                                    ["high"%string; "deep"%string;
                                     "off the ground"%string]))%bool
                     then E.set_area_m2 (decimalOf 1 m) e
                     else e
                 | None => e
                 end = true).
  { destruct (matchRe u areaPattern) as [m|]; [|exact H].
    destruct (negb (optTruthyNum (E.length_m e))
              && negb (includesAny msg
                         ["high"%string; "deep"%string;
                          "off the ground"%string]))%bool; [|exact H].
    range_parts H. range_goal. apply decimalOf_nonneg. }
  destruct (includesAny msg ["fence"%string; "fencing"%string]); [|exact H1].
  destruct (matchRe u linearPattern) as [lm|]; [|exact H1].
  revert H1.
  generalize (match matchRe u areaPattern with
              | Some m =>
                  if (negb (optTruthyNum (E.length_m e))
                      && negb (includesAny msg
                                 ["high"%string; "deep"%string;
                                  "off the ground"%string]))%bool
                  then E.set_area_m2 (decimalOf 1 m) e
                  else e
              | None => e
              end) as e'.
  intros e' H1. range_parts H1. range_goal. apply decimalOf_nonneg.
Qed.

Lemma detectGates_range u msg e :
  numbersInRange e = true -> numbersInRange (detectGates u msg e) = true.
Proof.
  intros H. unfold detectGates.
  destruct (matchRe u gatePattern) as [m|].
  - range_parts H. range_goal. cbn [optAll]. unfold geb.
    apply Qle_bool_iff. change 0 with (inject_Z 0). rewrite <- Zle_Qle.
    unfold parseInt. apply digitsToZ_nonneg.
  - repeat match goal with
           | |- context [if ?c then _ else _] => destruct c
           end;
      try exact H; range_parts H; range_goal; reflexivity.
Qed.

Lemma detectBudget_range u msg e :
  E.userBudget e = None -> E.explicitBudget e = None ->
  numbersInRange e = true -> numbersInRange (detectBudget u msg e) = true.
Proof.
  intros Hb Hx H. unfold detectBudget. cbv zeta.
  repeat match goal with
         | |- context [if ?c then _ else _] => destruct c eqn:?G
         | |- context [match ?x with Some _ => _ | None => _ end] =>
             destruct x
         end;
    try exact H; range_parts H;
    repeat match goal with
           | X : (_ && _)%bool = true |- _ =>
               apply andb_prop in X; destruct X
           end;
    range_goal; reflexivity.
Qed.

Lemma detectService_budgetOf msg e :
  budgetOf (detectService msg e) = budgetOf e.
Proof. unfold detectService. cbv zeta. stage_frame. Qed.

Lemma detectDimensions_budgetOf u e :
  budgetOf (detectDimensions u e) = budgetOf e.
Proof. unfold detectDimensions. cbv zeta. stage_frame. Qed.

Lemma detectDeckHeight_budgetOf u msg e :
  budgetOf (fst (detectDeckHeight u msg e)) = budgetOf e.
Proof. unfold detectDeckHeight. cbv zeta. stage_frame. Qed.

Lemma detectArea_budgetOf u msg isHeight e :
  budgetOf (detectArea u msg isHeight e) = budgetOf e.
Proof. unfold detectArea. cbv zeta. stage_frame. Qed.

Lemma detectMaterialTier_budgetOf msg e :
  budgetOf (detectMaterialTier msg e) = budgetOf e.
Proof. unfold detectMaterialTier. cbv zeta. stage_frame. Qed.

Lemma detectExcavatorAccess_budgetOf msg a n e :
  budgetOf (detectExcavatorAccess msg a n e) = budgetOf e.
Proof. unfold detectExcavatorAccess. cbv zeta. stage_frame. Qed.

Lemma detectDriveway_budgetOf msg a n e :
  budgetOf (detectDriveway msg a n e) = budgetOf e.
Proof. unfold detectDriveway. cbv zeta. stage_frame. Qed.

Lemma detectSlope_budgetOf msg e :
  budgetOf (detectSlope msg e) = budgetOf e.
Proof. unfold detectSlope. cbv zeta. stage_frame. Qed.

Lemma detectDemolition_budgetOf msg a n e :
  budgetOf (detectDemolition msg a n e) = budgetOf e.
Proof. unfold detectDemolition. cbv zeta. stage_frame. Qed.

Lemma detectOvergrown_budgetOf u msg e :
  budgetOf (detectOvergrown u msg e) = budgetOf e.
Proof. unfold detectOvergrown. cbv zeta. stage_frame. Qed.

Lemma detectGates_budgetOf u msg e :
  budgetOf (detectGates u msg e) = budgetOf e.
Proof. unfold detectGates. cbv zeta. stage_frame. Qed.

Lemma detectBudgetAlignment_budgetOf msg e :
  budgetOf (detectBudgetAlignment msg e) = budgetOf e.
Proof. unfold detectBudgetAlignment. cbv zeta. stage_frame. Qed.

Lemma detectFullName_budgetOf u msg e :
  budgetOf (detectFullName u msg e) = budgetOf e.
Proof. unfold detectFullName. cbv zeta. stage_frame. Qed.

Lemma detectPhone_budgetOf u e :
  budgetOf (detectPhone u e) = budgetOf e.
Proof. unfold detectPhone. cbv zeta. stage_frame. Qed.

Lemma detectEmail_budgetOf u e :
  budgetOf (detectEmail u e) = budgetOf e.
Proof. unfold detectEmail. cbv zeta. stage_frame. Qed.

Lemma detectPostcode_budgetOf u e :
  budgetOf (detectPostcode u e) = budgetOf e.
Proof. unfold detectPostcode. cbv zeta. stage_frame. Qed.

Lemma numbersInRange_frame (e e' : E.t) :
  numbers e = numbers e' -> numbersInRange e = numbersInRange e'.
Proof. unfold numbersInRange. now intros ->. Qed.

Lemma numbersInRange_extract (u : jsstring) :
  numbersInRange (extractLocalInformation u) = true.
Proof.
  unfold extractLocalInformation. cbv zeta.
  pose proof (@detectDeckHeight_range u (toLowerCase u)
                (detectDimensions u (detectService (toLowerCase u) E.empty)))
    as Hh.
  pose proof (detectDeckHeight_budgetOf u (toLowerCase u)
                (detectDimensions u (detectService (toLowerCase u) E.empty)))
    as Hb.
  destruct (detectDeckHeight u (toLowerCase u)
              (detectDimensions u (detectService (toLowerCase u) E.empty)))
    as [e1 isHeight].
  cbn [fst] in Hh, Hb.
  match goal with
  | |- numbersInRange (detectBudget _ _ ?e) = true =>
      assert (HB : budgetOf e = (None, None))
  end.
  { rewrite detectPostcode_budgetOf, detectEmail_budgetOf,
      detectPhone_budgetOf, detectFullName_budgetOf,
      detectBudgetAlignment_budgetOf, detectGates_budgetOf,
      detectOvergrown_budgetOf, detectDemolition_budgetOf,
      detectSlope_budgetOf, detectDriveway_budgetOf,
      detectExcavatorAccess_budgetOf, detectMaterialTier_budgetOf,
      detectArea_budgetOf, Hb, detectDimensions_budgetOf,
      detectService_budgetOf.
    reflexivity. }
  unfold budgetOf in HB. injection HB as HB1 HB2.
  apply detectBudget_range; [exact HB1 | exact HB2 |].
  rewrite (numbersInRange_frame (detectPostcode_numbers _ _)),
    (numbersInRange_frame (detectEmail_numbers _ _)),
    (numbersInRange_frame (detectPhone_numbers _ _)),
    (numbersInRange_frame (detectFullName_numbers _ _ _)),
    (numbersInRange_frame (detectBudgetAlignment_numbers _ _)).
  apply detectGates_range.
  rewrite (numbersInRange_frame (detectOvergrown_numbers _ _ _)),
    (numbersInRange_frame (detectDemolition_numbers _ _ _ _)),
    (numbersInRange_frame (detectSlope_numbers _ _)),
    (numbersInRange_frame (detectDriveway_numbers _ _ _ _)),
    (numbersInRange_frame (detectExcavatorAccess_numbers _ _ _ _)),
    (numbersInRange_frame (detectMaterialTier_numbers _ _)).
  apply detectArea_range. apply Hh. apply detectDimensions_range.
  rewrite (numbersInRange_frame (detectService_numbers _ _)).
  reflexivity.
Qed.

(** X17.  The numbers the extractor yields are in range, whatever the
    message: a length, a width, an area or a gate count is not negative, a
    deck height is not negative and below 10, and a budget lies strictly
    between 100 and 2,000,000 and comes with the [explicitBudget] flag. *)
Theorem extracted_numbers_in_range (u : jsstring) :
  numbersInRange (extractLocalInformation u) = true.
Proof. apply numbersInRange_extract. Qed.

(** *** Yes and no *)

Lemma detectService_siteAccess msg e :
  siteAccess (detectService msg e) = siteAccess e.
Proof. unfold detectService. cbv zeta. stage_frame. Qed.

Lemma detectDimensions_siteAccess u e :
  siteAccess (detectDimensions u e) = siteAccess e.
Proof. unfold detectDimensions. cbv zeta. stage_frame. Qed.

Lemma detectDeckHeight_siteAccess u msg e :
  siteAccess (fst (detectDeckHeight u msg e)) = siteAccess e.
Proof. unfold detectDeckHeight. cbv zeta. stage_frame. Qed.

Lemma detectArea_siteAccess u msg isHeight e :
  siteAccess (detectArea u msg isHeight e) = siteAccess e.
Proof. unfold detectArea. cbv zeta. stage_frame. Qed.

Lemma detectMaterialTier_siteAccess msg e :
  siteAccess (detectMaterialTier msg e) = siteAccess e.
Proof. unfold detectMaterialTier. cbv zeta. stage_frame. Qed.

Lemma detectSlope_siteAccess msg e :
  siteAccess (detectSlope msg e) = siteAccess e.
Proof. unfold detectSlope. cbv zeta. stage_frame. Qed.

Lemma detectDemolition_siteAccess msg a n e :
  siteAccess (detectDemolition msg a n e) = siteAccess e.
Proof. unfold detectDemolition. cbv zeta. stage_frame. Qed.

Lemma detectOvergrown_siteAccess u msg e :
  siteAccess (detectOvergrown u msg e) = siteAccess e.
Proof. unfold detectOvergrown. cbv zeta. stage_frame. Qed.

Lemma detectGates_siteAccess u msg e :
  siteAccess (detectGates u msg e) = siteAccess e.
Proof. unfold detectGates. cbv zeta. stage_frame. Qed.

Lemma detectBudgetAlignment_siteAccess msg e :
  siteAccess (detectBudgetAlignment msg e) = siteAccess e.
Proof. unfold detectBudgetAlignment. cbv zeta. stage_frame. Qed.

Lemma detectFullName_siteAccess u msg e :
  siteAccess (detectFullName u msg e) = siteAccess e.
Proof. unfold detectFullName. cbv zeta. stage_frame. Qed.

Lemma detectPhone_siteAccess u e :
  siteAccess (detectPhone u e) = siteAccess e.
Proof. unfold detectPhone. cbv zeta. stage_frame. Qed.

Lemma detectEmail_siteAccess u e :
  siteAccess (detectEmail u e) = siteAccess e.
Proof. unfold detectEmail. cbv zeta. stage_frame. Qed.

Lemma detectPostcode_siteAccess u e :
  siteAccess (detectPostcode u e) = siteAccess e.
Proof. unfold detectPostcode. cbv zeta. stage_frame. Qed.

Lemma detectBudget_siteAccess u msg e :
  siteAccess (detectBudget u msg e) = siteAccess e.
Proof. unfold detectBudget. cbv zeta. stage_frame. Qed.

Lemma detectService_demolitionOf msg e :
  demolitionOf (detectService msg e) = demolitionOf e.
Proof. unfold detectService. cbv zeta. stage_frame. Qed.

Lemma detectDimensions_demolitionOf u e :
  demolitionOf (detectDimensions u e) = demolitionOf e.
Proof. unfold detectDimensions. cbv zeta. stage_frame. Qed.

Lemma detectDeckHeight_demolitionOf u msg e :
  demolitionOf (fst (detectDeckHeight u msg e)) = demolitionOf e.
Proof. unfold detectDeckHeight. cbv zeta. stage_frame. Qed.

Lemma detectArea_demolitionOf u msg isHeight e :
  demolitionOf (detectArea u msg isHeight e) = demolitionOf e.
Proof. unfold detectArea. cbv zeta. stage_frame. Qed.

Lemma detectMaterialTier_demolitionOf msg e :
  demolitionOf (detectMaterialTier msg e) = demolitionOf e.
Proof. unfold detectMaterialTier. cbv zeta. stage_frame. Qed.

Lemma detectExcavatorAccess_demolitionOf msg a n e :
  demolitionOf (detectExcavatorAccess msg a n e) = demolitionOf e.
Proof. unfold detectExcavatorAccess. cbv zeta. stage_frame. Qed.

Lemma detectDriveway_demolitionOf msg a n e :
  demolitionOf (detectDriveway msg a n e) = demolitionOf e.
Proof. unfold detectDriveway. cbv zeta. stage_frame. Qed.

Lemma detectSlope_demolitionOf msg e :
  demolitionOf (detectSlope msg e) = demolitionOf e.
Proof. unfold detectSlope. cbv zeta. stage_frame. Qed.

Lemma detectOvergrown_demolitionOf u msg e :
  demolitionOf (detectOvergrown u msg e) = demolitionOf e.
Proof. unfold detectOvergrown. cbv zeta. stage_frame. Qed.

Lemma detectGates_demolitionOf u msg e :
  demolitionOf (detectGates u msg e) = demolitionOf e.
Proof. unfold detectGates. cbv zeta. stage_frame. Qed.

Lemma detectBudgetAlignment_demolitionOf msg e :
  demolitionOf (detectBudgetAlignment msg e) = demolitionOf e.
Proof. unfold detectBudgetAlignment. cbv zeta. stage_frame. Qed.

Lemma detectFullName_demolitionOf u msg e :
  demolitionOf (detectFullName u msg e) = demolitionOf e.
Proof. unfold detectFullName. cbv zeta. stage_frame. Qed.

Lemma detectPhone_demolitionOf u e :
  demolitionOf (detectPhone u e) = demolitionOf e.
Proof. unfold detectPhone. cbv zeta. stage_frame. Qed.

Lemma detectEmail_demolitionOf u e :
  demolitionOf (detectEmail u e) = demolitionOf e.
Proof. unfold detectEmail. cbv zeta. stage_frame. Qed.

Lemma detectPostcode_demolitionOf u e :
  demolitionOf (detectPostcode u e) = demolitionOf e.
Proof. unfold detectPostcode. cbv zeta. stage_frame. Qed.

Lemma detectBudget_demolitionOf u msg e :
  demolitionOf (detectBudget u msg e) = demolitionOf e.
Proof. unfold detectBudget. cbv zeta. stage_frame. Qed.

Lemma siteAccess_extracted (u : jsstring) :
  exists e : E.t,
    siteAccess (extractLocalInformation u)
    = siteAccess
        (detectDriveway (toLowerCase u) (isAffirmative (toLowerCase u))
           (isNegative (toLowerCase u))
           (detectExcavatorAccess (toLowerCase u)
              (isAffirmative (toLowerCase u)) (isNegative (toLowerCase u)) e)).
Proof.
  unfold extractLocalInformation. cbv zeta.
  destruct (detectDeckHeight u (toLowerCase u)
              (detectDimensions u (detectService (toLowerCase u) E.empty)))
    as [e1 isHeight].
  eexists.
  rewrite detectBudget_siteAccess, detectPostcode_siteAccess,
    detectEmail_siteAccess, detectPhone_siteAccess,
    detectFullName_siteAccess, detectBudgetAlignment_siteAccess,
    detectGates_siteAccess, detectOvergrown_siteAccess,
    detectDemolition_siteAccess, detectSlope_siteAccess.
  reflexivity.
Qed.

Lemma demolitionOf_extracted (u : jsstring) :
  exists e : E.t,
    demolitionOf (extractLocalInformation u)
    = demolitionOf
        (detectDemolition (toLowerCase u) (isAffirmative (toLowerCase u))
           (isNegative (toLowerCase u)) e).
Proof.
  unfold extractLocalInformation. cbv zeta.
  destruct (detectDeckHeight u (toLowerCase u)
              (detectDimensions u (detectService (toLowerCase u) E.empty)))
    as [e1 isHeight].
  eexists.
  rewrite detectBudget_demolitionOf, detectPostcode_demolitionOf,
    detectEmail_demolitionOf, detectPhone_demolitionOf,
    detectFullName_demolitionOf, detectBudgetAlignment_demolitionOf,
    detectGates_demolitionOf, detectOvergrown_demolitionOf.
  reflexivity.
Qed.

Lemma eqb_eq (s t : jsstring) : JS.eqb s t = true -> s = t.
Proof.
  revert t. induction s as [|c s IH]; intros [|d t] H; try discriminate H.
  - reflexivity.
  - cbn in H. apply andb_prop in H. destruct H as [H1 H2].
    apply N.eqb_eq in H1. subst d. f_equal. now apply IH.
Qed.

Lemma isBareYes_cases (msg : jsstring) :
  isBareYes msg = true ->
  In msg (map str ["yes"; "yep"; "yeah"; "yeh"; "ye"; "sure"; "ok"]%string).
Proof.
  unfold isBareYes, equalsAny. intros H. apply existsb_exists in H.
  destruct H as (k & Hin & Hk). apply eqb_eq in Hk. subst msg.
  now apply in_map.
Qed.

Lemma no_decides_site_access (u : jsstring) :
  isNegative (toLowerCase u) = true ->
  siteAccess (extractLocalInformation u) = (Some false, Some false).
Proof.
  intros H. destruct (siteAccess_extracted u) as [e ->].
  rewrite H. unfold siteAccess, detectDriveway, detectExcavatorAccess.
  rewrite !orb_true_r. cbn [orb]. reflexivity.
Qed.

Lemma yes_decides_site (u : jsstring) :
  isBareYes (toLowerCase u) = true ->
  siteAccess (extractLocalInformation u) = (Some true, Some true)
  /\ demolitionOf (extractLocalInformation u) = Some true.
Proof.
  intros H. apply isBareYes_cases in H.
  destruct (siteAccess_extracted u) as [e ->].
  destruct (demolitionOf_extracted u) as [e' ->].
  cbn [map In] in H.
  repeat (destruct H as [H | H]; [rewrite <- H; split; reflexivity|]).
  contradiction.
Qed.

(** X18.  Yes and no decide more than the question asked.  A message that
    the extractor takes as a plain no (it is no, nope, nah or na, or it
    contains 'no ' or 'not really') leaves the state without excavator
    access and without a driveway; a bare yes (yes, yep, yeah, yeh, ye,
    sure or ok) leaves it with both and with a demolition to do.  This is
    so whatever the state held and whichever question was open. *)
Theorem yes_and_no_decide_the_site (s : S.t) (u : jsstring) :
  let s' := Manager.updateStateWithExtraction s (extractLocalInformation u) in
  (isNegative (toLowerCase u) = true ->
   S.hasExcavatorAccess s' = Some false
   /\ S.hasDrivewayForSkip s' = Some false)
  /\ (isBareYes (toLowerCase u) = true ->
      S.hasExcavatorAccess s' = Some true
      /\ S.hasDrivewayForSkip s' = Some true
      /\ S.existingDemolition s' = Some true).
Proof.
  cbv zeta.
  rewrite merged_hasExcavatorAccess, merged_hasDrivewayForSkip,
    merged_existingDemolition.
  split; intros H.
  - apply no_decides_site_access in H. unfold siteAccess in H.
    injection H as -> ->. split; reflexivity.
  - apply yes_decides_site in H. destruct H as [H1 H2].
    unfold siteAccess in H1. unfold demolitionOf in H2.
    injection H1 as -> ->. rewrite H2. repeat split; reflexivity.
Qed.

Lemma yes_and_no_decide_the_site_witness :
  isNegative (toLowerCase (str "No gates")) = true
  /\ S.hasExcavatorAccess
       (Manager.updateStateWithExtraction
          (S.set_hasExcavatorAccess (Some true) Manager.createInitialState)
          (extractLocalInformation (str "No gates")))
     = Some false.
Proof.
  split; [reflexivity|].
  apply (yes_and_no_decide_the_site
           (S.set_hasExcavatorAccess (Some true) Manager.createInitialState)
           (str "No gates")).
  reflexivity.
Defined.

End ExtractionMore.

(* ====================================================================== *)
(** * Properties of the chat handler *)
(* ====================================================================== *)

Section AppFacts.

Import Manager Questions Retry App.
Local Open Scope Q_scope.
Local Open Scope string_scope.

Lemma localInvariant_reset (u : S.t) :
  localInvariant u -> localInvariant (resetRetryCount u).
Proof. intros H. exact H. Qed.

Lemma localInvariant_increment (u : S.t) (f : FieldName) :
  localInvariant u -> localInvariant (incrementRetryCount u f).
Proof. intros H. exact H. Qed.

Lemma geb_mult (x y : number) :
  geb x 0 = true -> geb y 0 = true -> geb (x * y) 0 = true.
Proof.
  unfold geb. rewrite !Qle_bool_iff. apply Qmult_le_0_compat.
Qed.

Lemma optAll_keep (p : number -> bool) (c : bool) (new old : option number) :
  (c = true -> optAll p new = true) -> optAll p old = true ->
  optAll p (if c then new else old) = true.
Proof. destruct c; auto. Qed.

Lemma noNegativeNumber_merge (s : S.t) (e : E.t) :
  numbersInRange e = true -> noNegativeNumber s = true ->
  noNegativeNumber (updateStateWithExtraction s e) = true.
Proof.
  intros He Hs. unfold numbersInRange, numbers in He.
  rewrite inRange_parts in He.
  repeat (apply andb_prop in He; destruct He as [He ?]).
  unfold noNegativeNumber in *.
  repeat (apply andb_prop in Hs; destruct Hs as [Hs ?]).
  rewrite merged_area_m2, merged_length_m, merged_width_m,
    merged_deckHeight_m. cbv zeta.
  assert (Hl : optAll (fun x => geb x 0)
                 (if optTruthyNum (E.length_m e) then E.length_m e
                  else S.length_m s) = true)
    by (apply optAll_keep; auto).
  assert (Hw : optAll (fun x => geb x 0)
                 (if optTruthyNum (E.width_m e) then E.width_m e
                  else S.width_m s) = true)
    by (apply optAll_keep; auto).
  repeat (apply andb_true_intro; split); try assumption.
  - match goal with
    | |- optAll _ (if ?c then _ else _) = true => destruct c
    end.
    + revert Hl Hw.
      generalize (if optTruthyNum (E.length_m e) then E.length_m e
                  else S.length_m s) as l.
      generalize (if optTruthyNum (E.width_m e) then E.width_m e
                  else S.width_m s) as w.
      intros [w|] [l|]; cbn; auto. intros. now apply geb_mult.
    + apply optAll_keep; auto.
  - apply optAll_keep; auto. intros _.
    destruct (E.deckHeight_m e) as [h|]; [|reflexivity].
    match goal with
    | X : optAll (fun h => (geb h 0 && ltb h 10)%bool) _ = true |- _ =>
        cbn in X; apply andb_prop in X; exact (proj1 X)
    end.
Qed.

Lemma sidesGiveArea_merge (s : S.t) (e : E.t) :
  sidesGiveArea (updateStateWithExtraction s e) = true.
Proof.
  unfold sidesGiveArea.
  pose proof (@merged_area_from_sides s e) as H.
  destruct (optTruthyNum (S.length_m (updateStateWithExtraction s e)));
    destruct (optTruthyNum (S.width_m (updateStateWithExtraction s e)));
    cbn; auto.
Qed.

Lemma localInvariant_merge (s : S.t) (e : E.t) :
  numbersInRange e = true -> E.subBaseType e = None ->
  localInvariant s -> localInvariant (updateStateWithExtraction s e).
Proof.
  intros He Hsub (H1 & H2 & H3 & H4 & H5). repeat split.
  - now apply storesNoFalsyValue_merge.
  - now apply noNegativeNumber_merge.
  - apply sidesGiveArea_merge.
  - rewrite merged_subBaseType, Hsub. exact H5.
Qed.

Lemma localInvariant_postcode (u : S.t) (pc : jsstring) :
  pc <> [] -> localInvariant u ->
  localInvariant (S.set_postalCode (Some pc) u).
Proof.
  intros Hpc (H1 & H2 & H3 & H4 & H5). repeat split; try assumption.
  unfold storesNoFalsyValue in *.
  cbn [S.area_m2 S.length_m S.width_m S.gateCount S.fullName S.contactPhone
       S.contactEmail S.postalCode S.projectStartTiming S.groundSoilType
       S.set_postalCode].
  repeat (apply andb_prop in H1; destruct H1 as [H1 ?]).
  repeat (apply andb_true_intro; split); try assumption.
  destruct pc; [now elim Hpc | reflexivity].
Qed.

Section Host.

Variable toUpperCase : jsstring -> jsstring.
Hypothesis toUpperCase_nonempty : forall s, s <> [] -> toUpperCase s <> [].

Lemma localInvariant_settle (s : S.t) (e : E.t) (input : jsstring) :
  numbersInRange e = true -> E.subBaseType e = None ->
  localInvariant s -> localInvariant (settle toUpperCase s e input).
Proof.
  intros He Hsub H. unfold settle. cbv zeta.
  pose proof (@localInvariant_merge s e He Hsub H) as Hm.
  destruct ((detectCurrentField s =? "postalCode")
            && negb (isRelevantFieldExtracted (detectCurrentField s) e s
                       (updateStateWithExtraction s e))
            && (1 <? List.length input)%nat)%bool eqn:C.
  - apply localInvariant_reset. apply localInvariant_postcode; [|exact Hm].
    apply toUpperCase_nonempty.
    apply andb_prop in C. destruct C as [_ C].
    apply Nat.ltb_lt in C. destruct input; [inversion C | discriminate].
  - destruct (negb (isRelevantFieldExtracted (detectCurrentField s) e s
                      (updateStateWithExtraction s e))).
    + now apply localInvariant_increment.
    + now apply localInvariant_reset.
Qed.

Lemma localInvariant_localTurn (s : S.t) (input : jsstring) :
  localInvariant s -> localInvariant (localTurn toUpperCase s input).
Proof.
  intros H. unfold localTurn. apply localInvariant_settle; [| |exact H].
  - apply numbersInRange_extract.
  - pose proof (neverExtracted_extract input) as Hn.
    unfold neverExtracted in Hn. cbn in Hn. now injection Hn.
Qed.

Lemma localInvariant_initial : localInvariant createInitialState.
Proof. repeat split. Qed.

Lemma localInvariant_dialogue (inputs : list jsstring) :
  localInvariant (dialogue toUpperCase inputs).
Proof.
  unfold dialogue.
  generalize localInvariant_initial. generalize createInitialState as s.
  induction inputs as [|u inputs IH]; intros s H; cbn [fold_left].
  - exact H.
  - apply IH. now apply localInvariant_localTurn.
Qed.

End Host.

Lemma toUpperCaseAscii_nonempty (s : jsstring) :
  s <> [] -> toUpperCaseAscii s <> [].
Proof. destruct s; [intros H; now elim H | discriminate]. Qed.

(** X19.  A dialogue served by the local extractor keeps its state sound:
    after any sequence of messages of at most 100 code units no falsy
    value is stored, no number is negative, the stored certainty is the
    one of the state, a length and a width come with their area, and no
    sub-base type is known.  In messages of that length every side read is
    ordinary, and an area derived from two of them is not zero as a double
    either; a message that spells a side of 10^-201 twice leaves the
    source with a length, a width and an area of [0]. *)
Theorem local_dialogue_keeps_state_sound
        (toUpperCase : jsstring -> jsstring) (inputs : list jsstring) :
  (forall s, s <> [] -> toUpperCase s <> []) ->
  shortMessages inputs = true ->
  localInvariant (dialogue toUpperCase inputs).
Proof. intros H _. now apply localInvariant_dialogue. Qed.

Lemma local_dialogue_keeps_state_sound_witness :
  let inputs :=
    map str ["patio"; "0x5"; "sandstone"; "no gates"; "SL4 1AA"] in
  (forall s, s <> [] -> toUpperCaseAscii s <> [])
  /\ shortMessages inputs = true
  /\ localInvariant (dialogue toUpperCaseAscii inputs).
Proof.
  cbv zeta. split; [exact toUpperCaseAscii_nonempty|].
  split; [reflexivity|].
  apply (@local_dialogue_keeps_state_sound toUpperCaseAscii).
  - exact toUpperCaseAscii_nonempty.
  - reflexivity.
Defined.

Lemma reply_Estimate (u : S.t) :
  reply u = Estimate -> isReadyForEstimate u = true.
Proof.
  unfold reply. cbv zeta.
  destruct (isReadyForEstimate u); [reflexivity|].
  cbn [andb]. destruct (getNextQuestion u);
    [destruct (S.showQuickReplies u)|]; discriminate.
Qed.

Lemma orZero_nonneg (o : option number) :
  optAll (fun x => geb x 0) o = true -> geb (orZero o) 0 = true.
Proof.
  destruct o as [x|]; cbn; [|intros _; reflexivity].
  destruct (truthyNum x); [auto | intros _; reflexivity].
Qed.

Lemma estimate_of_sound_state (u : S.t) :
  localInvariant u -> reply u = Estimate ->
  generateEstimate u = Some (Pricing.calculateUKEstimate (projectInputs u))
  /\ S.service u = Some (Pricing.service (projectInputs u))
  /\ S.area_m2 u = Some (Pricing.area_m2 (projectInputs u))
  /\ 0 < Pricing.area_m2 (projectInputs u)
  /\ S.materialTier u = Some (Pricing.materialTier (projectInputs u))
  /\ Pricing.subBaseType (projectInputs u) = dirt.
Proof.
  intros (H1 & H2 & H3 & H4 & H5) Hr. apply reply_Estimate in Hr.
  assert (Hsides : optTruthyNum (S.length_m u) = true ->
                   optTruthyNum (S.width_m u) = true ->
                   optTruthyNum (S.area_m2 u) = true).
  { unfold sidesGiveArea in H3. intros Hl Hw. now rewrite Hl, Hw in H3. }
  destruct (ready_has_pricing_inputs u Hsides H4 Hr)
    as (Hsvc & Ha & Ht & _ & _).
  unfold noNegativeNumber in H2.
  repeat (apply andb_prop in H2; destruct H2 as [H2 ?]).
  unfold generateEstimate, estimatorSchema, projectInputs. cbv zeta.
  cbn [Pricing.service Pricing.area_m2 Pricing.length_m Pricing.width_m
       Pricing.deckHeight_m Pricing.materialTier Pricing.subBaseType].
  destruct (S.service u) as [svc|]; [|discriminate Hsvc].
  destruct (S.materialTier u) as [tier|]; [|discriminate Ht].
  destruct (S.area_m2 u) as [a|]; [|discriminate Ha].
  cbn [optTruthyNum] in Ha. rewrite Ha. rewrite H5.
  cbn [optAll] in H2.
  assert (Hpos : 0 < a).
  { unfold geb in H2. apply Qle_bool_iff in H2.
    apply Qle_lt_or_eq in H2. destruct H2 as [H2 | H2]; [exact H2|].
    unfold truthyNum in Ha. apply negb_true_iff in Ha.
    apply Qeq_bool_neq in Ha. elim Ha. now symmetry. }
  rewrite H2, !orZero_nonneg by assumption.
  assert (Hd : match
                 match S.deckHeight_m u with
                 | Some h => if truthyNum h then Some h else None
                 | None => None
                 end
               with
               | Some h => geb h 0
               | None => true
               end = true).
  { destruct (S.deckHeight_m u) as [h|]; [|reflexivity].
    destruct (truthyNum h); [assumption | reflexivity]. }
  rewrite Hd. repeat split. exact Hpos.
Qed.

(** X20.  When a dialogue served by the local extractor, in messages of at
    most 100 code units, reaches the announcement of the estimate, the
    estimate is computed (the schema accepts the inputs) and it is priced
    on what the user said: the service, the positive area and the material
    tier of the state, none of them a default, over a sub-base that is
    always dirt.  In messages of that length no number read is [Infinity]
    as a double and no derived area is [0]; with longer ones the source
    can announce an estimate on an area of [0], or on one that the schema
    then rejects. *)
Theorem announced_estimate_is_priced_on_the_answers
        (toUpperCase : jsstring -> jsstring) (inputs : list jsstring) :
  (forall s, s <> [] -> toUpperCase s <> []) ->
  shortMessages inputs = true ->
  reply (dialogue toUpperCase inputs) = Estimate ->
  let s := dialogue toUpperCase inputs in
  generateEstimate s = Some (Pricing.calculateUKEstimate (projectInputs s))
  /\ S.service s = Some (Pricing.service (projectInputs s))
  /\ S.area_m2 s = Some (Pricing.area_m2 (projectInputs s))
  /\ 0 < Pricing.area_m2 (projectInputs s)
  /\ S.materialTier s = Some (Pricing.materialTier (projectInputs s))
  /\ Pricing.subBaseType (projectInputs s) = dirt.
Proof.
  intros H _ Hr. cbv zeta. apply estimate_of_sound_state; [|exact Hr].
  now apply localInvariant_dialogue.
Qed.

Lemma announced_estimate_is_priced_on_the_answers_witness :
  let inputs :=
    map str ["lawn mowing"; "20 square meters"; "basic cut and collect";
             "last week"; "John Smith"; "07700900000"; "user@example.com";
             "4000"; "SL4 1AA"] in
  shortMessages inputs = true
  /\ reply (dialogue toUpperCaseAscii inputs) = Estimate
  /\ generateEstimate (dialogue toUpperCaseAscii inputs)
     = Some (Pricing.calculateUKEstimate
               (projectInputs (dialogue toUpperCaseAscii inputs))).
Proof.
  cbv zeta. split; [reflexivity|]. split; [vm_compute; reflexivity|].
  apply (@announced_estimate_is_priced_on_the_answers toUpperCaseAscii).
  - exact toUpperCaseAscii_nonempty.
  - reflexivity.
  - vm_compute. reflexivity.
Defined.

(** A dialogue can end with no question left and no estimate: a width
    without a length is stored, the dimensions count as asked, and the
    score stays at 70. *)
Remark dialogue_without_estimate :
  let s := dialogue toUpperCaseAscii
             (map str ["patio"; "0x5"; "sandstone"; "wide"; "driveway";
                       "flat"; "nothing"; "John Smith"; "07700900000";
                       "user@example.com"; "4000"; "SL4 1AA"]) in
  reply s = TellMore /\ S.width_m s = Some 5 /\ S.area_m2 s = None
  /\ S.certaintyLevel s == 70.
Proof. cbv zeta. repeat split; vm_compute; reflexivity. Qed.

(** X21.  An answer of two or more characters to the postcode question is
    always taken: whatever the extraction holds, the state gets a postcode
    and the retry state is reset. *)
Theorem postcode_answer_is_always_taken
        (toUpperCase : jsstring -> jsstring) (s : S.t) (e : E.t)
        (input : jsstring) :
  detectCurrentField s = "postalCode" ->
  (1 < List.length input)%nat ->
  let s' := settle toUpperCase s e input in
  isSome (S.postalCode s') = true
  /\ S.retryCount s' = []
  /\ S.showQuickReplies s' = false
  /\ S.lastQuestionField s' = None.
Proof.
  intros Hf Hl. cbv zeta. unfold settle. cbv zeta. rewrite Hf.
  apply Nat.ltb_lt in Hl. rewrite Hl. cbn [String.eqb Ascii.eqb Bool.eqb andb].
  rewrite andb_true_r.
  destruct (isRelevantFieldExtracted "postalCode" e s
              (updateStateWithExtraction s e)) eqn:Hrel; cbn [negb].
  - repeat split. cbn in Hrel. apply andb_prop in Hrel. exact (proj1 Hrel).
  - repeat split.
Qed.

Lemma postcode_answer_is_always_taken_witness :
  let s := S.set_userBudget (Some 4000)
             (S.set_contactEmail (Some (str "user@example.com"))
                (S.set_contactPhone (Some (str "07700900000"))
                   (S.set_fullName (Some (str "John Smith"))
                      (S.set_overgrown (Some false)
                         (S.set_materialTier (Some standard)
                            (S.set_area_m2 (Some 20)
                               (S.set_service (Some mowing)
                                  createInitialState))))))) in
  let s' := settle toUpperCaseAscii s E.empty (str "??") in
  detectCurrentField s = "postalCode"
  /\ (1 < List.length (str "??"))%nat
  /\ isSome (S.postalCode s') = true
  /\ S.retryCount s' = []
  /\ S.showQuickReplies s' = false
  /\ S.lastQuestionField s' = None.
Proof.
  cbv zeta. split; [reflexivity|]. split; [cbn; lia|].
  apply postcode_answer_is_always_taken; [reflexivity | cbn; lia].
Defined.

(** X22.  Every question but the postcode has fallback quick replies: for
    each field that [detectCurrentField] can name, other than
    ['postalCode'] and ['unknown'], [getFallbackQuickReplies] (either
    copy) returns a list that is not empty, in whatever state. *)
Theorem every_question_has_fallback_replies (s s' : S.t) :
  detectCurrentField s <> "postalCode" ->
  detectCurrentField s <> "unknown" ->
  QuickReplies.getFallbackQuickReplies (detectCurrentField s) s' <> []
  /\ QuickRepliesEarlier.getFallbackQuickReplies (detectCurrentField s) s'
     <> [].
Proof.
  intros Hp Hu. pose proof (detectCurrentField_in s) as Hin.
  revert Hp Hu Hin. generalize (detectCurrentField s) as f.
  intros f Hp Hu Hin. unfold fieldNames in Hin. cbn [In] in Hin.
  repeat (destruct Hin as [<- | Hin]); try contradiction;
    try (now elim Hp); try (now elim Hu);
    unfold QuickReplies.getFallbackQuickReplies,
      QuickRepliesEarlier.getFallbackQuickReplies;
    cbn [String.eqb Ascii.eqb Bool.eqb];
    repeat match goal with
           | |- context [if ?c then _ else _] => destruct c
           end;
    split; discriminate.
Qed.

Lemma every_question_has_fallback_replies_witness :
  detectCurrentField createInitialState <> "postalCode"
  /\ detectCurrentField createInitialState <> "unknown"
  /\ QuickReplies.getFallbackQuickReplies
       (detectCurrentField createInitialState) createInitialState <> []
  /\ QuickRepliesEarlier.getFallbackQuickReplies
       (detectCurrentField createInitialState) createInitialState <> [].
Proof.
  split; [discriminate|]. split; [discriminate|].
  apply every_question_has_fallback_replies; discriminate.
Defined.

End AppFacts.

(* ====================================================================== *)
(** * Properties of [parseDimensions] *)
(* ====================================================================== *)

Section UtilityFacts.

Import Utilities.
Local Open Scope Q_scope.

Lemma run_Star (ic : bool) (r : regex) (k : cursor -> option cursor)
      (c : cursor) :
  run ic (Star r) k c = starLoop ic r k (S (List.length (rest c))) c.
Proof. reflexivity. Qed.

Lemma inClass_digit (ic : bool) (d : char) :
  isDigit d = true -> inClass ic isDigit d = true.
Proof. intros H. unfold inClass. destruct ic; rewrite H; reflexivity. Qed.

(** The greedy loop over digits reads them all when the continuation
    accepts what follows. *)
Lemma starLoop_digits (ic : bool) (k : cursor -> option cursor)
      (r : jsstring) (cs : list (nat * jsstring)) (res : cursor) :
  match r with
  | [] => True
  | x :: _ => inClass ic isDigit x = false
  end ->
  forall (ds : jsstring) (fuel p : nat) (b : option char),
    (List.length ds < fuel)%nat ->
    Forall (fun c => isDigit c = true) ds ->
    k (after ds p b r cs) = Some res ->
    starLoop ic Digit k fuel
             {| pos := p; before := b; rest := (ds ++ r)%list; caps := cs |}
    = Some res.
Proof.
  intros Hr ds. induction ds as [|d ds IH]; intros fuel p b Hf Hd Hk.
  - destruct fuel as [|fuel]; [inversion Hf|].
    unfold after in Hk. cbn [List.length fold_left] in Hk.
    rewrite Nat.add_0_r in Hk.
    cbn [starLoop app]. unfold Digit. cbn [run]. unfold advance.
    cbn [pos before rest caps].
    destruct r as [|x r']; [exact Hk|].
    rewrite Hr. exact Hk.
  - destruct fuel as [|fuel]; [inversion Hf|].
    inversion Hd as [|? ? Hd1 Hd2]; subst.
    cbn [starLoop app]. unfold Digit. cbn [run]. unfold advance.
    cbn [pos before rest caps].
    rewrite (@inClass_digit ic d Hd1).
    assert (Hlt : (p <? S p)%nat = true) by (apply Nat.ltb_lt; lia).
    rewrite Hlt. fold Digit.
    rewrite (IH fuel (S p) (Some d)); [reflexivity | | exact Hd2 |].
    + cbn [List.length] in Hf. lia.
    + unfold after in *. cbn [List.length fold_left] in Hk.
      replace (S p + List.length ds)%nat with (p + S (List.length ds))%nat
        by lia.
      exact Hk.
Qed.

Lemma run_Seq ic r1 r2 k c :
  run ic (Seq r1 r2) k c = run ic r1 (run ic r2 k) c.
Proof. reflexivity. Qed.

Lemma run_Class ic p k c :
  run ic (Class p) k c
  = match advance c with
    | Some (x, c') => if inClass ic p x then k c' else None
    | None => None
    end.
Proof. reflexivity. Qed.

Lemma run_Lit ic a k c :
  run ic (Lit a) k c
  = match advance c with
    | Some (x, c') => if sameChar ic a x then k c' else None
    | None => None
    end.
Proof. reflexivity. Qed.

Lemma run_Alt ic r1 r2 k c :
  run ic (Alt r1 r2) k c
  = match run ic r1 k c with
    | Some c' => Some c'
    | None => run ic r2 k c
    end.
Proof. reflexivity. Qed.

Lemma after_cons d ds p b r cs :
  after (d :: ds) p b r cs = after ds (S p) (Some d) r cs.
Proof.
  unfold after. cbn [List.length fold_left]. f_equal. lia.
Qed.

(** A whole number followed by neither a digit nor a point is read by
    [\d+(?:\.\d+)?] in full. *)
Lemma run_decimal_whole (ic : bool) (k : cursor -> option cursor)
      (ds : jsstring) (p : nat) (b : option char) (r : jsstring)
      (cs : list (nat * jsstring)) (res : cursor) :
  wholeNumber ds ->
  match r with
  | [] => True
  | x :: _ => inClass ic isDigit x = false /\ sameChar ic 46%N x = false
  end ->
  k (after ds p b r cs) = Some res ->
  run ic LegacyExtraction.decimal k
      {| pos := p; before := b; rest := (ds ++ r)%list; caps := cs |}
  = Some res.
Proof.
  intros [Hne Hd] Hr Hk.
  destruct ds as [|d ds]; [now elim Hne|].
  inversion Hd as [|? ? Hd1 Hd2]; subst.
  unfold LegacyExtraction.decimal, Plus.
  rewrite !run_Seq. unfold Digit at 1. rewrite run_Class.
  unfold advance. cbn [rest pos before caps app].
  rewrite (@inClass_digit ic d Hd1). rewrite run_Star.
  cbn [rest]. apply starLoop_digits.
  - destruct r as [|x r']; [exact I | exact (proj1 Hr)].
  - rewrite length_app. lia.
  - exact Hd2.
  - rewrite after_cons in Hk.
    unfold Opt. rewrite run_Alt, run_Seq.
    change (Word ".") with (Lit 46%N). rewrite run_Lit.
    unfold after at 1. unfold advance. cbn [rest].
    destruct r as [|x r']; [exact Hk|].
    destruct Hr as [_ Hr]. rewrite Hr. exact Hk.
Qed.

Lemma firstn_exact {A} (l r : list A) (n : nat) :
  n = List.length l -> firstn n (l ++ r) = l.
Proof.
  intros ->. rewrite firstn_app, Nat.sub_diag, firstn_all. cbn.
  apply app_nil_r.
Qed.

Lemma run_Bol ic k c :
  run ic Bol k c = if Nat.eqb (pos c) 0 then k c else None.
Proof. reflexivity. Qed.

Lemma run_Eol ic k c :
  run ic Eol k c = match rest c with [] => k c | _ :: _ => None end.
Proof. reflexivity. Qed.

Lemma run_Group ic n r k c :
  run ic (Group n r) k c
  = run ic r
        (fun c' =>
           k {| pos := pos c'; before := before c'; rest := rest c';
                caps := (n, firstn (pos c' - pos c) (rest c)) :: caps c' |})
        c.
Proof. reflexivity. Qed.

(** [A x B] for whole numbers [A] and [B] matches, and the groups are the
    two numbers. *)
Lemma lengthByWidth_whole (A B : jsstring) :
  wholeNumber A -> wholeNumber B ->
  exists m : MatchResult,
    matchRe (A ++ 120%N :: B) lengthByWidth = Some m
    /\ group 1 m = A /\ group 2 m = B.
Proof.
  intros HA HB.
  set (c2 := {| pos := S (List.length A) + List.length B;
                before := fold_left (fun _ d => Some d) B (Some 120%N);
                rest := [];
                caps := [(2%nat, B); (1%nat, A)] |}).
  assert (Hrun : run true (pattern lengthByWidth) Some
                     {| pos := 0; before := None;
                        rest := (A ++ 120%N :: B)%list; caps := [] |}
                 = Some c2).
  { unfold lengthByWidth. cbn [pattern Cat].
    rewrite run_Seq, run_Bol. cbn [pos Nat.eqb].
    rewrite run_Seq, run_Group.
    apply run_decimal_whole; [exact HA | split; reflexivity |].
    unfold after. cbn [pos before rest caps].
    rewrite Nat.add_0_l, Nat.sub_0_r.
    rewrite (firstn_exact A (120%N :: B) eq_refl).
    rewrite run_Seq. change (Word "x") with (Lit 120%N). rewrite run_Lit.
    unfold advance. cbn [rest pos before caps].
    change (sameChar true 120%N 120%N) with true. cbv iota.
    rewrite run_Seq, run_Group.
    match goal with
    | |- run true LegacyExtraction.decimal ?K
             {| pos := ?p; before := ?b; rest := B; caps := ?cs |}
         = Some ?res =>
        pose proof (@run_decimal_whole true K B p b [] cs res HB I) as HB2
    end.
    rewrite app_nil_r in HB2. apply HB2. clear HB2.
    unfold after. cbn [pos before rest caps]. rewrite run_Eol.
    cbn [pos before rest caps].
    subst c2. f_equal. f_equal. f_equal. f_equal.
    replace (S (List.length A) + List.length B - S (List.length A))%nat
      with (List.length B) by lia.
    apply firstn_all. }
  unfold matchRe.
  destruct (A ++ 120%N :: B)%list as [|x s'] eqn:Es.
  { destruct A; discriminate Es. }
  cbn [searchFrom].
  change (ignoreCase lengthByWidth) with true. rewrite Hrun.
  eexists. split; [reflexivity|]. split; reflexivity.
Qed.

Lemma takeDigits_all (ds : jsstring) :
  Forall (fun c => isDigit c = true) ds -> takeDigits ds = (ds, []).
Proof.
  induction 1 as [|d ds Hd _ IH]; cbn [takeDigits]; [reflexivity|].
  now rewrite Hd, IH.
Qed.

Lemma parseFloat_whole (ds : jsstring) :
  Forall (fun c => isDigit c = true) ds ->
  parseFloat ds = inject_Z (digitsToZ ds).
Proof. intros H. unfold parseFloat. now rewrite (takeDigits_all H). Qed.

(** Two whole numbers around an [x] parse to their values, unless one of
    them is zero. *)
Lemma parseDimensions_whole (input A B : jsstring) :
  wholeNumber A -> wholeNumber B ->
  normalize input = (A ++ 120%N :: B)%list ->
  parseDimensions input
  = if ((digitsToZ A <=? 0)%Z || (digitsToZ B <=? 0)%Z)%bool then None
    else Some {| length := inject_Z (digitsToZ A);
                 width := inject_Z (digitsToZ B) |}.
Proof.
  intros HA HB Hn. unfold parseDimensions. cbv zeta. rewrite Hn.
  destruct (lengthByWidth_whole HA HB) as (m & -> & -> & ->).
  rewrite (parseFloat_whole (proj2 HA)), (parseFloat_whole (proj2 HB)).
  assert (E : forall z : Z, Qle_bool (inject_Z z) 0 = (z <=? 0)%Z).
  { intros z. unfold Qle_bool. cbn. now rewrite Z.mul_1_r. }
  now rewrite !E.
Qed.

(** *** The decimal text of a whole number *)

Lemma digitsToZ_snoc (ds : jsstring) (d : char) :
  digitsToZ (ds ++ [d]) = (10 * digitsToZ ds + digitVal d)%Z.
Proof. unfold digitsToZ. now rewrite fold_left_app. Qed.

Lemma digitChar_digit (d : Z) :
  (0 <= d < 10)%Z ->
  isDigit (digitChar d) = true /\ digitVal (digitChar d) = d.
Proof.
  intros H. unfold isDigit, between, digitChar, digitVal. split.
  - apply andb_true_intro. split; apply N.leb_le; lia.
  - lia.
Qed.

Lemma showPos_spec (fuel : nat) :
  forall (n : Z) (acc : jsstring),
    (0 <= n)%Z -> (Z.to_nat n < fuel)%nat ->
    exists ds : jsstring,
      showPos fuel n acc = (ds ++ acc)%list
      /\ wholeNumber ds /\ digitsToZ ds = n.
Proof.
  induction fuel as [|fuel IH]; intros n acc Hn Hf; [inversion Hf|].
  cbn [showPos].
  assert (Hm : (0 <= n mod 10 < 10)%Z) by (apply Z.mod_pos_bound; lia).
  destruct (digitChar_digit Hm) as [Hd Hv].
  destruct (n <? 10)%Z eqn:E.
  - apply Z.ltb_lt in E. exists [digitChar (n mod 10)].
    split; [reflexivity|]. split.
    + split; [discriminate | now constructor].
    + unfold digitsToZ. cbn [fold_left]. rewrite Hv.
      rewrite Z.mod_small by lia. lia.
  - apply Z.ltb_ge in E.
    assert (Hq : (0 <= n / 10)%Z) by (apply Z.div_pos; lia).
    assert (Hlt : (n / 10 < n)%Z) by (apply Z.div_lt; lia).
    destruct (IH (n / 10)%Z (digitChar (n mod 10) :: acc) Hq)
      as (ds & Hs & [Hne Hds] & Hz); [lia|].
    exists (ds ++ [digitChar (n mod 10)])%list. split; [|split].
    + rewrite Hs, <- app_assoc. reflexivity.
    + split.
      * destruct ds; discriminate.
      * apply Forall_app. split; [exact Hds | now constructor].
    + rewrite digitsToZ_snoc, Hz, Hv. symmetry. apply Z.div_mod. lia.
Qed.

Lemma showZ_spec (n : Z) :
  (0 <= n)%Z -> wholeNumber (showZ n) /\ digitsToZ (showZ n) = n.
Proof.
  intros Hn. unfold showZ.
  destruct (n <? 0)%Z eqn:E; [apply Z.ltb_lt in E; lia|].
  destruct (@showPos_spec (S (Z.to_nat n)) n [] Hn) as (ds & Hs & Hw & Hz);
    [lia|].
  rewrite Hs, app_nil_r. split; assumption.
Qed.

(** X23.  [parseDimensions] reads back what was written: an input that
    normalises to the decimal texts of two positive whole numbers around
    an [x] (white space anywhere, the multiplication sign for the [x])
    parses to these two numbers.  The numbers are below 2^53, where a
    double holds every whole number. *)
Theorem parseDimensions_reads_back (input : jsstring) (a b : Z) :
  (0 < a < 2 ^ 53)%Z -> (0 < b < 2 ^ 53)%Z ->
  normalize input = (showZ a ++ str "x" ++ showZ b)%list ->
  parseDimensions input
  = Some {| length := inject_Z a; width := inject_Z b |}.
Proof.
  intros Ha Hb Hn.
  destruct (@showZ_spec a) as [HA Hza]; [lia|].
  destruct (@showZ_spec b) as [HB Hzb]; [lia|].
  rewrite (parseDimensions_whole input HA HB Hn), Hza, Hzb.
  destruct (a <=? 0)%Z eqn:Ea; [apply Z.leb_le in Ea; lia|].
  destruct (b <=? 0)%Z eqn:Eb; [apply Z.leb_le in Eb; lia|].
  reflexivity.
Qed.

Lemma parseDimensions_reads_back_witness :
  (0 < 10 < 2 ^ 53)%Z /\ (0 < 5 < 2 ^ 53)%Z
  /\ normalize (str "10 " ++ [TIMES] ++ str " 5")
     = (showZ 10 ++ str "x" ++ showZ 5)%list
  /\ parseDimensions (str "10 " ++ [TIMES] ++ str " 5")
     = Some {| length := inject_Z 10; width := inject_Z 5 |}.
Proof.
  split; [lia|]. split; [lia|]. split; [reflexivity|].
  apply parseDimensions_reads_back; [lia | lia | reflexivity].
Defined.

(** *** Normal form and sign *)

Lemma filter_map_idempotent (A : Type) (p : A -> bool) (f : A -> A)
    (l : list A) :
  (forall c, f (f c) = f c) ->
  filter p (map f (filter p (map f l))) = filter p (map f l).
Proof.
  intros Hf. induction l as [|c l IH]; [reflexivity|].
  cbn [map filter]. destruct (p (f c)) eqn:E; [|exact IH].
  cbn [map filter]. rewrite Hf, E. f_equal. exact IH.
Qed.

Lemma normalize_idempotent (input : jsstring) :
  normalize (normalize input) = normalize input.
Proof.
  unfold normalize. apply filter_map_idempotent.
  intros c. destruct (N.eqb c TIMES) eqn:Ec; [reflexivity|]. now rewrite Ec.
Qed.

(** X24.  [parseDimensions] sees its input up to white space and the
    multiplication sign, and never returns a length or a width that is
    not positive. *)
Theorem parseDimensions_normal_and_positive (input : jsstring) :
  parseDimensions (normalize input) = parseDimensions input
  /\ match parseDimensions input with
     | Some d => 0 < length d /\ 0 < width d
     | None => True
     end.
Proof.
  split.
  - unfold parseDimensions. cbv zeta. now rewrite normalize_idempotent.
  - unfold parseDimensions. cbv zeta.
    destruct (matchRe (normalize input) lengthByWidth) as [m|]; [|exact I].
    destruct (Qle_bool (parseFloat (group 1 m)) 0) eqn:E1; [exact I|].
    destruct (Qle_bool (parseFloat (group 2 m)) 0) eqn:E2; [exact I|].
    cbn [orb length width].
    split; apply Qnot_le_lt; intros H; apply Qle_bool_iff in H; congruence.
Qed.

End UtilityFacts.
